(** * Stock performance metrics: a shallow embedding of [finance_utils.py]

    The four metric functions of the module are embedded over IEEE-754
    binary64 numbers (Rocq's primitive floats, which are what CPython's
    [float] and numpy's [float64] are), with Python exceptions made explicit
    as a small error monad.  Library routines the module calls but does not
    define (scipy's [newton], the float power operator, [datetime.strptime],
    [pandas.to_datetime], [numpy.cov]) are section variables: every theorem
    holds for each behaviour they may have. *)

From Stdlib Require Import Floats ZArith List String Ascii Bool Lia.
From Stdlib Require Import Permutation Sorted OrderedTypeEx QArith Qabs.
From Stdlib Require Import DecimalString FinFun.
From Stdlib Require Uint63.
Import ListNotations.

#[local] Set Warnings "-inexact-float".

(** ** Python exceptions and results *)

(** The exception classes the module can meet.  All of them derive from
    [Exception], so each is caught by [except Exception]. *)
Inductive exn : Type :=
| TypeError
| ValueError
| ZeroDivisionError
| OverflowError
| IndexError
| RuntimeError.

Inductive PyResult (A : Type) : Type :=
| Ok (a : A)
| Raise (e : exn).

Arguments Ok {A} a.
Arguments Raise {A} e.

Definition bind {A B : Type} (m : PyResult A) (k : A -> PyResult B) : PyResult B :=
  match m with
  | Ok a => k a
  | Raise e => Raise e
  end.

Notation "x <- m ;; k" := (bind m (fun x => k))
  (at level 61, m at next level, right associativity).

(** [try: body except ...: handler] where the handler ignores which
    exception it caught. *)
Definition try_except {A : Type} (body : PyResult A) (handler : PyResult A) : PyResult A :=
  match body with
  | Ok a => Ok a
  | Raise _ => handler
  end.

Definition raises {A : Type} (m : PyResult A) : Prop :=
  exists e, m = Raise e.

(** ** Floating point *)

Open Scope float_scope.

(** Python's [x / y] on floats: raises on a zero divisor. *)
Definition py_div (x y : float) : PyResult float :=
  if y =? 0 then Raise ZeroDivisionError else Ok (x / y).

(** numpy's [x / y] on float64: never raises, gives inf or nan. *)
Definition np_div (x y : float) : float := x / y.

(** Conversion of a count to a float, as numpy does when it divides by
    a length. *)
Definition float_of_nat (n : nat) : float :=
  of_uint63 (Uint63.of_Z (Z.of_nat n)).

(** Conversion of a signed day count, as Python does in [int / float]. *)
Definition float_of_Z (z : Z) : float :=
  if (z <? 0)%Z then - of_uint63 (Uint63.of_Z (- z)) else of_uint63 (Uint63.of_Z z).

Definition is_finite (x : float) : bool :=
  match Prim2SF x with
  | S754_zero _ | S754_finite _ _ _ => true
  | _ => false
  end.

(** A positive finite real: what the data model asks of a closing price. *)
Definition positive_finite (x : float) : bool :=
  (0 <? x) && (x <? infinity).

(** ** Data model *)

(** The value stored under ["date"]: a string (as the web endpoint
    supplies) or a datetime object, represented by its proleptic ordinal. *)
Inductive date_value : Type :=
| DateStr (s : string)
| DateObj (ordinal : Z).

Record price_record : Type := mkPrice {
  date : date_value;
  close : float
}.

(** Python's [a < b] on the two kinds of date value: strings compare
    lexicographically, datetimes chronologically, and a string against a
    datetime raises [TypeError]. *)
Definition py_lt (a b : date_value) : PyResult bool :=
  match a, b with
  | DateStr s, DateStr t => Ok (String.ltb s t)
  | DateObj m, DateObj n => Ok (m <? n)%Z
  | _, _ => Raise TypeError
  end.

(** ** [sorted(prices, key=lambda x: x["date"])]

    Python's sort is stable and uses only [<] on the keys.  Insertion from
    the right reproduces this: the new element goes before the first element
    that is not smaller than it. *)
Fixpoint insert_sorted (x : price_record) (l : list price_record)
  : PyResult (list price_record) :=
  match l with
  | [] => Ok [x]
  | y :: l' =>
      b <- py_lt (date y) (date x) ;;
      if b then (r <- insert_sorted x l' ;; Ok (y :: r))
      else Ok (x :: y :: l')
  end.

Fixpoint sorted (l : list price_record) : PyResult (list price_record) :=
  match l with
  | [] => Ok []
  | x :: l' => s <- sorted l' ;; insert_sorted x s
  end.

(** ** Daily returns

    The loop [for i in range(1, len(sorted_prices))] of both
    [calculate_sharpe_ratio] and [calculate_volatility]. *)
Definition daily_return (prev_price curr_price : float) : PyResult float :=
  py_div (curr_price - prev_price) prev_price.

Fixpoint daily_returns_from (prev : price_record) (rest : list price_record)
  : PyResult (list float) :=
  match rest with
  | [] => Ok []
  | curr :: rest' =>
      r <- daily_return (close prev) (close curr) ;;
      rs <- daily_returns_from curr rest' ;;
      Ok (r :: rs)
  end.

Definition daily_returns (sorted_prices : list price_record) : PyResult (list float) :=
  match sorted_prices with
  | [] => Ok []
  | first :: rest => daily_returns_from first rest
  end.

(** ** numpy reductions

    [np.mean] is the sum over the count; [np.std(a, ddof=1)] and
    [np.var(a, ddof=1)] take the mean, sum the squared deviations and divide
    by [max(n - ddof, 0)].  The division is numpy's, so a zero count gives
    nan and no exception.

    The sum is numpy's pairwise summation of a contiguous array: fewer than
    eight elements are added left to right; up to 128 elements go through
    eight running sums, one for each position modulo eight, which are then
    added in pairs, the elements past the last full group of eight being
    added one by one; a longer array is cut in two, the first part a
    multiple of eight, and the two sums are added. *)

(** The loop [r[j] += a[i + j]] over the groups of eight that follow the
    first one. *)
Fixpoint add_blocks (r rest : list float) (blocks : nat) : list float * list float :=
  match blocks with
  | O => (r, rest)
  | S blocks' =>
      add_blocks (map (fun p => fst p + snd p) (combine r (firstn 8 rest)))
                 (skipn 8 rest) blocks'
  end.

(** The branch for 8 to 128 elements. *)
Definition block_sum (a : list float) : float :=
  let '(r, rest) := add_blocks (firstn 8 a) (skipn 8 a) (List.length a / 8 - 1) in
  match r with
  | [r0; r1; r2; r3; r4; r5; r6; r7] =>
      fold_left PrimFloat.add rest (((r0 + r1) + (r2 + r3)) + ((r4 + r5) + (r6 + r7)))
  | _ => fold_left PrimFloat.add a 0
  end.

(** The recursion, with one unit of fuel for each halving; the length of
    the array is fuel enough (lemma [pairwise_sum_fuel]). *)
Fixpoint pairwise_sum_from (fuel : nat) (a : list float) : float :=
  let n := List.length a in
  if Nat.ltb n 8 then fold_left PrimFloat.add a 0
  else if Nat.leb n 128 then block_sum a
  else
    match fuel with
    | O => block_sum a
    | S fuel' =>
        let half := (n / 2)%nat in
        let n2 := (half - half mod 8)%nat in
        pairwise_sum_from fuel' (firstn n2 a) + pairwise_sum_from fuel' (skipn n2 a)
    end.

Definition pairwise_sum (a : list float) : float :=
  pairwise_sum_from (List.length a) a.

(** [np.add.reduce]: the pairwise sum added to the identity [0.0]. *)
Definition np_sum (a : list float) : float :=
  0 + pairwise_sum a.

Definition np_mean (a : list float) : float :=
  np_div (np_sum a) (float_of_nat (List.length a)).

Definition np_var (a : list float) (ddof : nat) : float :=
  let arrmean := np_mean a in
  let x := map (fun v => v - arrmean) a in
  let x2 := map (fun v => v * v) x in
  np_div (np_sum x2) (float_of_nat (List.length a - ddof)).

Definition np_std (a : list float) (ddof : nat) : float :=
  PrimFloat.sqrt (np_var a ddof).

(** ** [calculate_sharpe_ratio] and [calculate_volatility] *)

Definition trading_days : float := 252.

Definition sharpe_body (prices : list price_record) (risk_free_rate : float)
  : PyResult float :=
  sorted_prices <- sorted prices ;;
  rets <- daily_returns sorted_prices ;;
  if Nat.eqb (List.length rets) 0 then Ok 0
  else
    let mean_daily_return := np_mean rets in
    let std_daily_return := np_std rets 1 in
    let annualized_return := mean_daily_return * trading_days in
    let annualized_volatility := std_daily_return * PrimFloat.sqrt trading_days in
    if annualized_volatility =? 0 then Ok 0
    else Ok ((annualized_return - risk_free_rate) / annualized_volatility).

Definition calculate_sharpe_ratio (prices : list price_record) (risk_free_rate : float)
  : PyResult float :=
  if Nat.ltb (List.length prices) 2 then Ok 0
  else try_except (sharpe_body prices risk_free_rate) (Ok 0).

Definition default_risk_free_rate : float := 0.02.

Definition volatility_body (prices : list price_record) : PyResult float :=
  sorted_prices <- sorted prices ;;
  rets <- daily_returns sorted_prices ;;
  if Nat.eqb (List.length rets) 0 then Ok 0
  else
    let std_daily_return := np_std rets 1 in
    Ok (std_daily_return * PrimFloat.sqrt trading_days * 100).

Definition calculate_volatility (prices : list price_record) : PyResult float :=
  if Nat.ltb (List.length prices) 2 then Ok 0
  else try_except (volatility_body prices) (Ok 0).

(** ** The library routines the module calls *)

Section Environment.

(** [datetime.strptime(s, "%Y-%m-%d")]: the parsed day, as an ordinal, or
    the [ValueError] of a string that does not match the format. *)
Variable strptime : string -> PyResult Z.

(** Python's [x ** y] on floats, which may raise [OverflowError] or
    [ZeroDivisionError]. *)
Variable py_pow : float -> float -> PyResult float.

(** [scipy.optimize.newton(func, x0, maxiter=n)]: the root it settles on,
    or the exception of a run that did not converge or whose [func]
    raised. *)
Variable newton : (float -> PyResult float) -> float -> nat -> PyResult float.

(** [pandas.to_datetime] applied to a whole column; [None] is [NaT]. *)
Variable to_datetime : list date_value -> PyResult (list (option Z)).

(** [numpy.cov(x, y)[0][1]]: the sample covariance of two columns. *)
Variable np_cov : list float -> list float -> float.

(** [strptime] applied to a stored date value: anything but a string is
    a [TypeError]. *)
Definition py_strptime (v : date_value) : PyResult Z :=
  match v with
  | DateStr s => strptime s
  | DateObj _ => Raise TypeError
  end.

(** *** [calculate_xirr] *)

(** [sorted_prices[0]] and [sorted_prices[-1]]. *)
Definition first_item (l : list price_record) : PyResult price_record :=
  match l with
  | [] => Raise IndexError
  | x :: _ => Ok x
  end.

Fixpoint last_item (l : list price_record) : PyResult price_record :=
  match l with
  | [] => Raise IndexError
  | [x] => Ok x
  | _ :: l' => last_item l'
  end.

(** The loop of [xirr_equation] over [zip(cash_flows, dates)], with
    [date0] standing for [dates[0]]. *)
Fixpoint xirr_terms (date0 : Z) (flows : list (float * Z)) (rate total : float)
  : PyResult float :=
  match flows with
  | [] => Ok total
  | (cf, d) :: flows' =>
      let days_diff := (d - date0)%Z in
      denom <- py_pow (1 + rate) (float_of_Z days_diff / 365.25) ;;
      term <- py_div cf denom ;;
      xirr_terms date0 flows' rate (total + term)
  end.

Definition xirr_equation (flows : list (float * Z)) (rate : float) : PyResult float :=
  match flows with
  | [] => Ok 0
  | (_, date0) :: _ => xirr_terms date0 flows rate 0
  end.

(** The [except:] branch: the simple annualized return. *)
Definition xirr_fallback (initial_price : float) (initial_date : Z)
           (final_price : float) (final_date : Z) : PyResult float :=
  let days := (final_date - initial_date)%Z in
  if (0 <? days)%Z then
    ratio <- py_div final_price initial_price ;;
    let total_return := ratio - 1 in
    p <- py_pow (1 + total_return) (365.25 / float_of_Z days) ;;
    let annualized_return := p - 1 in
    Ok (annualized_return * 100)
  else Ok 0.

Definition xirr_body (prices : list price_record) : PyResult float :=
  sorted_prices <- sorted prices ;;
  first <- first_item sorted_prices ;;
  let initial_price := close first in
  initial_date <- py_strptime (date first) ;;
  final <- last_item sorted_prices ;;
  let final_price := close final in
  final_date <- py_strptime (date final) ;;
  let flows := [(- initial_price, initial_date); (final_price, final_date)] in
  match newton (xirr_equation flows) 0.1 100 with
  | Ok rate => Ok (rate * 100)
  | Raise _ => xirr_fallback initial_price initial_date final_price final_date
  end.

Definition calculate_xirr (prices : list price_record) : PyResult float :=
  if Nat.ltb (List.length prices) 2 then Ok 0
  else try_except (xirr_body prices) (Ok 0).

(** *** [calculate_beta] *)

(** A row of the merged frame. *)
Record merged_row : Type := mkRow {
  row_date : option Z;
  close_stock : float;
  close_market : float;
  stock_return : float;
  market_return : float
}.

(** [pd.DataFrame(prices)] followed by the assignment of the converted
    date column, which must have one entry per row. *)
Definition to_frame (prices : list price_record) : PyResult (list (option Z * float)) :=
  ts <- to_datetime (map date prices) ;;
  if Nat.eqb (List.length ts) (List.length prices)
  then Ok (combine ts (map close prices))
  else Raise ValueError.

Definition date_eqb (a b : option Z) : bool :=
  match a, b with
  | Some x, Some y => (x =? y)%Z
  | None, None => true
  | _, _ => false
  end.

(** [pd.merge(stock_df, market_df, on='date')]: the inner join, in the
    order of the left frame; a key met several times on the right gives
    one row per match. *)
Definition merge (stock market : list (option Z * float)) : list merged_row :=
  flat_map (fun l =>
    map (fun r => mkRow (fst l) (snd l) (snd r) nan nan)
        (filter (fun r => date_eqb (fst l) (fst r)) market)) stock.

(** [sort_values('date')]: ascending, [NaT] last. *)
Definition date_ltb (a b : option Z) : bool :=
  match a, b with
  | Some x, Some y => (x <? y)%Z
  | Some _, None => true
  | None, _ => false
  end.

Fixpoint insert_row (x : merged_row) (l : list merged_row) : list merged_row :=
  match l with
  | [] => [x]
  | y :: l' =>
      if date_ltb (row_date y) (row_date x) then y :: insert_row x l'
      else x :: y :: l'
  end.

Definition sort_values (l : list merged_row) : list merged_row :=
  fold_right insert_row [] l.

(** [pct_change()] on both close columns: nan in the first row, then
    [close[i] / close[i-1] - 1], with numpy's division.  Closing prices
    are taken not to be nan, so that no value is carried forward. *)
Fixpoint pct_change_from (prev : merged_row) (rest : list merged_row) : list merged_row :=
  match rest with
  | [] => []
  | r :: rest' =>
      mkRow (row_date r) (close_stock r) (close_market r)
            (np_div (close_stock r) (close_stock prev) - 1)
            (np_div (close_market r) (close_market prev) - 1)
      :: pct_change_from r rest'
  end.

Definition pct_change (l : list merged_row) : list merged_row :=
  match l with
  | [] => []
  | r :: rest =>
      mkRow (row_date r) (close_stock r) (close_market r) nan nan
      :: pct_change_from r rest
  end.

Definition is_nan (x : float) : bool := negb (x =? x).

(** [dropna()]: a row goes when any of its cells is missing. *)
Definition row_has_na (r : merged_row) : bool :=
  match row_date r with
  | None => true
  | Some _ =>
      is_nan (close_stock r) || is_nan (close_market r)
      || is_nan (stock_return r) || is_nan (market_return r)
  end.

Definition dropna (l : list merged_row) : list merged_row :=
  filter (fun r => negb (row_has_na r)) l.

Definition beta_body (stock_prices market_prices : list price_record) : PyResult float :=
  stock_df <- to_frame stock_prices ;;
  market_df <- to_frame market_prices ;;
  let merged_df := merge stock_df market_df in
  if Nat.ltb (List.length merged_df) 2 then Ok 0
  else
    let merged_df := dropna (pct_change (sort_values merged_df)) in
    if Nat.ltb (List.length merged_df) 2 then Ok 0
    else
      let covariance := np_cov (map stock_return merged_df) (map market_return merged_df) in
      let market_variance := np_var (map market_return merged_df) 1 in
      if market_variance =? 0 then Ok 0
      else Ok (np_div covariance market_variance).

Definition calculate_beta (stock_prices market_prices : list price_record) : PyResult float :=
  if Nat.ltb (List.length stock_prices) 2 || Nat.ltb (List.length market_prices) 2 then Ok 0
  else try_except (beta_body stock_prices market_prices) (Ok 0).

End Environment.

(** A sample whose every value is [0.0]. *)
Definition all_zero (a : list float) : Prop := Forall (fun v => v = 0) a.

(** A row whose market return is zero or missing. *)
Definition flat_or_missing (r : merged_row) : Prop :=
  market_return r = 0 \/ is_nan (market_return r) = true.

(** ** Sorting seen as a pure function

    When every key of a list is of one kind, no comparison raises and the
    sort is an insertion sort for the order [key_ltb]. *)

Definition key_ltb (a b : date_value) : bool :=
  match a, b with
  | DateStr s, DateStr t => String.ltb s t
  | DateObj m, DateObj n => (m <? n)%Z
  | DateStr _, DateObj _ => true
  | DateObj _, DateStr _ => false
  end.

Definition is_str (r : price_record) : Prop := exists s, date r = DateStr s.
Definition is_obj (r : price_record) : Prop := exists n, date r = DateObj n.

Definition homogeneous (l : list price_record) : Prop :=
  Forall is_str l \/ Forall is_obj l.

Fixpoint insert_pure (x : price_record) (l : list price_record) : list price_record :=
  match l with
  | [] => [x]
  | y :: l' =>
      if key_ltb (date y) (date x) then y :: insert_pure x l' else x :: y :: l'
  end.

Definition sort_pure (l : list price_record) : list price_record :=
  fold_right insert_pure [] l.

Definition before (x y : price_record) : Prop :=
  key_ltb (date x) (date y) = true.

(** [x] is not later than [y]. *)
Definition not_after (x y : price_record) : Prop :=
  key_ltb (date y) (date x) = false.

(** ** The metrics as the specification words them *)

(** The [N-1] daily returns [(price[i] - price[i-1]) / price[i-1]] of a
    series of closing prices. *)
Definition spec_daily_returns (closes : list float) : list float :=
  map (fun i => (nth i closes 0 - nth (i - 1) closes 0) / nth (i - 1) closes 0)
      (seq 1 (List.length closes - 1)).

(** Sample mean, the sum being taken in numpy's order. *)
Definition sample_mean (rs : list float) : float :=
  np_sum rs / float_of_nat (List.length rs).

(** Sample standard deviation with Bessel's correction, the sum being taken
    in numpy's order. *)
Definition sample_std (rs : list float) : float :=
  let mu := sample_mean rs in
  PrimFloat.sqrt
    (np_sum (map (fun r => (r - mu) * (r - mu)) rs)
     / float_of_nat (List.length rs - 1)).

Definition spec_volatility (closes : list float) : float :=
  sample_std (spec_daily_returns closes) * PrimFloat.sqrt 252 * 100.

Definition spec_sharpe (closes : list float) (risk_free_rate : float) : float :=
  let rs := spec_daily_returns closes in
  let annualized_volatility := sample_std rs * PrimFloat.sqrt 252 in
  if annualized_volatility =? 0 then 0
  else (sample_mean rs * 252 - risk_free_rate) / annualized_volatility.

(** ** Exact reference values

    A finite float is a rational; the reference computations of the concrete
    scenarios are carried out on rationals. *)
Definition float_to_Q (x : float) : option Q :=
  match Prim2SF x with
  | S754_zero _ => Some 0%Q
  | S754_finite s m e =>
      let q := (inject_Z (Z.pos m) * Qpower 2 e)%Q in
      Some (if s then (- q)%Q else q)
  | _ => None
  end.

(** [|x - ref| <= tol]. *)
Definition within (x : float) (ref tol : Q) : bool :=
  match float_to_Q x with
  | Some q => Qle_bool (Qabs (q - ref)) tol
  | None => false
  end.

(** [|x - sqrt ref_sq| <= tol], for [x >= tol]. *)
Definition sqrt_within (x : float) (ref_sq tol : Q) : bool :=
  match float_to_Q x with
  | Some q =>
      Qle_bool tol q
      && Qle_bool ((q - tol) * (q - tol)) ref_sq
      && Qle_bool ref_sq ((q + tol) * (q + tol))
  | None => false
  end.

Definition exact_mean (rs : list Q) : Q :=
  (fold_right Qplus 0 rs / inject_Z (Z.of_nat (List.length rs)))%Q.

Definition exact_sample_variance (rs : list Q) : Q :=
  let mu := exact_mean rs in
  (fold_right Qplus 0 (map (fun r => (r - mu) * (r - mu)) rs)
   / inject_Z (Z.of_nat (List.length rs - 1)))%Q.

(** ** Sample behaviours of the library routines

    Concrete stand-ins, used to run the metrics on concrete series. *)
Module Sample.

Definition digit_of (c : ascii) : option Z :=
  let n := Z.of_N (N_of_ascii c) in
  if ((48 <=? n) && (n <=? 57))%Z then Some (n - 48)%Z else None.

Fixpoint digits_value (acc : Z) (l : list ascii) : option Z :=
  match l with
  | [] => Some acc
  | c :: l' =>
      match digit_of c with
      | Some d => digits_value (10 * acc + d) l'
      | None => None
      end
  end.

Definition is_leap (y : Z) : bool :=
  ((y mod 4 =? 0) && (negb (y mod 100 =? 0) || (y mod 400 =? 0)))%Z.

Definition days_in_month (y m : Z) : Z :=
  if (m =? 2)%Z then (if is_leap y then 29 else 28)%Z
  else if ((m =? 4) || (m =? 6) || (m =? 9) || (m =? 11))%Z then 30%Z
  else 31%Z.

(** Days since a fixed origin of the civil date [y-m-d]. *)
Definition days_from_civil (y m d : Z) : Z :=
  let y' := (if m <=? 2 then y - 1 else y)%Z in
  let era := (y' / 400)%Z in
  let yoe := (y' - era * 400)%Z in
  let mp := ((m + 9) mod 12)%Z in
  let doy := ((153 * mp + 2) / 5 + d - 1)%Z in
  let doe := (yoe * 365 + yoe / 4 - yoe / 100 + doy)%Z in
  (era * 146097 + doe)%Z.

Definition digit_in (lo hi : Z) (c : ascii) : option Z :=
  match digit_of c with
  | Some d => if ((lo <=? d) && (d <=? hi))%Z then Some d else None
  | None => None
  end.

(** The month of ["%m"]: the alternatives [1[0-2]], [0[1-9]], [[1-9]] in
    this order, with what follows the match. *)
Definition parse_month (l : list ascii) : option (Z * list ascii) :=
  match l with
  | c1 :: c2 :: rest =>
      match digit_in 1 1 c1, digit_in 0 2 c2 with
      | Some _, Some d => Some (10 + d, rest)%Z
      | _, _ =>
          match digit_in 0 0 c1, digit_in 1 9 c2 with
          | Some _, Some d => Some (d, rest)
          | _, _ =>
              match digit_in 1 9 c1 with
              | Some d => Some (d, c2 :: rest)
              | None => None
              end
          end
      end
  | [c1] =>
      match digit_in 1 9 c1 with
      | Some d => Some (d, [])
      | None => None
      end
  | [] => None
  end.

(** The day of ["%d"]: the alternatives [3[01]], [[12]\d], [0[1-9]],
    [[1-9]], and a space before [[1-9]], in this order. *)
Definition parse_day (l : list ascii) : option (Z * list ascii) :=
  match l with
  | c1 :: c2 :: rest =>
      match digit_in 3 3 c1, digit_in 0 1 c2 with
      | Some _, Some d => Some (30 + d, rest)%Z
      | _, _ =>
          match digit_in 1 2 c1, digit_in 0 9 c2 with
          | Some t, Some d => Some (10 * t + d, rest)%Z
          | _, _ =>
              match digit_in 0 0 c1, digit_in 1 9 c2 with
              | Some _, Some d => Some (d, rest)
              | _, _ =>
                  match digit_in 1 9 c1 with
                  | Some d => Some (d, c2 :: rest)
                  | None =>
                      if Ascii.eqb c1 " " then
                        match digit_in 1 9 c2 with
                        | Some d => Some (d, rest)
                        | None => None
                        end
                      else None
                  end
              end
          end
      end
  | [c1] =>
      match digit_in 1 9 c1 with
      | Some d => Some (d, [])
      | None => None
      end
  | [] => None
  end.

(** [datetime.strptime(s, "%Y-%m-%d")] on ASCII text: four digits, a
    month and a day with or without a leading zero, nothing after the day,
    and a date that exists.  (Python takes other Unicode decimal digits as
    well.) *)
Definition strptime (s : string) : PyResult Z :=
  match list_ascii_of_string s with
  | y1 :: y2 :: y3 :: y4 :: "-"%char :: after_year =>
      match digits_value 0 [y1; y2; y3; y4], parse_month after_year with
      | Some y, Some (m, "-"%char :: after_month) =>
          match parse_day after_month with
          | Some (d, []) =>
              if ((1 <=? y) && (d <=? days_in_month y m))%Z
              then Ok (days_from_civil y m d)
              else Raise ValueError
          | _ => Raise ValueError
          end
      | _, _ => Raise ValueError
      end
  | _ => Raise ValueError
  end.

(** Values of the float power of CPython, [(x, y, x ** y)], on the
    arguments that the root-finder and the closed form reach on the series
    of the examples. *)
Definition pow_table : list (float * float * float) :=
  [ (* the solver run on [flat_two_points] *)
    (0x1.199999999999ap+0, 0x1.66db072f2284dp-9, 0x1.00111a80b2f81p+0);
    (0x1.19a0cf1800a7cp+0, 0x1.66db072f2284dp-9, 0x1.00111f18d8655p+0);
    (0x1.fd82f8ef54b1bp-1, 0x1.66db072f2284dp-9, 0x1.fffe406da6477p-1);
    (0x1.000fbf0ed762ep+0, 0x1.66db072f2284dp-9, 0x1.00000b08fd2e3p+0);
    (0x1.000009d48309ep+0, 0x1.66db072f2284dp-9, 0x1.00000006e3cc0p+0);
    (0x1.ffffffff64e02p-1, 0x1.66db072f2284dp-9, 0x1.ffffffffff934p-1);
    (* the solver run on [two_points], and its closed form *)
    (0x1.2c408514b6e9dp+5, 0x1.66db072f2284dp-9, 0x1.028db26331a79p+0);
    (0x1.588fb313502d5p+8, 0x1.66db072f2284dp-9, 0x1.0420b1ca396fap+0);
    (0x1.05db7e4ed8046p+12, 0x1.66db072f2284dp-9, 0x1.05e9b6e1ed3b7p+0);
    (0x1.52bf724b9b775p+15, 0x1.66db072f2284dp-9, 0x1.079814312f6c8p+0);
    (0x1.a768308cd2380p+18, 0x1.66db072f2284dp-9, 0x1.0942d05a2a80bp+0);
    (0x1.e9f65ffa63690p+21, 0x1.66db072f2284dp-9, 0x1.0ae1d3c2ffcb9p+0);
    (0x1.083764284edffp+25, 0x1.66db072f2284dp-9, 0x1.0c7620a484b26p+0);
    (0x1.073f14402d594p+28, 0x1.66db072f2284dp-9, 0x1.0dfdd1aebe3a6p+0);
    (0x1.e21be6174a8e4p+30, 0x1.66db072f2284dp-9, 0x1.0f77af378bbbap+0);
    (0x1.92c15210d6630p+33, 0x1.66db072f2284dp-9, 0x1.10e20f8534da3p+0);
    (0x1.307e8b9c95798p+36, 0x1.66db072f2284dp-9, 0x1.123b2287e60d4p+0);
    (0x1.9cb8716903864p+38, 0x1.66db072f2284dp-9, 0x1.1380cb79e2ff1p+0);
    (0x1.efee9d10838b2p+40, 0x1.66db072f2284dp-9, 0x1.14b09a5757ce0p+0);
    (0x1.04b7fa1096f6cp+43, 0x1.66db072f2284dp-9, 0x1.15c7b8424bfb6p+0);
    (0x1.d868578d0ffc9p+44, 0x1.66db072f2284dp-9, 0x1.16c2d6c4f74a1p+0);
    (0x1.6a396ea3d7815p+46, 0x1.66db072f2284dp-9, 0x1.179e24407c36cp+0);
    (0x1.ccb5c0c3b1a65p+47, 0x1.66db072f2284dp-9, 0x1.18555a9d38e43p+0);
    (0x1.dc06ec00ff5f6p+48, 0x1.66db072f2284dp-9, 0x1.18e41d0a7f38bp+0);
    (0x1.89783242bf1e2p+49, 0x1.66db072f2284dp-9, 0x1.194725309857ap+0);
    (0x1.0549ef8cd3fbcp+50, 0x1.66db072f2284dp-9, 0x1.197f1c5c44df6p+0);
    (0x1.23cee310a8454p+50, 0x1.66db072f2284dp-9, 0x1.1994e8de05647p+0);
    (0x1.2a5f58da3f1d5p+50, 0x1.66db072f2284dp-9, 0x1.19994cd8df817p+0);
    (0x1.2ad217b6c12b7p+50, 0x1.66db072f2284dp-9, 0x1.199998b172367p+0);
    (0x1.2ad376eeae7e2p+50, 0x1.66db072f2284dp-9, 0x1.199999996c5c2p+0);
    (0x1.2ad377332d137p+50, 0x1.66db072f2284dp-9, 0x1.1999999999997p+0);
    (0x1.2ad377332d57bp+50, 0x1.66db072f2284dp-9, 0x1.199999999999ap+0);
    (0x1.2ad377332d4a1p+50, 0x1.66db072f2284dp-9, 0x1.1999999999999p+0);
    (0x1.2ad377332d50ep+50, 0x1.66db072f2284dp-9, 0x1.199999999999ap+0);
    (0x1.2ad377332d4d8p+50, 0x1.66db072f2284dp-9, 0x1.199999999999ap+0);
    (0x1.199999999999ap+0, 0x1.6d40000000000p+8, 0x1.2ad377332d564p+50);
    (* the solver run on [tied_dates] *)
    (0x1.199999999999ap+0, 0x1.0000000000000p+2, 0x1.76cf41f212d79p+0);
    (0x1.19a0cf1800a7cp+0, 0x1.0000000000000p+2, 0x1.76f5a4d40aab7p+0);
    (0x1.5992ee67faf80p+0, 0x1.0000000000000p+2, 0x1.a9064e2d315c3p+1);
    (0x1.818ec35694ccep+0, 0x1.0000000000000p+2, 0x1.494a094a59e9dp+2);
    (0x1.b2ec11272b98ep+0, 0x1.0000000000000p+2, 0x1.0a95d50fcbfa7p+3);
    (0x1.d9235c120c442p+0, 0x1.0000000000000p+2, 0x1.755f437f19724p+3);
    (0x1.f2f823c81ae26p+0, 0x1.0000000000000p+2, 0x1.cdd55e6c37ca0p+3);
    (0x1.fda6e1f5dabb6p+0, 0x1.0000000000000p+2, 0x1.f6ac05630ca62p+3);
    (0x1.ffda5451d35c0p+0, 0x1.0000000000000p+2, 0x1.ff6961e7b7138p+3);
    (0x1.ffff91b380d08p+0, 0x1.0000000000000p+2, 0x1.fffe46ce91d37p+3);
    (0x1.ffffffebb6f91p+0, 0x1.0000000000000p+2, 0x1.ffffffaedbe44p+3);
    (* the solver run on [tied_dates_swapped] *)
    (0x1.f1d6a04262c8bp-1, 0x1.0000000000000p+2, 0x1.c9a92404f5eebp-1);
    (0x1.01d3a561727f4p+0, 0x1.0000000000000p+2, 0x1.0762b38fd4647p+0);
    (0x1.001ffe0132aa2p+0, 0x1.0000000000000p+2, 0x1.00801003cc3cap+0);
    (0x1.fffedaae67988p-1, 0x1.0000000000000p+2, 0x1.fffb6abd8e9c2p-1);
    (0x1.0000002dd4b3ep+0, 0x1.0000000000000p+2, 0x1.000000b752cfbp+0);
    (* the solver run on [four_closes] *)
    (0x1.199999999999ap+0, 0x1.0d24456359e3ap-7, 0x1.003352efc3f5fp+0);
    (0x1.19a0cf1800a7cp+0, 0x1.0d24456359e3ap-7, 0x1.003360ba0c065p+0);
    (0x1.d82e08190d434p+2, 0x1.0d24456359e3ap-7, 0x1.043c9fd1c0d87p+0);
    (0x1.41273944d3880p+4, 0x1.0d24456359e3ap-7, 0x1.06628a46e6dd6p+0);
    (0x1.c631d34dcb7afp+5, 0x1.0d24456359e3ap-7, 0x1.08a2a36af28d8p+0);
    (0x1.ec4e82a68568fp+6, 0x1.0d24456359e3ap-7, 0x1.0a528a4e549f9p+0);
    (0x1.b5deab67dd668p+7, 0x1.0d24456359e3ap-7, 0x1.0b95d6c5a17ccp+0);
    (0x1.3649022162bc8p+8, 0x1.0d24456359e3ap-7, 0x1.0c5a52e264009p+0);
    (0x1.6b446dc2acae9p+8, 0x1.0d24456359e3ap-7, 0x1.0cb355bbf5020p+0);
    (0x1.7a66516cc84bfp+8, 0x1.0d24456359e3ap-7, 0x1.0cca65a8c9a05p+0);
    (0x1.7bf9cbd77d74fp+8, 0x1.0d24456359e3ap-7, 0x1.0cccbf0d982aap+0);
    (0x1.7c0304d00195dp+8, 0x1.0d24456359e3ap-7, 0x1.0cccccc544c0dp+0);
    (0x1.7c0309e0454a2p+8, 0x1.0d24456359e3ap-7, 0x1.0cccccccccb52p+0);
    (* the solver run on [tenfold_in_a_day] *)
    (0x1.6ab48444271e0p+8, 0x1.66db072f2284dp-9, 0x1.042a0d3029b07p+0);
    (0x1.42e14fce47e87p+14, 0x1.66db072f2284dp-9, 0x1.070f4b8c51195p+0);
    (0x1.94a0d0375d3f2p+20, 0x1.66db072f2284dp-9, 0x1.0a3c936d35a92p+0);
    (0x1.d58b7e7f71803p+26, 0x1.66db072f2284dp-9, 0x1.0d652889c9762p+0);
    (0x1.149cbb18d98dap+33, 0x1.66db072f2284dp-9, 0x1.109a3d0e7882dp+0);
    (0x1.44634c811b1e3p+39, 0x1.66db072f2284dp-9, 0x1.13d830a74d376p+0);
    (0x1.7c4495bbcf744p+45, 0x1.66db072f2284dp-9, 0x1.171fefae7ba86p+0);
    (0x1.bd2dffbcdb2aep+51, 0x1.66db072f2284dp-9, 0x1.1a71678478b9ap+0);
    (0x1.04497f2b0f20fp+58, 0x1.66db072f2284dp-9, 0x1.1dccbdb7ce778p+0);
    (0x1.300069c846936p+64, 0x1.66db072f2284dp-9, 0x1.21320bd94e456p+0);
    (0x1.62a0a3b00636dp+70, 0x1.66db072f2284dp-9, 0x1.24a16e6d55649p+0);
    (0x1.9d2ce42102a02p+76, 0x1.66db072f2284dp-9, 0x1.281b01a5bc1c8p+0);
    (0x1.e0ca25d9d7749p+82, 0x1.66db072f2284dp-9, 0x1.2b9ee21a0275ap+0);
    (0x1.17619dd59337bp+89, 0x1.66db072f2284dp-9, 0x1.2f2d2c9f58f35p+0);
    (0x1.44467ff912c88p+95, 0x1.66db072f2284dp-9, 0x1.32c5fe51ce182p+0);
    (0x1.77e561081a6ebp+101, 0x1.66db072f2284dp-9, 0x1.36697492b1af4p+0);
    (0x1.b32984f56a39bp+107, 0x1.66db072f2284dp-9, 0x1.3a17ad09533d5p+0);
    (0x1.f71a552df0a8dp+113, 0x1.66db072f2284dp-9, 0x1.3dd0c5a339184p+0);
    (0x1.226f085bee9d3p+120, 0x1.66db072f2284dp-9, 0x1.4194dc9472106p+0);
    (0x1.4ede50639450cp+126, 0x1.66db072f2284dp-9, 0x1.45641057ddf8dp+0);
    (0x1.8191473f8985dp+132, 0x1.66db072f2284dp-9, 0x1.493e7faf74bdep+0);
    (0x1.bb520aa58434fp+138, 0x1.66db072f2284dp-9, 0x1.4d2449a48a2f3p+0);
    (0x1.fd0025ea245f1p+144, 0x1.66db072f2284dp-9, 0x1.51158d880ebb0p+0);
    (0x1.23c91700cc7bdp+151, 0x1.66db072f2284dp-9, 0x1.55126af2cce08p+0);
    (0x1.4e0bb02e313b9p+157, 0x1.66db072f2284dp-9, 0x1.591b01c5a3389p+0);
    (0x1.7ddc9f7f8309ep+163, 0x1.66db072f2284dp-9, 0x1.5d2f7229baeb8p+0);
    (0x1.b3de91936b852p+169, 0x1.66db072f2284dp-9, 0x1.614fdc90ba6d4p+0);
    (0x1.f0c2df56da57fp+175, 0x1.66db072f2284dp-9, 0x1.657c61b4f454dp+0);
    (0x1.1aa520cb550bap+182, 0x1.66db072f2284dp-9, 0x1.69b522999224bp+0);
    (0x1.4122b928f7480p+188, 0x1.66db072f2284dp-9, 0x1.6dfa408abad7ep+0);
    (0x1.6c4adb04fb990p+194, 0x1.66db072f2284dp-9, 0x1.724bdd1db5049p+0);
    (0x1.9c96a353d7996p+200, 0x1.66db072f2284dp-9, 0x1.76aa1a3104661p+0);
    (0x1.d287cc7553461p+206, 0x1.66db072f2284dp-9, 0x1.7b1519ec829d2p+0);
    (0x1.07545d2e3d89dp+213, 0x1.66db072f2284dp-9, 0x1.7f8cfec172f28p+0);
    (0x1.28c636055479ap+219, 0x1.66db072f2284dp-9, 0x1.8411eb6a90e9ap+0);
    (0x1.4de726ffe56fap+225, 0x1.66db072f2284dp-9, 0x1.88a402ec196c0p+0);
    (0x1.7708f48696e7ap+231, 0x1.66db072f2284dp-9, 0x1.8d436893ce561p+0);
    (0x1.a481346928df2p+237, 0x1.66db072f2284dp-9, 0x1.91f03ff8f42c5p+0);
    (0x1.d6a8fa8c3b693p+243, 0x1.66db072f2284dp-9, 0x1.96aaacfc49bd1p+0);
    (0x1.06ee36516d9e3p+250, 0x1.66db072f2284dp-9, 0x1.9b72d3c7f9714p+0);
    (0x1.253d1d4ff124dp+256, 0x1.66db072f2284dp-9, 0x1.a048d8cf840e4p+0);
    (0x1.46717cd54b5dbp+262, 0x1.66db072f2284dp-9, 0x1.a52ce0cfa4a52p+0);
    (0x1.6abc2fc991a6ap+268, 0x1.66db072f2284dp-9, 0x1.aa1f10ce2d6efp+0);
    (0x1.924e2e8445631p+274, 0x1.66db072f2284dp-9, 0x1.af1f8e19dd4d5p+0);
    (0x1.bd580a963b084p+280, 0x1.66db072f2284dp-9, 0x1.b42e7e4a2da9dp+0);
    (0x1.ec0958c99ebbdp+286, 0x1.66db072f2284dp-9, 0x1.b94c073f18683p+0);
    (0x1.0f48049245cedp+293, 0x1.66db072f2284dp-9, 0x1.be784f20d5a05p+0);
    (0x1.2a8bd6864780fp+299, 0x1.66db072f2284dp-9, 0x1.c3b37c5f90cf8p+0);
    (0x1.47e45604084cdp+305, 0x1.66db072f2284dp-9, 0x1.c8fdb5b3152f8p+0);
    (0x1.6763b402d7ae6p+311, 0x1.66db072f2284dp-9, 0x1.ce57221a70dffp+0);
    (0x1.8919a94441f25p+317, 0x1.66db072f2284dp-9, 0x1.d3bfe8db8e89cp+0);
    (0x1.ad12fa4ce77ccp+323, 0x1.66db072f2284dp-9, 0x1.d9383182c5232p+0);
    (0x1.d358f5f59f7abp+329, 0x1.66db072f2284dp-9, 0x1.dec023e25d771p+0);
    (0x1.fbf0f01340f81p+335, 0x1.66db072f2284dp-9, 0x1.e457e8120d105p+0);
    (0x1.136ddcff26803p+342, 0x1.66db072f2284dp-9, 0x1.e9ffa66e66253p+0);
    (0x1.2a0a8d8781233p+348, 0x1.66db072f2284dp-9, 0x1.efb787983c1c5p+0);
    (0x1.41c9a5b61ba32p+354, 0x1.66db072f2284dp-9, 0x1.f57fb473fc42bp+0);
    (0x1.5aa339e8bb616p+360, 0x1.66db072f2284dp-9, 0x1.fb585628fa43dp+0);
    (0x1.748c1a986f136p+366, 0x1.66db072f2284dp-9, 0x1.00a0cb1057fa2p+1);
    (0x1.8f759da63c15bp+372, 0x1.66db072f2284dp-9, 0x1.039dcf02f7fcap+1);
    (0x1.ab4d6ec73ff4fp+378, 0x1.66db072f2284dp-9, 0x1.06a34be2056acp+1);
    (0x1.c7fd68c2a1a8dp+384, 0x1.66db072f2284dp-9, 0x1.09b156c2f2ef4p+1);
    (0x1.e56b7939b4e1ep+390, 0x1.66db072f2284dp-9, 0x1.0cc804da81cc7p+1);
    (0x1.01bcc8575f684p+397, 0x1.66db072f2284dp-9, 0x1.0fe76b7c3e7c4p+1);
    (0x1.1102d037cd42ep+403, 0x1.66db072f2284dp-9, 0x1.130fa019f57cbp+1);
    (0x1.2074d3f6fdfcbp+409, 0x1.66db072f2284dp-9, 0x1.1640b8432001fp+1);
    (0x1.2ffde97332a71p+415, 0x1.66db072f2284dp-9, 0x1.197ac9a448457p+1);
    (0x1.3f8754c040b76p+421, 0x1.66db072f2284dp-9, 0x1.1cbdea0665244p+1);
    (0x1.4ef8a9a7a85c3p+427, 0x1.66db072f2284dp-9, 0x1.200a2f4e2cc0fp+1);
    (0x1.5e37f6e2cd0acp+433, 0x1.66db072f2284dp-9, 0x1.235faf7b5dd51p+1);
    (0x1.6d29fb2a13fd9p+439, 0x1.66db072f2284dp-9, 0x1.26be80a7ff60dp+1);
    (0x1.7bb263fe4c0b8p+445, 0x1.66db072f2284dp-9, 0x1.2a26b90796603p+1);
    (0x1.89b415d760100p+451, 0x1.66db072f2284dp-9, 0x1.2d986ee6512dep+1);
    (0x1.97117d250b446p+457, 0x1.66db072f2284dp-9, 0x1.3113b8a828351p+1);
    (0x1.a3ace74d802e5p+463, 0x1.66db072f2284dp-9, 0x1.3498acc7f3944p+1);
    (0x1.af68e2944f64fp+469, 0x1.66db072f2284dp-9, 0x1.382761d6754bfp+1);
    (0x1.ba28a3933bf9fp+475, 0x1.66db072f2284dp-9, 0x1.3bbfee795793ep+1);
    (0x1.c3d06eb110afcp+481, 0x1.66db072f2284dp-9, 0x1.3f62696a1eebdp+1);
    (0x1.cc4603ca21b6bp+487, 0x1.66db072f2284dp-9, 0x1.430ee9750f7a1p+1);
    (0x1.d3710a0d1c7dfp+493, 0x1.66db072f2284dp-9, 0x1.46c5857805458p+1);
    (0x1.d93b79e74f9b5p+499, 0x1.66db072f2284dp-9, 0x1.4a8654613ed5ap+1);
    (0x1.dd9202bfbafe8p+505, 0x1.66db072f2284dp-9, 0x1.4e516d2e19be4p+1);
    (0x1.e0646a31dd26ep+511, 0x1.66db072f2284dp-9, 0x1.5226e6e9c098cp+1);
    (0x1.e1a5e279e9904p+517, 0x1.66db072f2284dp-9, 0x1.5606d8abc9e6cp+1);
    (0x1.e14d55d5116e8p+523, 0x1.66db072f2284dp-9, 0x1.59f15996c7588p+1);
    (0x1.df55a4ba84cf1p+529, 0x1.66db072f2284dp-9, 0x1.5de680d6c4e82p+1);
    (0x1.dbbdd5050993ep+535, 0x1.66db072f2284dp-9, 0x1.61e6659fb739dp+1);
    (0x1.d68930690d819p+541, 0x1.66db072f2284dp-9, 0x1.65f11f2bd8a8ep+1);
    (0x1.cfbf50e6f5621p+547, 0x1.66db072f2284dp-9, 0x1.6a06c4b9f4659p+1);
    (0x1.c76c1a4b7214fp+553, 0x1.66db072f2284dp-9, 0x1.6e276d8b9f009p+1);
    (0x1.bd9fa03d93de0p+559, 0x1.66db072f2284dp-9, 0x1.725330e35bbd9p+1);
    (0x1.b26df8d14c5abp+565, 0x1.66db072f2284dp-9, 0x1.768a2602adfb4p+1);
    (0x1.a5eefc11bb1a5p+571, 0x1.66db072f2284dp-9, 0x1.7acc642815fe9p+1);
    (0x1.983df1752e6f1p+577, 0x1.66db072f2284dp-9, 0x1.7f1a028cf8632p+1);
    (0x1.89792ca92b5f7p+583, 0x1.66db072f2284dp-9, 0x1.837318636f6dfp+1);
    (0x1.79c19b9ada289p+589, 0x1.66db072f2284dp-9, 0x1.87d7bcd40578ap+1);
    (0x1.693a480bb3d96p+595, 0x1.66db072f2284dp-9, 0x1.8c4806fb57a0bp+1);
    (0x1.5807cf5f490e8p+601, 0x1.66db072f2284dp-9, 0x1.90c40de79fe29p+1);
    (0x1.464fd399ce291p+607, 0x1.66db072f2284dp-9, 0x1.954be89625badp+1);
    (0x1.343868bcbd8efp+613, 0x1.66db072f2284dp-9, 0x1.99dfadf09462ep+1) ].

Fixpoint pow_lookup (x y : float) (table : list (float * float * float))
  : option float :=
  match table with
  | [] => None
  | (x', y', r) :: table' =>
      if (x =? x') && (y =? y') then Some r else pow_lookup x y table'
  end.

(** The float power on the arguments met in the examples: [1.0 ** y] and
    [x ** 0.0] are [1.0], and the table gives the rest.  Outside the table
    the stand-in reports out of range, which is what Python does on
    [10.0 ** 365.25], the one argument outside it that the examples reach. *)
Definition py_pow (x y : float) : PyResult float :=
  if x =? 1 then Ok 1
  else if y =? 0 then Ok 1
  else
    match pow_lookup x y pow_table with
    | Some r => Ok r
    | None => Raise OverflowError
    end.

(** [numpy.isclose(a, b, rtol=0.0, atol=atol)] on two numbers. *)
Definition isclose (a b atol : float) : bool :=
  if is_finite a && is_finite b then abs (a - b) <=? atol + 0 * abs b
  else a =? b.

(** The loop of the secant branch of [scipy.optimize.newton]. *)
Fixpoint secant_loop (func : float -> PyResult float) (tol p0 q0 p1 q1 : float)
         (iterations : nat) : PyResult float :=
  match iterations with
  | O => Raise RuntimeError
  | S iterations' =>
      if q1 =? q0 then
        if negb (p1 =? p0) then Raise RuntimeError else Ok ((p1 + p0) / 2)
      else
        p <- (if abs q0 <? abs q1
              then (a <- py_div (- q0) q1 ;; b <- py_div q0 q1 ;;
                    py_div (a * p1 + p0) (1 - b))
              else (a <- py_div (- q1) q0 ;; b <- py_div q1 q0 ;;
                    py_div (a * p0 + p1) (1 - b))) ;;
        if isclose p p1 tol then Ok p
        else q <- func p ;; secant_loop func tol p1 q1 p q iterations'
  end.

(** [scipy.optimize.newton(func, x0, maxiter=maxiter)] without a
    derivative: the secant method from [x0] and a point next to it, with the
    default tolerance [1.48e-8]. *)
Definition secant (func : float -> PyResult float) (x0 : float) (maxiter : nat)
  : PyResult float :=
  let p0 := 1 * x0 in
  let p1 := x0 * (1 + 1e-4) in
  let p1 := p1 + (if 0 <=? p1 then 1e-4 else - 1e-4) in
  q0 <- func p0 ;;
  q1 <- func p1 ;;
  if abs q1 <? abs q0 then secant_loop func 1.48e-8 p1 q1 p0 q0 maxiter
  else secant_loop func 1.48e-8 p0 q0 p1 q1 maxiter.

Fixpoint to_datetime (col : list date_value) : PyResult (list (option Z)) :=
  match col with
  | [] => Ok []
  | DateStr s :: col' =>
      t <- strptime s ;; ts <- to_datetime col' ;; Ok (Some t :: ts)
  | DateObj n :: col' =>
      ts <- to_datetime col' ;; Ok (Some n :: ts)
  end.

(** Sample covariance, with Bessel's correction. *)
Definition np_cov (x y : list float) : float :=
  let mx := np_mean x in
  let my := np_mean y in
  np_sum (map (fun p => (fst p - mx) * (snd p - my)) (combine x y))
  / float_of_nat (List.length x - 1).

Definition xirr := calculate_xirr strptime py_pow secant.
Definition beta := calculate_beta to_datetime np_cov.

(** Series used in the examples. *)
Definition point (d : string) (c : float) : price_record := mkPrice (DateStr d) c.

Definition one_point : list price_record :=
  [point "2024-01-01" 100].

Definition two_points : list price_record :=
  [point "2024-01-01" 100; point "2024-01-02" 110].

Definition flat_two_points : list price_record :=
  [point "2024-01-01" 100; point "2024-01-02" 100].

Definition flat_three_points : list price_record :=
  [point "2024-01-01" 100; point "2024-01-02" 100; point "2024-01-03" 100].

(** One day apart, a tenfold rise. *)
Definition tenfold_in_a_day : list price_record :=
  [point "2024-01-01" 1; point "2024-01-02" 10].

(** 100 then 110 one day later, the dates written without leading zeros. *)
Definition unpadded_points : list price_record :=
  [point "2024-1-1" 100; point "2024-1-2" 110].

(** Two records share the earliest date. *)
Definition tied_dates : list price_record :=
  [point "2020-01-01" 100; point "2020-01-01" 1600; point "2024-01-01" 1600].

Definition tied_dates_swapped : list price_record :=
  [point "2020-01-01" 1600; point "2020-01-01" 100; point "2024-01-01" 1600].

(** The scenario of the specification, given out of order. *)
Definition four_closes : list price_record :=
  [point "2024-01-03" 101; point "2024-01-01" 100;
   point "2024-01-04" 105; point "2024-01-02" 102].

Definition flat_market : list price_record :=
  [point "2024-01-01" 10; point "2024-01-02" 10;
   point "2024-01-03" 10; point "2024-01-04" 10].

(** A series whose dates are datetime objects. *)
Definition datetime_points : list price_record :=
  [mkPrice (DateObj 739192) 110; mkPrice (DateObj 739191) 100;
   mkPrice (DateObj 739193) 105].

Definition later_market : list price_record :=
  [point "2025-01-01" 10; point "2025-01-02" 11; point "2025-01-03" 12].

End Sample.

(** A string in the exact form ["YYYY-MM-DD"]: ten characters, all of them
    digits but for the dashes in fifth and eighth place. *)
Definition exact_iso_format (s : string) : bool :=
  match list_ascii_of_string s with
  | [y1; y2; y3; y4; "-"%char; m1; m2; "-"%char; d1; d2] =>
      forallb (fun c => match Sample.digit_of c with Some _ => true | None => false end)
              [y1; y2; y3; y4; m1; m2; d1; d2]
  | _ => false
  end.

(** A date value that is not a string in that exact form. *)
Definition not_exact_iso (v : date_value) : Prop :=
  match v with
  | DateStr s => exact_iso_format s = false
  | DateObj _ => True
  end.

(** A float that is not below zero: a zero, a positive number, plus
    infinity or nan. *)
Definition not_negative (x : float) : Prop :=
  match Prim2SF x with
  | S754_finite true _ _ | S754_infinity true => False
  | _ => True
  end.

(** * The web endpoint of [main.py] *)

Module Api.

(** What [response.json()] gives: a parsed JSON document.  The members of
    an object are in document order, as the items of a Python dict are; a
    dict holds each key once. *)
#[local] Unset Elimination Schemes.
Inductive json : Type :=
| JNull
| JBool (b : bool)
| JNum (x : float)
| JStr (s : string)
| JList (items : list json)
| JObj (members : list (string * json)).
#[local] Set Elimination Schemes.

(** The exceptions met inside [get_stock_analysis]: the HTTP errors it
    raises itself, and everything else, which the last handler turns into
    a 500. *)
Inductive api_exn : Type :=
| HTTPException (status_code : Z) (detail : string)
| KeyError (key : string)
| AttributeError
| TypeErr
| ValueErr
| TransportError
| MetricError (e : exn).

Inductive ApiResult (A : Type) : Type :=
| Done (a : A)
| Fail (e : api_exn).

Arguments Done {A} a.
Arguments Fail {A} e.

Definition and_then {A B : Type} (m : ApiResult A) (k : A -> ApiResult B)
  : ApiResult B :=
  match m with
  | Done a => k a
  | Fail e => Fail e
  end.

Notation "x <~ m ;; k" := (and_then m (fun x => k))
  (at level 61, m at next level, right associativity).

Fixpoint lookup (key : string) (members : list (string * json)) : option json :=
  match members with
  | [] => None
  | (k, v) :: members' => if String.eqb key k then Some v else lookup key members'
  end.

Definition is_str_equal (key : string) (v : json) : bool :=
  match v with
  | JStr s => String.eqb key s
  | _ => false
  end.

(** [key in data]: membership of a key in a dict, of an element in a
    list, of a substring in a string; a [TypeError] on anything else. *)
Definition contains (key : string) (data : json) : ApiResult bool :=
  match data with
  | JObj members =>
      Done (match lookup key members with Some _ => true | None => false end)
  | JList items => Done (existsb (is_str_equal key) items)
  | JStr s => Done (match String.index 0 key s with Some _ => true | None => false end)
  | _ => Fail TypeErr
  end.

(** [data[key]] with a string key. *)
Definition getitem (data : json) (key : string) : ApiResult json :=
  match data with
  | JObj members =>
      match lookup key members with
      | Some v => Done v
      | None => Fail (KeyError key)
      end
  | _ => Fail TypeErr
  end.

(** [stock_data.items()]. *)
Definition items (data : json) : ApiResult (list (string * json)) :=
  match data with
  | JObj members => Done members
  | _ => Fail AttributeError
  end.

(** A rendered analysis, or the HTTP error the endpoint ends with. *)
Record analysis : Type := mkAnalysis {
  symbol : string;
  xirr : float;
  sharpe : float;
  volatility : float
}.

Inductive response : Type :=
| Analysis (a : analysis)
| HttpError (status_code : Z) (detail : string).

(** [prices.sort(key=lambda x: x["date"], reverse=True)]: newest first,
    records with equal keys staying in their order.  The keys are dict keys,
    hence strings, and their comparison does not raise. *)
Fixpoint insert_desc (x : price_record) (l : list price_record) : list price_record :=
  match l with
  | [] => [x]
  | y :: l' =>
      if key_ltb (date x) (date y) then y :: insert_desc x l' else x :: y :: l'
  end.

Definition sort_desc (l : list price_record) : list price_record :=
  fold_right insert_desc [] l.

Definition is_http (e : api_exn) : Prop :=
  match e with
  | HTTPException _ _ => True
  | _ => False
  end.

Definition lift_metric (m : PyResult float) : ApiResult float :=
  match m with
  | Ok v => Done v
  | Raise e => Fail (MetricError e)
  end.

Section Endpoint.

(** The three library routines of the metrics. *)
Variable strptime : string -> PyResult Z.
Variable py_pow : float -> float -> PyResult float.
Variable newton : (float -> PyResult float) -> float -> nat -> PyResult float.

(** [symbol.upper()]. *)
Variable upper : string -> string.

(** The request to the quote provider for a symbol and the decoding of its
    body; [None] when either raises. *)
Variable fetch : string -> option json.

(** [float(s)] on a string; [None] is its [ValueError]. *)
Variable parse_float : string -> option float.

(** [round(x, 3)]. *)
Variable round3 : float -> float.

(** Whether the value [calculate_xirr] returns for a series is a complex
    number.  Python's power of a negative base to a fractional exponent is
    one, and so is all that is computed from it; the metrics above keep to
    floats, [py_pow] and [newton] standing for the power and the
    root-finder where their results are real, and this tells where they
    are not. *)
Variable complex_xirr : list price_record -> bool.

(** [round(xirr, 3)]: a [TypeError] on a complex number.  With fewer than
    two points [calculate_xirr] has returned the float [0.0] before any
    power is taken. *)
Definition round_xirr (prices : list price_record) (x : float) : ApiResult float :=
  if Nat.leb 2 (List.length prices) && complex_xirr prices then Fail TypeErr
  else Done (round3 x).

(** [float(v)] on a decoded JSON value. *)
Definition py_float (v : json) : ApiResult float :=
  match v with
  | JStr s =>
      match parse_float s with
      | Some x => Done x
      | None => Fail ValueErr
      end
  | JNum x => Done x
  | JBool b => Done (if b then 1 else 0)
  | _ => Fail TypeErr
  end.

(** The loop over [stock_data.items()]. *)
Fixpoint build_prices (entries : list (string * json)) : ApiResult (list price_record) :=
  match entries with
  | [] => Done []
  | (d, values) :: entries' =>
      raw <~ getitem values "4. close" ;;
      c <~ py_float raw ;;
      rest <~ build_prices entries' ;;
      Done (mkPrice (DateStr d) c :: rest)
  end.

(** The body of the outer [try]. *)
Definition analysis_body (symbol : string) : ApiResult analysis :=
  let symbol := upper symbol in
  match fetch symbol with
  | None => Fail TransportError
  | Some data =>
      has_note <~ contains "Note" data ;;
      if has_note
      then Fail (HTTPException 429 "API rate limit exceeded. Try again later.")
      else
        has_error <~ contains "Error Message" data ;;
        if has_error then Fail (HTTPException 400 "Invalid stock symbol")
        else
          has_series <~ contains "Time Series (Daily)" data ;;
          if negb has_series then Fail (HTTPException 404 "Stock data not found")
          else
            stock_data <~ getitem data "Time Series (Daily)" ;;
            entries <~ items stock_data ;;
            prices <~ build_prices entries ;;
            let prices := sort_desc prices in
            x <~ lift_metric (calculate_xirr strptime py_pow newton prices) ;;
            s <~ lift_metric (calculate_sharpe_ratio prices default_risk_free_rate) ;;
            v <~ lift_metric (calculate_volatility prices) ;;
            rounded_xirr <~ round_xirr prices x ;;
            Done (mkAnalysis symbol rounded_xirr (round3 s) (round3 v))
  end.

(** [get_stock_analysis]: an [HTTPException] goes through, any other
    exception becomes a 500. *)
Definition get_stock_analysis (symbol : string) : response :=
  match analysis_body symbol with
  | Done a => Analysis a
  | Fail (HTTPException status_code detail) => HttpError status_code detail
  | Fail _ => HttpError 500 "Error fetching stock data"
  end.

End Endpoint.

(** A time series in which every entry carries a close that [float]
    accepts. *)
Definition well_formed_entry (parse_float : string -> option float)
           (entry : string * json) : Prop :=
  exists raw c, getitem (snd entry) "4. close" = Done raw
                /\ py_float parse_float raw = Done c.

End Api.

(** * The dashboard of [streamlit_app.py] *)

Module Dashboard.

(** What [requests.get] ends with: a response with its status code and
    its body (or the message of the error that decoding it raises), a
    [RequestException], or another exception. *)
Inductive request_outcome : Type :=
| Responded (status_code : Z) (body : PyResult Api.json)
| RequestException (message : string)
| OtherException (message : string).

(** [str(n)] for an integer. *)
Definition str_of_int (n : Z) : string :=
  NilZero.string_of_int (Z.to_int n).

(** The Python value of a decoded document, [None] standing for Python's
    [None], which is what JSON's [null] decodes to. *)
Definition py_value (data : Api.json) : option Api.json :=
  match data with
  | Api.JNull => None
  | _ => Some data
  end.

Section Fetch.

(** [str(e)] for the error that decoding a body raised, and whether that
    error is a [RequestException]. *)
Variable decode_message : exn -> string.
Variable decode_is_request_exception : exn -> bool.

(** [fetch_stock_data]: the pair [(data, error)]. *)
Definition fetch_stock_data (outcome : request_outcome)
  : option Api.json * option string :=
  match outcome with
  | Responded status_code body =>
      if (status_code =? 200)%Z then
        match body with
        | Ok data => (py_value data, None)
        | Raise e =>
            if decode_is_request_exception e
            then (None, Some ("Connection error: " ++ decode_message e)%string)
            else (None, Some ("Unexpected error: " ++ decode_message e)%string)
        end
      else if (status_code =? 429)%Z
      then (None, Some "API rate limit exceeded. Try again later."%string)
      else if (status_code =? 400)%Z then (None, Some "Invalid stock symbol"%string)
      else if (status_code =? 404)%Z then (None, Some "Stock data not found"%string)
      else (None, Some ("Error: " ++ str_of_int status_code)%string)
  | RequestException message => (None, Some ("Connection error: " ++ message)%string)
  | OtherException message => (None, Some ("Unexpected error: " ++ message)%string)
  end.

End Fetch.

(** The status line and body the web framework sends for what the endpoint
    ends with. *)
Definition rendered (r : Api.response) (body_of : Api.analysis -> Api.json)
  : request_outcome :=
  match r with
  | Api.Analysis a => Responded 200 (Ok (body_of a))
  | Api.HttpError status_code detail =>
      Responded status_code (Ok (Api.JObj [("detail"%string, Api.JStr detail)]))
  end.

(** What the block under [if analyze_button and symbol:] does. *)
Inductive action : Type :=
| Nothing
| AskForSymbol
| Fetch (symbol : string).

Definition truthy (s : string) : bool :=
  match s with
  | EmptyString => false
  | _ => true
  end.

Definition on_click (analyze_button : bool) (symbol : string) : action :=
  if analyze_button && truthy symbol then
    if Nat.ltb (String.length symbol) 1 then AskForSymbol else Fetch symbol
  else Nothing.

End Dashboard.

(** * The launcher of [run_app.py] *)

Module Launcher.

Inductive outcome : Type :=
| Returned
| Exited (code : Z)
| Uncaught.

Record run : Type := mkRun {
  printed : list string;
  prompted : bool;
  result : outcome
}.

Definition required_files : list string :=
  ["main.py"; "finance_utils.py"; "streamlit_app.py"; "requirements.txt"]%string.

Definition newline : string := String "010"%char EmptyString.

Definition env_warning : list string :=
  ["⚠️  Warning: .env file not found!";
   "Please create a .env file with your Alpha Vantage API key:";
   "API_KEY=your_alpha_vantage_api_key_here";
   ""]%string.

Section Check.

(** [os.path.exists]. *)
Variable path_exists : string -> bool.

(** What [input] returns, or [None] when it raises. *)
Variable answer : option string.

(** [.lower().strip()]. *)
Variable lower_strip : string -> string.

Definition check_prerequisites : run :=
  let missing_files := filter (fun file => negb (path_exists file)) required_files in
  match missing_files with
  | _ :: _ =>
      mkRun (["❌ Missing required files:"%string]
             ++ map (fun file => ("   - " ++ file)%string) missing_files
             ++ [(newline ++ "Please make sure all files are in the current directory.")%string])
            false (Exited 1)
  | [] =>
      if negb (path_exists ".env") then
        match answer with
        | None => mkRun env_warning true Uncaught
        | Some line =>
            if String.eqb (lower_strip line) "y" then mkRun env_warning true Returned
            else mkRun (env_warning
                        ++ ["Setup cancelled. Please create .env file first."%string])
                       true (Exited 1)
        end
      else mkRun [] false Returned
  end.

End Check.

End Launcher.

(** * Sample behaviours for the endpoint, the dashboard and the launcher *)

Module Demo.

Definition upper_char (c : ascii) : ascii :=
  let n := nat_of_ascii c in
  if (Nat.leb 97 n && Nat.leb n 122)%bool then ascii_of_nat (n - 32) else c.

(** Upper case of an ASCII string. *)
Fixpoint upper (s : string) : string :=
  match s with
  | EmptyString => EmptyString
  | String c s' => String (upper_char c) (upper s')
  end.

(** [float] on the closes of the sample documents. *)
Definition parse_float (s : string) : option float :=
  if String.eqb s "100.0000" then Some 100
  else if String.eqb s "102.0000" then Some 102
  else if String.eqb s "101.0000" then Some 101
  else if String.eqb s "105.0000" then Some 105
  else None.

(** A stand-in for [round(x, 3)] that leaves its argument as it is. *)
Definition round3 (x : float) : float := x.

(** The sample documents hold positive closes, on which the root-finder
    keeps to rates above -1: no power of a negative base is taken. *)
Definition complex_xirr (prices : list price_record) : bool := false.

Definition entry (close_text : string) : Api.json :=
  Api.JObj [("1. open", Api.JStr "99.0000"); ("4. close", Api.JStr close_text)]%string.

Definition daily_series : list (string * Api.json) :=
  [("2024-01-04", entry "105.0000"); ("2024-01-03", entry "101.0000");
   ("2024-01-02", entry "102.0000"); ("2024-01-01", entry "100.0000")]%string.

Definition good_document : Api.json :=
  Api.JObj [("Meta Data", Api.JObj []); ("Time Series (Daily)", Api.JObj daily_series)]%string.

Definition one_day_document : Api.json :=
  Api.JObj [("Time Series (Daily)",
             Api.JObj [("2024-01-04", entry "105.0000")])]%string.

Definition rate_limited_document : Api.json :=
  Api.JObj [("Note", Api.JStr "Thank you for using Alpha Vantage!");
            ("Error Message", Api.JStr "Invalid API call.");
            ("Time Series (Daily)", Api.JObj daily_series)]%string.

Definition broken_document : Api.json :=
  Api.JObj [("Time Series (Daily)",
             Api.JObj [("2024-01-04", entry "105.0000");
                       ("2024-01-03", Api.JObj [("1. open", Api.JStr "99.0000")])])]%string.

(** A provider that knows a few symbols. *)
Definition fetch (symbol : string) : option Api.json :=
  if String.eqb symbol "AAPL" then Some good_document
  else if String.eqb symbol "NEW" then Some one_day_document
  else if String.eqb symbol "BUSY" then Some rate_limited_document
  else if String.eqb symbol "BROKEN" then Some broken_document
  else None.

Definition get_stock_analysis : string -> Api.response :=
  Api.get_stock_analysis Sample.strptime Sample.py_pow Sample.secant
    upper fetch parse_float round3 complex_xirr.

Definition body_of (a : Api.analysis) : Api.json :=
  Api.JObj [("symbol", Api.JStr (Api.symbol a)); ("xirr", Api.JNum (Api.xirr a));
            ("sharpe", Api.JNum (Api.sharpe a));
            ("volatility", Api.JNum (Api.volatility a))]%string.

Definition decode_message (e : exn) : string := "Expecting value"%string.
Definition decode_is_request_exception (e : exn) : bool := true.

(** A series with a string date and a datetime date. *)
Definition mixed_points : list price_record :=
  [Sample.point "2024-01-01" 100; mkPrice (DateObj 739192) 110;
   Sample.point "2024-01-03" 105].

(** A series whose second day closes at zero. *)
Definition zero_close_points : list price_record :=
  [Sample.point "2024-01-03" 105; Sample.point "2024-01-01" 100;
   Sample.point "2024-01-02" 0].

Definition lower_char (c : ascii) : ascii :=
  let n := nat_of_ascii c in
  if (Nat.leb 65 n && Nat.leb n 90)%bool then ascii_of_nat (n + 32) else c.

(** Lower case of an ASCII string. *)
Fixpoint lower (s : string) : string :=
  match s with
  | EmptyString => EmptyString
  | String c s' => String (lower_char c) (lower s')
  end.

(** The ASCII characters that [str.strip] removes. *)
Definition is_space (c : ascii) : bool :=
  let n := nat_of_ascii c in
  ((Nat.leb 9 n && Nat.leb n 13) || (Nat.leb 28 n && Nat.leb n 32))%bool.

Fixpoint lstrip (l : list ascii) : list ascii :=
  match l with
  | [] => []
  | c :: l' => if is_space c then lstrip l' else l
  end.

Definition strip (s : string) : string :=
  string_of_list_ascii (rev (lstrip (rev (lstrip (list_ascii_of_string s))))).

(** [.lower().strip()] on ASCII text. *)
Definition lower_strip (s : string) : string := strip (lower s).

(** A directory that holds everything but the requirements file and the
    environment file. *)
Definition path_exists (file : string) : bool :=
  String.eqb file "main.py" || String.eqb file "finance_utils.py"
  || String.eqb file "streamlit_app.py".

(** A directory that lacks only the environment file. *)
Definition path_exists_no_env (file : string) : bool :=
  negb (String.eqb file ".env").

End Demo.

(** * Properties *)

(** ** Floating-point facts *)

Lemma sub_self x : is_finite x = true -> x - x = 0.
Proof.
  unfold is_finite. intros H. apply Prim2SF_inj. rewrite sub_spec.
  destruct (Prim2SF x) as [s|s| |s m e] eqn:E; try discriminate.
  - destruct s; reflexivity.
  - unfold SF64sub, SFsub. 
    rewrite Z.min_id.
    unfold shl_align. rewrite Z.sub_diag. cbn [fst].
    rewrite ?Z.sub_diag. reflexivity.
Qed.

Lemma zero_div_pos y : (0 <? y) = true -> 0 / y = 0.
Proof.
  rewrite ltb_spec. intros H. apply Prim2SF_inj. rewrite div_spec.
  change (Prim2SF 0) with (S754_zero false) in *.
  destruct (Prim2SF y) as [s|s| |s m e]; try discriminate; destruct s; try discriminate; reflexivity.
Qed.

Lemma div_self x : is_finite x = true -> (x =? 0) = false -> x / x = 1.
Proof.
  unfold is_finite. rewrite FloatAxioms.eqb_spec. intros H Hz. apply Prim2SF_inj. rewrite div_spec.
  change (Prim2SF 0) with (S754_zero false) in *.
  destruct (Prim2SF x) as [s|s| |s m e] eqn:E; try discriminate.
  unfold SF64div, SFdiv, SFdiv_core_binary.
  replace (Zdigits2 (Z.pos m) + e - (Zdigits2 (Z.pos m) + e))%Z with 0%Z by lia.
    rewrite Z.sub_diag.
    change (Z.min (fexp prec emax 0) 0) with (-53)%Z.
    change (0 - -53)%Z with 53%Z. cbv iota beta.
    rewrite (Z.shiftl_mul_pow2 (Z.pos m) 53) by lia.
    assert (Hd : Z.div_eucl (Z.pos m * 2 ^ 53) (Z.pos m) = (2^53, 0)%Z).
    { pose proof (Z.div_eucl_eq (Z.pos m * 2 ^ 53) (Z.pos m)) as Heq.
      pose proof (Z.mod_pos_bound (Z.pos m * 2 ^ 53) (Z.pos m)) as Hb.
      unfold Z.modulo in Hb.
      destruct (Z.div_eucl (Z.pos m * 2 ^ 53) (Z.pos m)) as [q r].
      assert (Hq : q = (2^53)%Z) by nia.
      assert (Hr : r = 0%Z) by nia.
      subst. reflexivity. }
    rewrite Hd.
    unfold new_location, new_location_even, new_location_odd.
    destruct (Z.even (Z.pos m)); destruct s; reflexivity.
Qed.

Lemma binary_round_aux_bounded (s : bool) (m : positive) (e : Z) :
  bounded prec emax m e = true ->
  binary_round_aux prec emax s (Z.pos m) e loc_Exact = S754_finite s m e.
Proof.
  unfold bounded, canonical_mantissa. intros H.
  apply andb_prop in H. destruct H as [Hc He]. apply Z.eqb_eq in Hc.
  assert (Hs : shr_fexp prec emax (Z.pos m) e loc_Exact
               = ({| shr_m := Z.pos m; shr_r := false; shr_s := false |}, e)).
  { unfold shr_fexp, Zdigits2. rewrite Hc, Z.sub_diag. reflexivity. }
  unfold binary_round_aux. rewrite Hs. cbn [shr_m loc_of_shr_record round_nearest_even].
  rewrite Hs. cbn [shr_m]. rewrite He. reflexivity.
Qed.

Lemma binary_round_aux_doubled (s : bool) (m : positive) (e : Z) :
  bounded prec emax m e = true -> Z.pos (digits2_pos m) = 53%Z ->
  binary_round_aux prec emax s (Z.pos m~0) (e - 1) loc_Exact = S754_finite s m e.
Proof.
  intros H Hd. pose proof H as Hb.
  unfold bounded, canonical_mantissa in H.
  apply andb_prop in H. destruct H as [Hc He]. apply Z.eqb_eq in Hc.
  assert (Hs : shr_fexp prec emax (Z.pos m~0) (e - 1) loc_Exact
               = ({| shr_m := Z.pos m; shr_r := false; shr_s := false |}, e)).
  { unfold shr_fexp, Zdigits2. cbn [digits2_pos]. rewrite Pos2Z.inj_succ.
    replace (Z.succ (Z.pos (digits2_pos m)) + (e - 1))%Z
      with (Z.pos (digits2_pos m) + e)%Z by lia.
    rewrite Hc. replace (e - (e - 1))%Z with 1%Z by lia.
    cbn [shr SpecFloat.iter_pos shr_1 shr_record_of_loc orb].
    f_equal. lia. }
  assert (Hs' : shr_fexp prec emax (Z.pos m) e loc_Exact
               = ({| shr_m := Z.pos m; shr_r := false; shr_s := false |}, e)).
  { unfold shr_fexp, Zdigits2. rewrite Hc, Z.sub_diag. reflexivity. }
  unfold binary_round_aux. rewrite Hs. cbn [shr_m loc_of_shr_record round_nearest_even].
  rewrite Hs'. cbn [shr_m]. rewrite He. reflexivity.
Qed.

Lemma div_eucl_pow2 (a : Z) :
  Z.div_eucl (a * 2 ^ 52) 4503599627370496 = (a, 0%Z).
Proof.
  change 4503599627370496%Z with (2 ^ 52)%Z.
  pose proof (Z.div_mul a (2 ^ 52)) as Hq.
  pose proof (Z.mod_mul a (2 ^ 52)) as Hr.
  unfold Z.div, Z.modulo in Hq, Hr.
  destruct (Z.div_eucl (a * 2 ^ 52) (2 ^ 52)) as [q r].
  cbn [fst snd] in Hq, Hr. rewrite Hq, Hr by lia. reflexivity.
Qed.

Lemma div_one x : x / 1 = x.
Proof.
  apply Prim2SF_inj. rewrite div_spec.
  change (Prim2SF 1) with (S754_finite false 4503599627370496 (-52)).
  pose proof (Prim2SF_valid x) as V.
  destruct (Prim2SF x) as [s|s| |s m e] eqn:E;
    [destruct s; reflexivity|destruct s; reflexivity|reflexivity|].
  cbn [SpecFloat.valid_binary] in V. pose proof V as Hb.
  unfold bounded, canonical_mantissa in V.
  apply andb_prop in V. destruct V as [Hc He]. apply Z.eqb_eq in Hc.
  unfold fexp, emin, prec, emax in Hc.
  unfold SF64div, SFdiv, SFdiv_core_binary.
  replace (xorb s false) with s by (destruct s; reflexivity).
  change (Zdigits2 4503599627370496) with 53%Z.
  cbn [Zdigits2]. unfold fexp, emin. 
  change prec with 53%Z. change emax with 1024%Z.
  destruct (Z.eq_dec (Z.pos (digits2_pos m)) 53) as [Hd|Hd];
    [destruct (Z.eq_dec e (-1074)) as [He0|He0]|].
  - (* the least normal exponent *)
    replace (Z.min (Z.max (Z.pos (digits2_pos m) + e - (53 + -52) - 53) (3 - 1024 - 53))
                   (e - -52))%Z with e by lia.
    replace (e - -52 - e)%Z with 52%Z by lia. cbv iota beta.
    rewrite (Z.shiftl_mul_pow2 (Z.pos m) 52) by lia.
    rewrite div_eucl_pow2. cbv iota beta.
    change (new_location 4503599627370496 0) with loc_Exact.
    now apply binary_round_aux_bounded.
  - replace (Z.min (Z.max (Z.pos (digits2_pos m) + e - (53 + -52) - 53) (3 - 1024 - 53))
                   (e - -52))%Z with (e - 1)%Z by lia.
    replace (e - -52 - (e - 1))%Z with 53%Z by lia. cbv iota beta.
    rewrite (Z.shiftl_mul_pow2 (Z.pos m) 53) by lia.
    replace (Z.pos m * 2 ^ 53)%Z with (Z.pos m~0 * 2 ^ 52)%Z by lia.
    rewrite div_eucl_pow2. cbv iota beta.
    change (new_location 4503599627370496 0) with loc_Exact.
    now apply binary_round_aux_doubled.
  - replace (Z.min (Z.max (Z.pos (digits2_pos m) + e - (53 + -52) - 53) (3 - 1024 - 53))
                   (e - -52))%Z with e by lia.
    replace (e - -52 - e)%Z with 52%Z by lia. cbv iota beta.
    rewrite (Z.shiftl_mul_pow2 (Z.pos m) 52) by lia.
    rewrite div_eucl_pow2. cbv iota beta.
    change (new_location 4503599627370496 0) with loc_Exact.
    now apply binary_round_aux_bounded.
Qed.

Lemma opp_add_self x : is_finite x = true -> 0 + - x + x = 0.
Proof.
  unfold is_finite. intros H. apply Prim2SF_inj.
  rewrite !add_spec, opp_spec.
  change (Prim2SF 0) with (S754_zero false).
  destruct (Prim2SF x) as [s|s| |s m e] eqn:E; try discriminate.
  - destruct s; reflexivity.
  - cbn [SFopp SF64add SFadd].
    rewrite Z.min_id. unfold shl_align. rewrite Z.sub_diag. cbn [fst].
    replace (cond_Zopp (negb s) (Z.pos m) + cond_Zopp s (Z.pos m))%Z with 0%Z
      by (unfold cond_Zopp; destruct s; cbn [negb]; lia).
    reflexivity.
Qed.

Lemma digits2_pos_iter_xO (k p : positive) :
  digits2_pos (Pos.iter xO p k) = (digits2_pos p + k)%positive.
Proof.
  revert p. induction k using Pos.peano_ind; intros p.
  - simpl. lia.
  - rewrite Pos.iter_succ. simpl. rewrite IHk. lia.
Qed.

Lemma digits2_pos_lower (p : positive) :
  (2 ^ (Z.pos (digits2_pos p) - 1) <= Z.pos p)%Z.
Proof.
  induction p as [p IH|p IH|]; simpl digits2_pos.
  - rewrite Pos2Z.inj_succ. replace (Z.succ (Z.pos (digits2_pos p)) - 1)%Z
      with (Z.succ (Z.pos (digits2_pos p) - 1))%Z by lia.
    rewrite Z.pow_succ_r by lia. lia.
  - rewrite Pos2Z.inj_succ. replace (Z.succ (Z.pos (digits2_pos p)) - 1)%Z
      with (Z.succ (Z.pos (digits2_pos p) - 1))%Z by lia.
    rewrite Z.pow_succ_r by lia. lia.
  - simpl. lia.
Qed.

Lemma digits2_pos_le_prec (p : positive) :
  (Z.pos p < 2 ^ 53)%Z -> (Z.pos (digits2_pos p) <= 53)%Z.
Proof.
  intros H. pose proof (digits2_pos_lower p) as L.
  destruct (Z.le_gt_cases (Z.pos (digits2_pos p)) 53) as [|G]; [assumption|].
  assert (2 ^ 53 <= 2 ^ (Z.pos (digits2_pos p) - 1))%Z
    by (apply Z.pow_le_mono_r; lia).
  lia.
Qed.

Lemma binary_round_aux_exact (m : positive) (e : Z) :
  Z.pos (digits2_pos m) = 53%Z -> (-1074 <= e <= 971)%Z ->
  binary_round_aux prec emax false (Z.pos m) e loc_Exact = S754_finite false m e.
Proof.
  intros Hd He.
  assert (Hs : shr_fexp prec emax (Z.pos m) e loc_Exact
               = ({| shr_m := Z.pos m; shr_r := false; shr_s := false |}, e)).
  { unfold shr_fexp, Zdigits2. rewrite Hd. unfold fexp, emin, prec, emax.
    replace (Z.max (53 + e - 53) (3 - 1024 - 53) - e)%Z with 0%Z by lia.
    reflexivity. }
  unfold binary_round_aux. rewrite Hs. cbn [shr_m loc_of_shr_record round_nearest_even].
  rewrite Hs. cbn [shr_m].
  replace (e <=? emax - prec)%Z with true; [reflexivity|].
  symmetry. apply Z.leb_le. unfold emax, prec. lia.
Qed.

Lemma binary_normalize_small (p : positive) :
  (Z.pos p < 2 ^ 53)%Z ->
  exists m e, binary_normalize prec emax (Z.pos p) 0 false = S754_finite false m e.
Proof.
  intros Hp. pose proof (digits2_pos_le_prec p Hp) as Hd.
  unfold binary_normalize, binary_round, shl_align.
  unfold fexp, emin, prec, emax.
  replace (Z.max (Z.pos (digits2_pos p) + 0 - 53) (3 - 1024 - 53) - 0)%Z
    with (Z.pos (digits2_pos p) - 53)%Z by lia.
  replace (Z.max (Z.pos (digits2_pos p) + 0 - 53) (3 - 1024 - 53))%Z
    with (Z.pos (digits2_pos p) - 53)%Z by lia.
  destruct (Z.pos (digits2_pos p) - 53)%Z as [|q|q] eqn:E; try lia.
  - exists p, 0%Z. apply binary_round_aux_exact; lia.
  - eexists _, _. apply binary_round_aux_exact.
    + rewrite digits2_pos_iter_xO. lia.
    + lia.
Qed.

Lemma float_of_nat_pos (n : nat) :
  (0 < n)%nat -> (Z.of_nat n < 2 ^ 53)%Z -> (0 <? float_of_nat n) = true.
Proof.
  intros Hn Hb. unfold float_of_nat. rewrite ltb_spec, of_uint63_spec.
  rewrite Uint63.of_Z_spec.
  rewrite Z.mod_small by (change Uint63.wB with (2 ^ 63)%Z; lia).
  destruct (Z.of_nat n) as [|p|p] eqn:E; try lia.
  destruct (binary_normalize_small p Hb) as (m & e & ->).
  reflexivity.
Qed.

(** ** The sort *)

Lemma string_ltb_lt s t : String.ltb s t = true <-> String_as_OT.lt s t.
Proof.
  unfold String.ltb. rewrite <- String_as_OT.cmp_lt. unfold String_as_OT.cmp.
  destruct (String.compare s t); split; congruence.
Qed.

Lemma key_ltb_trans a b c : key_ltb a b = true -> key_ltb b c = true -> key_ltb a c = true.
Proof.
  destruct a, b, c; simpl; try congruence.
  - rewrite !string_ltb_lt. apply String_as_OT.lt_trans.
  - rewrite !Z.ltb_lt. lia.
Qed.

Lemma key_ltb_irrefl a : key_ltb a a = false.
Proof.
  destruct a; simpl.
  - destruct (String.ltb s s) eqn:E; [|reflexivity].
    apply string_ltb_lt in E. exfalso. eapply String_as_OT.lt_not_eq; [exact E|reflexivity].
  - apply Z.ltb_irrefl.
Qed.

Lemma key_ltb_asym a b : key_ltb a b = true -> key_ltb b a = false.
Proof.
  intros H. destruct (key_ltb b a) eqn:E; [|reflexivity].
  pose proof (key_ltb_trans _ _ _ H E) as T. rewrite key_ltb_irrefl in T. discriminate.
Qed.

Lemma key_ltb_total a b : a = b \/ key_ltb a b = true \/ key_ltb b a = true.
Proof.
  destruct a as [s|m], b as [t|n]; simpl; auto.
  - unfold String.ltb. rewrite (String.compare_antisym t s).
    destruct (String.compare s t) eqn:E; simpl; auto.
    left. f_equal. now apply String.compare_eq_iff.
  - destruct (Z.lt_trichotomy m n) as [H|[H|H]].
    + right; left. now apply Z.ltb_lt.
    + left. now subst.
    + right; right. now apply Z.ltb_lt.
Qed.

Lemma py_lt_str x y : is_str x -> is_str y -> py_lt (date x) (date y) = Ok (key_ltb (date x) (date y)).
Proof. intros [s ->] [t ->]. reflexivity. Qed.

Lemma py_lt_obj x y : is_obj x -> is_obj y -> py_lt (date x) (date y) = Ok (key_ltb (date x) (date y)).
Proof. intros [s ->] [t ->]. reflexivity. Qed.

Lemma insert_pure_Forall (P : price_record -> Prop) x l :
  P x -> Forall P l -> Forall P (insert_pure x l).
Proof.
  intros Hx Hl. induction Hl as [|y l Hy Hl IH]; simpl.
  - auto.
  - destruct (key_ltb (date y) (date x)); auto.
Qed.

Lemma sort_pure_Forall (P : price_record -> Prop) l :
  Forall P l -> Forall P (sort_pure l).
Proof.
  induction 1; simpl; [constructor|]. now apply insert_pure_Forall.
Qed.

Section SameKind.
Variable K : price_record -> Prop.
Hypothesis py_lt_K : forall x y, K x -> K y ->
  py_lt (date x) (date y) = Ok (key_ltb (date x) (date y)).

Lemma insert_sorted_pure x l :
  K x -> Forall K l -> insert_sorted x l = Ok (insert_pure x l).
Proof.
  intros Hx Hl. induction Hl as [|y l Hy Hl IH]; simpl; [reflexivity|].
  rewrite (py_lt_K _ _ Hy Hx). simpl.
  destruct (key_ltb (date y) (date x)); [|reflexivity].
  rewrite IH. reflexivity.
Qed.

Lemma sorted_pure_K l : Forall K l -> sorted l = Ok (sort_pure l).
Proof.
  induction 1 as [|x l Hx Hl IH]; simpl; [reflexivity|].
  rewrite IH. simpl. apply insert_sorted_pure; [assumption|].
  now apply sort_pure_Forall.
Qed.
End SameKind.

Lemma sorted_homogeneous l : homogeneous l -> sorted l = Ok (sort_pure l).
Proof.
  intros [H|H].
  - apply (sorted_pure_K is_str py_lt_str l H).
  - apply (sorted_pure_K is_obj py_lt_obj l H).
Qed.

Lemma insert_pure_perm x l : Permutation (x :: l) (insert_pure x l).
Proof.
  induction l as [|y l IH]; simpl; [reflexivity|].
  destruct (key_ltb (date y) (date x)); [|reflexivity].
  rewrite perm_swap. now constructor.
Qed.

Lemma sort_pure_perm l : Permutation l (sort_pure l).
Proof.
  induction l as [|x l IH]; simpl; [constructor|].
  rewrite <- insert_pure_perm. now constructor.
Qed.

Lemma sort_pure_length l : List.length (sort_pure l) = List.length l.
Proof. symmetry. apply Permutation_length, sort_pure_perm. Qed.

Lemma insert_pure_sorted x l :
  Forall (fun y => date y <> date x) l ->
  StronglySorted before l -> StronglySorted before (insert_pure x l).
Proof.
  intros Hne Hs. induction Hs as [|y l Hs IH Hy]; simpl.
  - repeat constructor.
  - inversion Hne as [|? ? Hyx Hne']; subst.
    destruct (key_ltb (date y) (date x)) eqn:E.
    + constructor; [now apply IH|].
      apply (Permutation_Forall (insert_pure_perm x l)). constructor; assumption.
    + assert (Hxy : before x y).
      { unfold before. destruct (key_ltb_total (date y) (date x)) as [H|[H|H]];
          [contradiction|congruence|assumption]. }
      constructor; [constructor; assumption|].
      constructor; [assumption|].
      eapply Forall_impl; [|exact Hy]. intros z Hz. unfold before in *.
      eapply key_ltb_trans; eassumption.
Qed.

Lemma sort_pure_sorted l :
  NoDup (map date l) -> StronglySorted before (sort_pure l).
Proof.
  induction l as [|x l IH]; simpl; intros Hnd; [constructor|].
  inversion Hnd as [|? ? Hnotin Hnd']; subst.
  apply insert_pure_sorted; [|now apply IH].
  apply (Permutation_Forall (sort_pure_perm l)).
  apply Forall_forall. intros y Hy Heq. apply Hnotin. rewrite <- Heq. now apply in_map.
Qed.

Lemma sorted_unique l1 l2 :
  StronglySorted before l1 -> StronglySorted before l2 ->
  Permutation l1 l2 -> l1 = l2.
Proof.
  intros H1. revert l2. induction H1 as [|a l1 H1 IH Ha]; intros l2 H2 P.
  - apply Permutation_nil in P. now subst.
  - destruct H2 as [|b l2 H2 Hb].
    + apply Permutation_sym, Permutation_nil in P. discriminate.
    + assert (Hab : a = b).
      { assert (Ia : In a (b :: l2)) by (eapply Permutation_in; [exact P|now left]).
        assert (Ib : In b (a :: l1))
          by (eapply Permutation_in; [apply Permutation_sym; exact P|now left]).
        destruct Ia as [Ia|Ia]; [now subst|].
        destruct Ib as [Ib|Ib]; [now subst|].
        rewrite Forall_forall in Ha, Hb.
        pose proof (Ha _ Ib) as X. pose proof (Hb _ Ia) as Y. unfold before in *.
        rewrite (key_ltb_asym _ _ X) in Y. discriminate. }
      subst b. f_equal. apply IH; [assumption|].
      eapply Permutation_cons_inv; exact P.
Qed.

Lemma sort_pure_permutation_invariant l1 l2 :
  NoDup (map date l1) -> Permutation l1 l2 -> sort_pure l1 = sort_pure l2.
Proof.
  intros Hnd P. apply sorted_unique.
  - now apply sort_pure_sorted.
  - apply sort_pure_sorted. eapply Permutation_NoDup; [|exact Hnd].
    now apply Permutation_map.
  - rewrite <- (sort_pure_perm l1), <- (sort_pure_perm l2). exact P.
Qed.

(** ** Sums, means and variances of constant-zero samples *)

Lemma fold_add_zero a : all_zero a -> fold_left PrimFloat.add a 0 = 0.
Proof.
  induction 1 as [|v a Hv Ha IH]; simpl; [reflexivity|].
  subst v. exact IH.
Qed.

Lemma all_zero_parts n a :
  all_zero a -> all_zero (firstn n a) /\ all_zero (skipn n a).
Proof.
  intros Ha. apply Forall_app. rewrite firstn_skipn. exact Ha.
Qed.

Lemma all_zero_firstn n a : all_zero a -> all_zero (firstn n a).
Proof. intros Ha. apply (all_zero_parts n a Ha). Qed.

Lemma all_zero_skipn n a : all_zero a -> all_zero (skipn n a).
Proof. intros Ha. apply (all_zero_parts n a Ha). Qed.

Lemma all_zero_add r chunk :
  all_zero r -> all_zero chunk ->
  all_zero (map (fun p => fst p + snd p) (combine r chunk)).
Proof.
  intros Hr. revert chunk. induction Hr as [|x r Hx Hr IH]; intros chunk Hc; [constructor|].
  destruct Hc as [|y chunk Hy Hc]; [constructor|]. simpl. constructor.
  - subst. reflexivity.
  - now apply IH.
Qed.

Lemma add_blocks_zero blocks r rest :
  all_zero r -> all_zero rest ->
  all_zero (fst (add_blocks r rest blocks)) /\ all_zero (snd (add_blocks r rest blocks)).
Proof.
  revert r rest. induction blocks as [|b IH]; intros r rest Hr Hrest;
    cbn [add_blocks fst snd]; [auto|].
  apply IH.
  - apply all_zero_add; [assumption|now apply all_zero_firstn].
  - now apply all_zero_skipn.
Qed.

Lemma block_sum_zero a : all_zero a -> block_sum a = 0.
Proof.
  intros Ha. unfold block_sum.
  destruct (add_blocks_zero (List.length a / 8 - 1) (firstn 8 a) (skipn 8 a))
    as [Hr Hrest]; [now apply all_zero_firstn|now apply all_zero_skipn|].
  destruct (add_blocks (firstn 8 a) (skipn 8 a) (List.length a / 8 - 1)) as [r rest].
  simpl in Hr, Hrest.
  destruct r as [|r0 [|r1 [|r2 [|r3 [|r4 [|r5 [|r6 [|r7 [|r8 r]]]]]]]]];
    try (now apply fold_add_zero).
  unfold all_zero in Hr.
  repeat match goal with H : Forall _ (_ :: _) |- _ => inversion H; clear H; subst end.
  change (0 + 0 + (0 + 0) + (0 + 0 + (0 + 0))) with 0. now apply fold_add_zero.
Qed.

Lemma pairwise_sum_from_zero fuel a : all_zero a -> pairwise_sum_from fuel a = 0.
Proof.
  revert a. induction fuel as [|fuel IH]; intros a Ha; cbn [pairwise_sum_from].
  - destruct (Nat.ltb (List.length a) 8); [now apply fold_add_zero|].
    destruct (Nat.leb (List.length a) 128); now apply block_sum_zero.
  - destruct (Nat.ltb (List.length a) 8); [now apply fold_add_zero|].
    destruct (Nat.leb (List.length a) 128); [now apply block_sum_zero|].
    rewrite !IH by (first [now apply all_zero_firstn | now apply all_zero_skipn]).
    reflexivity.
Qed.

(** The length of the array is fuel enough: more fuel changes nothing. *)
Lemma pairwise_sum_fuel fuel a :
  (List.length a <= fuel)%nat -> pairwise_sum_from fuel a = pairwise_sum a.
Proof.
  unfold pairwise_sum.
  assert (G : forall f f' b, (List.length b <= f)%nat -> (List.length b <= f')%nat ->
                             pairwise_sum_from f b = pairwise_sum_from f' b);
    [|intros H; apply G; [assumption|apply Nat.le_refl]].
  induction f as [|f IH]; intros f' b Hf Hf'.
  - destruct b; [|simpl in Hf; lia]. destruct f'; reflexivity.
  - destruct f' as [|f'].
    + destruct b; [|simpl in Hf'; lia]. reflexivity.
    + cbn [pairwise_sum_from].
      destruct (Nat.ltb (List.length b) 8) eqn:E8; [reflexivity|].
      destruct (Nat.leb (List.length b) 128) eqn:E128; [reflexivity|].
      apply Nat.leb_gt in E128.
      set (n := List.length b) in *. set (half := (n / 2)%nat).
      assert (Hhalf : (64 <= half /\ 2 * half <= n)%nat).
      { unfold half. split.
        - apply Nat.div_le_lower_bound; lia.
        - apply Nat.Div0.mul_div_le. }
      assert (Hmod : (half mod 8 < 8)%nat) by (apply Nat.mod_upper_bound; lia).
      f_equal; apply IH; rewrite ?length_firstn, ?length_skipn; fold n; lia.
Qed.

Lemma np_sum_zero a : all_zero a -> np_sum a = 0.
Proof.
  intros Ha. unfold np_sum, pairwise_sum. now rewrite pairwise_sum_from_zero.
Qed.

Lemma np_mean_zero a :
  all_zero a -> a <> [] -> (Z.of_nat (List.length a) < 2 ^ 53)%Z -> np_mean a = 0.
Proof.
  intros Ha Hne Hb. unfold np_mean, np_div. rewrite (np_sum_zero a Ha).
  apply zero_div_pos, float_of_nat_pos; [|assumption].
  destruct a; [congruence|simpl; lia].
Qed.

Lemma all_zero_map (f : float -> float) a :
  f 0 = 0 -> all_zero a -> all_zero (map f a).
Proof.
  intros Hf. induction 1 as [|v a Hv Ha IH]; simpl; constructor; [|assumption].
  subst v. exact Hf.
Qed.

Lemma np_var_zero a :
  all_zero a -> (2 <= List.length a)%nat -> (Z.of_nat (List.length a) < 2 ^ 53)%Z ->
  np_var a 1 = 0.
Proof.
  intros Ha Hlen Hb. unfold np_var, np_div.
  assert (Hne : a <> []) by (destruct a; [simpl in Hlen; lia|discriminate]).
  rewrite (np_mean_zero a Ha Hne Hb).
  rewrite np_sum_zero.
  - apply zero_div_pos, float_of_nat_pos; lia.
  - apply all_zero_map; [reflexivity|]. apply all_zero_map; [reflexivity|assumption].
Qed.

Lemma np_std_zero a :
  all_zero a -> (2 <= List.length a)%nat -> (Z.of_nat (List.length a) < 2 ^ 53)%Z ->
  np_std a 1 = 0.
Proof. intros. unfold np_std. rewrite np_var_zero by assumption. reflexivity. Qed.

(** ** Division by a zero count *)

Lemma div_zero_not_finite v : is_finite (v / 0) = false.
Proof.
  unfold is_finite. rewrite div_spec. change (Prim2SF 0) with (S754_zero false).
  destruct (Prim2SF v) as [s|s| |s m e]; try destruct s; reflexivity.
Qed.

Lemma sqrt_not_finite v : is_finite v = false -> is_finite (PrimFloat.sqrt v) = false.
Proof.
  unfold is_finite. rewrite sqrt_spec.
  destruct (Prim2SF v) as [s|s| |s m e]; try discriminate; try destruct s; reflexivity.
Qed.

Lemma mul_not_finite v c :
  is_finite v = false -> is_finite (v * c) = false.
Proof.
  unfold is_finite. rewrite mul_spec.
  destruct (Prim2SF v) as [s|s| |s m e]; try discriminate; intros _;
    destruct (Prim2SF c) as [t|t| |t m' e']; reflexivity.
Qed.

Lemma np_std_single_not_finite x : is_finite (np_std [x] 1) = false.
Proof.
  unfold np_std, np_var. apply sqrt_not_finite. simpl List.length.
  change (float_of_nat (1 - 1)) with 0. apply div_zero_not_finite.
Qed.

(** ** The sort keeps the records *)

Lemma insert_sorted_Forall (P : price_record -> Prop) x l r :
  P x -> Forall P l -> insert_sorted x l = Ok r -> Forall P r.
Proof.
  intros Hx Hl. revert r. induction Hl as [|y l Hy Hl IH]; simpl; intros r H.
  - injection H as <-. auto.
  - destruct (py_lt (date y) (date x)) as [b|e]; simpl in H; [|discriminate].
    destruct b.
    + destruct (insert_sorted x l) as [r'|e]; simpl in H; [|discriminate].
      injection H as <-. constructor; [assumption|]. now apply IH.
    + injection H as <-. auto.
Qed.

Lemma sorted_Forall (P : price_record -> Prop) l s :
  Forall P l -> sorted l = Ok s -> Forall P s.
Proof.
  intros Hl. revert s. induction Hl as [|x l Hx Hl IH]; simpl; intros s H.
  - injection H as <-. constructor.
  - destruct (sorted l) as [s'|e]; simpl in H; [|discriminate].
    eapply insert_sorted_Forall; [exact Hx| |exact H]. now apply IH.
Qed.

Lemma insert_sorted_length x l r :
  insert_sorted x l = Ok r -> List.length r = S (List.length l).
Proof.
  revert r. induction l as [|y l IH]; simpl; intros r H.
  - injection H as <-. reflexivity.
  - destruct (py_lt (date y) (date x)) as [b|e]; simpl in H; [|discriminate].
    destruct b.
    + destruct (insert_sorted x l) as [r'|e]; simpl in H; [|discriminate].
      injection H as <-. simpl. f_equal. now apply IH.
    + injection H as <-. reflexivity.
Qed.

Lemma sorted_length l s : sorted l = Ok s -> List.length s = List.length l.
Proof.
  revert s. induction l as [|x l IH]; simpl; intros s H.
  - injection H as <-. reflexivity.
  - destruct (sorted l) as [s'|e]; simpl in H; [|discriminate].
    rewrite (insert_sorted_length _ _ _ H). f_equal. now apply IH.
Qed.

(** ** Daily returns *)

Lemma daily_returns_from_length prev rest rs :
  daily_returns_from prev rest = Ok rs -> List.length rs = List.length rest.
Proof.
  revert prev rs. induction rest as [|c rest IH]; simpl; intros prev rs H.
  - injection H as <-. reflexivity.
  - destruct (daily_return (close prev) (close c)) as [r|e]; simpl in H; [|discriminate].
    destruct (daily_returns_from c rest) as [rs'|e] eqn:E; simpl in H; [|discriminate].
    injection H as <-. simpl. f_equal. eapply IH; eassumption.
Qed.

Lemma positive_finite_spec p :
  positive_finite p = true ->
  is_finite p = true /\ (p =? 0) = false /\ (0 <? p) = true.
Proof.
  unfold positive_finite, is_finite. rewrite andb_true_iff.
  rewrite !ltb_spec, FloatAxioms.eqb_spec.
  change (Prim2SF 0) with (S754_zero false). change (Prim2SF infinity) with (S754_infinity false).
  intros [H1 H2]. 
  destruct (Prim2SF p) as [s|s| |s m e]; try destruct s; try discriminate; auto.
Qed.

Lemma constant_return p : positive_finite p = true -> daily_return p p = Ok 0.
Proof.
  intros H. destruct (positive_finite_spec p H) as (Hf & Hz & Hp).
  unfold daily_return, py_div. rewrite Hz, (sub_self p Hf), (zero_div_pos p Hp).
  reflexivity.
Qed.

Lemma constant_returns_from p prev rest :
  positive_finite p = true -> close prev = p -> Forall (fun r => close r = p) rest ->
  exists rs, daily_returns_from prev rest = Ok rs /\ all_zero rs.
Proof.
  intros Hp Hprev Hrest. revert prev Hprev.
  induction Hrest as [|c rest Hc Hrest IH]; simpl; intros prev Hprev.
  - exists []. split; [reflexivity|constructor].
  - rewrite Hprev, Hc, (constant_return p Hp). simpl.
    destruct (IH c Hc) as (rs & -> & Hrs). simpl.
    exists (0 :: rs). split; [reflexivity|]. constructor; [reflexivity|assumption].
Qed.

(** A series of three or more points with one positive closing price has
    volatility and Sharpe ratio [0.0]. *)
Lemma constant_series_zero prices p rf :
  (3 <= List.length prices)%nat -> (Z.of_nat (List.length prices) < 2 ^ 53)%Z ->
  positive_finite p = true -> Forall (fun r => close r = p) prices ->
  calculate_volatility prices = Ok 0 /\ calculate_sharpe_ratio prices rf = Ok 0.
Proof.
  intros Hlen Hb Hp Hall.
  unfold calculate_volatility, calculate_sharpe_ratio.
  replace (Nat.ltb (List.length prices) 2) with false
    by (symmetry; apply Nat.ltb_ge; lia).
  unfold volatility_body, sharpe_body.
  destruct (sorted prices) as [s|e] eqn:Es; simpl; [|split; reflexivity].
  pose proof (sorted_Forall _ _ _ Hall Es) as Hs.
  pose proof (sorted_length _ _ Es) as Ls.
  destruct s as [|x s]; [simpl in Ls; lia|].
  inversion Hs as [|? ? Hx Hs']; subst.
  simpl daily_returns.
  destruct (constant_returns_from (close x) x s Hp eq_refl Hs') as (rs & Ers & Hz).
  rewrite Ers. simpl.
  pose proof (daily_returns_from_length _ _ _ Ers) as Lr. simpl in Ls.
  replace (Nat.eqb (List.length rs) 0) with false
    by (symmetry; apply Nat.eqb_neq; lia).
  rewrite (np_std_zero rs Hz) by lia.
  split; reflexivity.
Qed.

(** Whenever the computation on a two-point series goes through, the
    volatility it yields is not a finite number. *)
Lemma two_point_volatility_not_finite prices v :
  List.length prices = 2%nat -> volatility_body prices = Ok v -> is_finite v = false.
Proof.
  intros Hlen. unfold volatility_body.
  destruct (sorted prices) as [s|e] eqn:Es; simpl; [|discriminate].
  pose proof (sorted_length _ _ Es) as Ls. rewrite Hlen in Ls.
  destruct s as [|x [|y [|z s]]]; try discriminate Ls.
  simpl. destruct (daily_return (close x) (close y)) as [r|e]; simpl; [|discriminate].
  intros H. injection H as <-.
  apply mul_not_finite, mul_not_finite, np_std_single_not_finite.
Qed.

(** ** The code's daily returns are the specification's *)

Lemma spec_daily_returns_cons c0 c1 cs :
  spec_daily_returns (c0 :: c1 :: cs)
  = (c1 - c0) / c0 :: spec_daily_returns (c1 :: cs).
Proof.
  unfold spec_daily_returns. simpl List.length.
  replace (S (S (List.length cs)) - 1)%nat with (S (List.length cs)) by lia.
  replace (S (List.length cs) - 1)%nat with (List.length cs) by lia.
  rewrite <- cons_seq. rewrite map_cons. f_equal.
  rewrite <- seq_shift, map_map. apply map_ext_in.
  intros i Hi. apply in_seq in Hi. destruct i as [|j]; [lia|].
  simpl. rewrite Nat.sub_0_r. reflexivity.
Qed.

Lemma daily_returns_from_spec prev rest :
  Forall (fun r => (close r =? 0) = false) (prev :: rest) ->
  daily_returns_from prev rest = Ok (spec_daily_returns (map close (prev :: rest))).
Proof.
  revert prev. induction rest as [|c rest IH]; intros prev H.
  - reflexivity.
  - inversion H as [|? ? Hp Hr]; subst. simpl daily_returns_from.
    unfold daily_return, py_div. rewrite Hp. simpl bind.
    rewrite (IH c Hr). simpl. rewrite spec_daily_returns_cons. reflexivity.
Qed.

Lemma daily_returns_spec s :
  Forall (fun r => (close r =? 0) = false) s ->
  daily_returns s = Ok (spec_daily_returns (map close s)).
Proof.
  destruct s as [|x s]; intros H; [reflexivity|]. now apply daily_returns_from_spec.
Qed.

Lemma spec_daily_returns_length closes :
  List.length (spec_daily_returns closes) = (List.length closes - 1)%nat.
Proof. unfold spec_daily_returns. now rewrite length_map, length_seq. Qed.

Lemma np_mean_sample_mean rs : np_mean rs = sample_mean rs.
Proof. reflexivity. Qed.

Lemma np_std_sample_std rs : np_std rs 1 = sample_std rs.
Proof.
  unfold np_std, np_var, sample_std, np_div. rewrite map_map.
  reflexivity.
Qed.

(** On a series of two or more points whose sort goes through and whose
    closing prices are not zero, the two metrics are the specification's
    formulas on the sorted closes. *)
Lemma volatility_and_sharpe_spec prices s rf :
  (2 <= List.length prices)%nat -> sorted prices = Ok s ->
  Forall (fun r => (close r =? 0) = false) prices ->
  calculate_volatility prices = Ok (spec_volatility (map close s))
  /\ calculate_sharpe_ratio prices rf = Ok (spec_sharpe (map close s) rf).
Proof.
  intros Hlen Hs Hnz.
  pose proof (sorted_Forall _ _ _ Hnz Hs) as Hnz'.
  pose proof (sorted_length _ _ Hs) as Ls.
  unfold calculate_volatility, calculate_sharpe_ratio, volatility_body, sharpe_body.
  replace (Nat.ltb (List.length prices) 2) with false
    by (symmetry; apply Nat.ltb_ge; lia).
  rewrite Hs. cbn [bind]. rewrite (daily_returns_spec s Hnz'). cbn [bind].
  rewrite spec_daily_returns_length, length_map.
  replace (Nat.eqb (List.length s - 1) 0) with false
    by (symmetry; apply Nat.eqb_neq; lia).
  rewrite np_std_sample_std, np_mean_sample_mean.
  unfold spec_volatility, spec_sharpe, trading_days.
  split; [reflexivity|].
  destruct (sample_std (spec_daily_returns (map close s)) * PrimFloat.sqrt 252 =? 0);
    reflexivity.
Qed.

(** ** A sort that goes through had keys of one kind *)

Lemma sorted_ok_homogeneous l s : sorted l = Ok s -> homogeneous l.
Proof.
  revert s. induction l as [|x l IH]; simpl; intros s H.
  - left. constructor.
  - destruct (sorted l) as [s'|e] eqn:E; simpl in H; [|discriminate].
    specialize (IH s' eq_refl).
    destruct l as [|y l'].
    + destruct (date x) eqn:Dx; [left|right]; repeat constructor; eexists; eassumption.
    + assert (Hin : exists z, In z (y :: l') /\ exists b, py_lt (date z) (date x) = Ok b).
      { destruct s' as [|z s''].
        - apply sorted_length in E. discriminate.
        - simpl in H. destruct (py_lt (date z) (date x)) as [b|e] eqn:Ez; [|discriminate].
          exists z. split; [|eauto].
          assert (Fz : Forall (fun r => In r (y :: l')) (z :: s''))
            by (eapply sorted_Forall; [|exact E]; apply Forall_forall; auto).
          now inversion Fz. }
      destruct Hin as (z & Hz & b & Hb).
      destruct IH as [IH|IH]; pose proof (proj1 (Forall_forall _ _) IH z Hz) as Kz;
        destruct Kz as [k Kz]; rewrite Kz in Hb; destruct (date x) eqn:Dx;
        simpl in Hb; try discriminate.
      * left. constructor; [eexists; eassumption|assumption].
      * right. constructor; [eexists; eassumption|assumption].
Qed.

Lemma homogeneous_perm l l' : Permutation l l' -> homogeneous l -> homogeneous l'.
Proof.
  intros P [H|H]; [left|right]; eapply Permutation_Forall; eassumption.
Qed.

Lemma sorted_perm_raises l l' e :
  Permutation l l' -> sorted l = Raise e -> exists e', sorted l' = Raise e'.
Proof.
  intros P H. destruct (sorted l') as [s|e'] eqn:E; [|eauto].
  apply sorted_ok_homogeneous in E.
  apply (homogeneous_perm _ _ (Permutation_sym P)) in E.
  rewrite (sorted_homogeneous l E) in H. discriminate.
Qed.

(** ** The sorted view is in ascending order of date *)

Lemma not_after_trans x y z : not_after x y -> not_after y z -> not_after x z.
Proof.
  unfold not_after. intros Hxy Hyz.
  destruct (key_ltb (date z) (date x)) eqn:E; [|reflexivity].
  destruct (key_ltb_total (date x) (date y)) as [H|[H|H]].
  - rewrite <- H in Hyz. congruence.
  - pose proof (key_ltb_trans _ _ _ E H). congruence.
  - congruence.
Qed.

Lemma insert_pure_ordered x l :
  StronglySorted not_after l -> StronglySorted not_after (insert_pure x l).
Proof.
  intros Hs. induction Hs as [|y l Hs IH Hy]; simpl.
  - repeat constructor.
  - destruct (key_ltb (date y) (date x)) eqn:E.
    + constructor; [exact IH|].
      apply (Permutation_Forall (insert_pure_perm x l)). constructor; [|exact Hy].
      unfold not_after. now apply key_ltb_asym.
    + constructor; [constructor; assumption|].
      constructor; [exact E|].
      eapply Forall_impl; [|exact Hy]. intros z Hz.
      eapply not_after_trans; [exact E|exact Hz].
Qed.

Lemma sort_pure_ordered l : StronglySorted not_after (sort_pure l).
Proof.
  induction l as [|x l IH]; simpl; [constructor|]. now apply insert_pure_ordered.
Qed.

(** ** The merged frame of [calculate_beta] *)

Lemma self_ratio c : np_div c c - 1 = 0 \/ is_nan (np_div c c - 1) = true.
Proof.
  unfold np_div.
  destruct (is_finite c) eqn:Hf; [destruct (c =? 0) eqn:Hz|].
  - right. assert (E : c / c = nan); [|rewrite E; reflexivity].
    apply Prim2SF_inj. rewrite div_spec. rewrite FloatAxioms.eqb_spec in Hz.
    change (Prim2SF 0) with (S754_zero false) in Hz.
    destruct (Prim2SF c) as [s|s| |s m e]; try destruct s; try discriminate; reflexivity.
  - left. rewrite (div_self c Hf Hz). reflexivity.
  - right. assert (E : c / c = nan); [|rewrite E; reflexivity].
    apply Prim2SF_inj. rewrite div_spec. unfold is_finite in Hf.
    destruct (Prim2SF c) as [s|s| |s m e]; try destruct s; try discriminate; reflexivity.
Qed.

Lemma insert_row_Forall (P : merged_row -> Prop) x l :
  P x -> Forall P l -> Forall P (insert_row x l).
Proof.
  intros Hx Hl. induction Hl as [|y l Hy Hl IH]; simpl; [auto|].
  destruct (date_ltb (row_date y) (row_date x)); auto.
Qed.

Lemma sort_values_Forall (P : merged_row -> Prop) l :
  Forall P l -> Forall P (sort_values l).
Proof.
  induction 1; simpl; [constructor|]. now apply insert_row_Forall.
Qed.

Lemma insert_row_length x l : List.length (insert_row x l) = S (List.length l).
Proof.
  induction l as [|y l IH]; simpl; [reflexivity|].
  destruct (date_ltb (row_date y) (row_date x)); simpl; [now rewrite IH|reflexivity].
Qed.

Lemma sort_values_length l : List.length (sort_values l) = List.length l.
Proof.
  induction l as [|x l IH]; simpl; [reflexivity|]. now rewrite insert_row_length, IH.
Qed.

Lemma pct_change_from_flat c prev rest :
  close_market prev = c -> Forall (fun r => close_market r = c) rest ->
  Forall flat_or_missing (pct_change_from prev rest).
Proof.
  intros Hp Hr. revert prev Hp. induction Hr as [|r rest Hc Hr IH]; simpl; intros prev Hp.
  - constructor.
  - constructor; [|now apply IH].
    unfold flat_or_missing. simpl. rewrite Hc, Hp. apply self_ratio.
Qed.

Lemma pct_change_flat c l :
  Forall (fun r => close_market r = c) l -> Forall flat_or_missing (pct_change l).
Proof.
  destruct 1 as [|r l Hc Hl]; simpl; constructor.
  - right. reflexivity.
  - now apply (pct_change_from_flat c).
Qed.

Lemma pct_change_from_length prev rest :
  List.length (pct_change_from prev rest) = List.length rest.
Proof.
  revert prev. induction rest as [|r rest IH]; simpl; intros prev; [reflexivity|].
  now rewrite IH.
Qed.

Lemma pct_change_length l : List.length (pct_change l) = List.length l.
Proof. destruct l; simpl; [reflexivity|]. now rewrite pct_change_from_length. Qed.

Lemma dropna_flat l :
  Forall flat_or_missing l -> all_zero (map market_return (dropna l)).
Proof.
  unfold all_zero, dropna. induction 1 as [|r l Hr Hl IH]; simpl; [constructor|].
  destruct (row_has_na r) eqn:E; simpl; [exact IH|].
  constructor; [|exact IH].
  destruct Hr as [Hr|Hr]; [exact Hr|].
  unfold row_has_na in E. destruct (row_date r); [|discriminate].
  rewrite Hr in E. rewrite !orb_true_r in E. discriminate.
Qed.

Lemma dropna_length l : (List.length (dropna l) <= List.length l)%nat.
Proof. apply filter_length_le. Qed.

Lemma merge_length stock market :
  (List.length (merge stock market) <= List.length stock * List.length market)%nat.
Proof.
  unfold merge. induction stock as [|l stock IH]; simpl; [lia|].
  rewrite length_app, length_map.
  pose proof (filter_length_le (fun r => date_eqb (fst l) (fst r)) market). lia.
Qed.

Lemma merge_market_close (c : float) stock market :
  Forall (fun r => snd r = c) market ->
  Forall (fun r => close_market r = c) (merge stock market).
Proof.
  intros Hm. unfold merge. apply Forall_flat_map.
  apply Forall_forall. intros l _. apply Forall_map.
  apply Forall_forall. intros r Hr. simpl.
  apply filter_In in Hr. destruct Hr as [Hr _].
  exact (proj1 (Forall_forall _ _) Hm r Hr).
Qed.

Lemma filter_none {A : Type} (f : A -> bool) (l : list A) :
  (forall b, In b l -> f b = false) -> filter f l = [].
Proof.
  induction l as [|r l IH]; simpl; intros H; [reflexivity|].
  rewrite (H r) by auto. apply IH. auto.
Qed.

Lemma merge_no_match stock market :
  (forall a b, In a stock -> In b market -> date_eqb (fst a) (fst b) = false) ->
  merge stock market = [].
Proof.
  intros H. unfold merge. induction stock as [|l stock IH]; simpl; [reflexivity|].
  rewrite IH by (intros; apply H; simpl; auto).
  rewrite app_nil_r, filter_none; [reflexivity|].
  intros b Hb. apply H; simpl; auto.
Qed.

Section Beta.

Variable to_datetime : list date_value -> PyResult (list (option Z)).
Variable np_cov : list float -> list float -> float.

Lemma to_frame_closes (c : float) prices df :
Forall (fun r => close r = c) prices -> to_frame to_datetime prices = Ok df ->
Forall (fun r => snd r = c) df.
Proof.
intros Hc. unfold to_frame.
destruct (to_datetime (map date prices)) as [ts|e]; simpl; [|discriminate].
destruct (Nat.eqb (List.length ts) (List.length prices)); [|discriminate].
intros H. injection H as <-.
apply Forall_forall. intros [t v] Hin. simpl.
apply in_combine_r in Hin. apply in_map_iff in Hin.
destruct Hin as (r & Hr & Hin). rewrite <- Hr.
exact (proj1 (Forall_forall _ _) Hc r Hin).
Qed.

Lemma to_frame_length prices df :
to_frame to_datetime prices = Ok df -> List.length df = List.length prices.
Proof.
unfold to_frame.
destruct (to_datetime (map date prices)) as [ts|e]; simpl; [|discriminate].
destruct (Nat.eqb (List.length ts) (List.length prices)) eqn:E; [|discriminate].
intros H. injection H as <-. apply Nat.eqb_eq in E.
rewrite length_combine, length_map, E. apply Nat.min_id.
Qed.

(** C8: [calculate_beta] returns [0.0] for every stock series when all the
  closing prices of the market series are one value, and it returns [0.0]
  when no converted date of the stock series equals one of the market
  series. *)
Theorem beta_zero_cases stock_prices market_prices :
(forall c,
    Forall (fun r => close r = c) market_prices ->
    (Z.of_nat (List.length stock_prices * List.length market_prices) < 2 ^ 53)%Z ->
    calculate_beta to_datetime np_cov stock_prices market_prices = Ok 0)
/\ (forall stock_df market_df,
       to_frame to_datetime stock_prices = Ok stock_df ->
       to_frame to_datetime market_prices = Ok market_df ->
       (forall a b, In a stock_df -> In b market_df ->
                    date_eqb (fst a) (fst b) = false) ->
       calculate_beta to_datetime np_cov stock_prices market_prices = Ok 0).
Proof.
split.
- intros c Hc Hb. unfold calculate_beta.
  destruct (Nat.ltb (List.length stock_prices) 2 || Nat.ltb (List.length market_prices) 2);
    [reflexivity|].
  unfold beta_body.
  destruct (to_frame to_datetime stock_prices) as [sdf|e] eqn:Es; [|reflexivity].
  destruct (to_frame to_datetime market_prices) as [mdf|e] eqn:Em; [|reflexivity].
  cbn [bind].
  destruct (Nat.ltb (List.length (merge sdf mdf)) 2); [reflexivity|].
  set (rows := dropna (pct_change (sort_values (merge sdf mdf)))).
  destruct (Nat.ltb (List.length rows) 2) eqn:El; [reflexivity|].
  apply Nat.ltb_ge in El.
  assert (Hz : all_zero (map market_return rows)).
  { apply dropna_flat, (pct_change_flat c), sort_values_Forall, merge_market_close.
    eapply to_frame_closes; eassumption. }
  assert (Hn : (List.length rows <= List.length stock_prices * List.length market_prices)%nat).
  { unfold rows. rewrite dropna_length, pct_change_length, sort_values_length.
    rewrite merge_length.
    now rewrite (to_frame_length _ _ Es), (to_frame_length _ _ Em). }
  rewrite (np_var_zero _ Hz) by (rewrite length_map; lia).
  reflexivity.
- intros sdf mdf Es Em Hno. unfold calculate_beta.
  destruct (Nat.ltb (List.length stock_prices) 2 || Nat.ltb (List.length market_prices) 2);
    [reflexivity|].
  unfold beta_body. rewrite Es, Em. cbn [bind].
  rewrite (merge_no_match _ _ Hno). reflexivity.
Qed.

End Beta.

(** ** Claims on [calculate_xirr] *)

Lemma py_lt_true_flip a b : py_lt a b = Ok true -> py_lt b a = Ok false.
Proof.
  destruct a as [s|m], b as [t|n]; simpl; try discriminate; intros H;
    injection H as H; f_equal.
  - apply (key_ltb_asym (DateStr s) (DateStr t)). exact H.
  - apply (key_ltb_asym (DateObj m) (DateObj n)). exact H.
Qed.

Section Xirr.

Variable strptime : string -> PyResult Z.
Variable py_pow : float -> float -> PyResult float.
Variable newton : (float -> PyResult float) -> float -> nat -> PyResult float.

Lemma xirr_of_sorted prices s :
(2 <= List.length prices)%nat -> sorted prices = Ok s ->
calculate_xirr strptime py_pow newton prices
= try_except
    (first <- first_item s ;;
     initial_date <- py_strptime strptime (date first) ;;
     final <- last_item s ;;
     final_date <- py_strptime strptime (date final) ;;
     match newton (xirr_equation py_pow
                     [(- close first, initial_date); (close final, final_date)])
                  0.1 100 with
     | Ok rate => Ok (rate * 100)
     | Raise _ =>
         xirr_fallback py_pow (close first) initial_date (close final) final_date
     end)
    (Ok 0).
Proof.
intros Hlen Hs. unfold calculate_xirr, xirr_body.
replace (Nat.ltb (List.length prices) 2) with false
  by (symmetry; apply Nat.ltb_ge; lia).
rewrite Hs. reflexivity.
Qed.

Lemma xirr_sort_raises prices e :
sorted prices = Raise e -> calculate_xirr strptime py_pow newton prices = Ok 0.
Proof.
intros Hs. unfold calculate_xirr, xirr_body.
destruct (Nat.ltb (List.length prices) 2); [reflexivity|].
rewrite Hs. reflexivity.
Qed.

(** C5 (amended): when the root-finder fails, [calculate_xirr] returns [0.0]
  if the last date is not after the first, and otherwise the closed-form
  annualized return [((1 + (final/initial - 1)) ** (365.25/days) - 1) * 100]
  computed in floating point, or [0.0] when that computation raises
  (a zero initial price, a power out of range). *)
Theorem xirr_fallback_on_solver_failure prices s first final d0 d1 :
(2 <= List.length prices)%nat ->
sorted prices = Ok s ->
first_item s = Ok first -> last_item s = Ok final ->
py_strptime strptime (date first) = Ok d0 ->
py_strptime strptime (date final) = Ok d1 ->
raises (newton (xirr_equation py_pow [(- close first, d0); (close final, d1)]) 0.1 100) ->
let days := (d1 - d0)%Z in
let base := 1 + (close final / close first - 1) in
let exponent := 365.25 / float_of_Z days in
((days <= 0)%Z -> calculate_xirr strptime py_pow newton prices = Ok 0)
/\ ((0 < days)%Z -> (close first =? 0) = true -> calculate_xirr strptime py_pow newton prices = Ok 0)
/\ ((0 < days)%Z -> (close first =? 0) = false ->
    raises (py_pow base exponent) -> calculate_xirr strptime py_pow newton prices = Ok 0)
/\ ((0 < days)%Z -> (close first =? 0) = false ->
    forall p, py_pow base exponent = Ok p -> calculate_xirr strptime py_pow newton prices = Ok ((p - 1) * 100)).
Proof.
intros Hlen Hs Hf Hl H0 H1 [e He] days base exponent.
rewrite (xirr_of_sorted prices s Hlen Hs).
rewrite Hf. cbn [bind]. rewrite H0. cbn [bind]. rewrite Hl. cbn [bind].
rewrite H1. cbn [bind]. rewrite He. unfold xirr_fallback.
fold days. repeat split.
- intros Hd. replace (0 <? days)%Z with false by (symmetry; apply Z.ltb_ge; lia).
  reflexivity.
- intros Hd Hz. replace (0 <? days)%Z with true by (symmetry; apply Z.ltb_lt; lia).
  unfold py_div. rewrite Hz. reflexivity.
- intros Hd Hz [e' Hp].
  replace (0 <? days)%Z with true by (symmetry; apply Z.ltb_lt; lia).
  unfold py_div. rewrite Hz. cbn [bind]. fold base. fold exponent.
  rewrite Hp. reflexivity.
- intros Hd Hz p Hp.
  replace (0 <? days)%Z with true by (symmetry; apply Z.ltb_lt; lia).
  unfold py_div. rewrite Hz. cbn [bind]. fold base. fold exponent.
  rewrite Hp. reflexivity.
Qed.

(** C6 (amended): on a series whose dates are pairwise distinct,
  [calculate_xirr] gives the same result on every permutation of the
  records. *)
Theorem xirr_permutation_invariant prices prices' :
NoDup (map date prices) -> Permutation prices prices' ->
calculate_xirr strptime py_pow newton prices = calculate_xirr strptime py_pow newton prices'.
Proof.
intros Hnd P. pose proof (Permutation_length P) as Hlen.
destruct (sorted prices) as [s|e] eqn:Es.
- pose proof (sorted_ok_homogeneous _ _ Es) as Hh.
  pose proof (homogeneous_perm _ _ P Hh) as Hh'.
  unfold calculate_xirr, xirr_body. rewrite <- Hlen.
  rewrite (sorted_homogeneous _ Hh), (sorted_homogeneous _ Hh').
  rewrite (sort_pure_permutation_invariant _ _ Hnd P). reflexivity.
- destruct (sorted_perm_raises _ _ _ P Es) as [e' Es'].
  rewrite (xirr_sort_raises _ _ Es), (xirr_sort_raises _ _ Es'). reflexivity.
Qed.

(** C9 (amended): on two points with the same finite closing price and
[d0 < d1], given in either order, rate [0.0] is an exact zero of the
equation handed to the root-finder; [calculate_xirr] returns 100 times
the rate the root-finder found when it converges, whatever that rate is,
and exactly [0.0] when the root-finder fails (the closed-form fallback is
zero) or when a date does not parse. *)
Theorem xirr_flat_two_points_by_path d0 d1 p prices :
(forall y, py_pow 1 y = Ok 1) ->
is_finite p = true ->
py_lt d0 d1 = Ok true ->
prices = [mkPrice d0 p; mkPrice d1 p] \/ prices = [mkPrice d1 p; mkPrice d0 p] ->
(forall t0 t1, xirr_equation py_pow [(- p, t0); (p, t1)] 0 = Ok 0)
/\ (forall t0 t1 rate,
       py_strptime strptime d0 = Ok t0 -> py_strptime strptime d1 = Ok t1 ->
       newton (xirr_equation py_pow [(- p, t0); (p, t1)]) 0.1 100 = Ok rate ->
       calculate_xirr strptime py_pow newton prices = Ok (rate * 100))
/\ (forall t0 t1,
       py_strptime strptime d0 = Ok t0 -> py_strptime strptime d1 = Ok t1 ->
       raises (newton (xirr_equation py_pow [(- p, t0); (p, t1)]) 0.1 100) ->
       calculate_xirr strptime py_pow newton prices = Ok 0)
/\ (raises (py_strptime strptime d0) \/ raises (py_strptime strptime d1) ->
    calculate_xirr strptime py_pow newton prices = Ok 0).
Proof.
intros Hpow Hfin Hlt Hprices.
split.
{ intros t0 t1. unfold xirr_equation, xirr_terms.
  change (1 + 0) with 1. rewrite !Hpow. cbn [bind].
  unfold py_div. change (1 =? 0) with false. cbn [bind].
  rewrite !div_one. rewrite (opp_add_self p Hfin). reflexivity. }
assert (Hs : sorted prices = Ok [mkPrice d0 p; mkPrice d1 p]).
{ destruct Hprices as [-> | ->]; simpl.
  - rewrite (py_lt_true_flip _ _ Hlt). reflexivity.
  - rewrite Hlt. reflexivity. }
assert (Hlen : (2 <= List.length prices)%nat)
  by (destruct Hprices as [-> | ->]; simpl; lia).
rewrite (xirr_of_sorted _ _ Hlen Hs).
cbn [first_item last_item bind date close].
repeat split.
- intros t0 t1 rate H0 H1 Hn. rewrite H0. cbn [bind]. rewrite H1. cbn [bind].
  rewrite Hn. reflexivity.
- intros t0 t1 H0 H1 [e Hn]. rewrite H0. cbn [bind]. rewrite H1. cbn [bind].
  rewrite Hn. unfold xirr_fallback. destruct (0 <? t1 - t0)%Z; [|reflexivity].
  unfold py_div. destruct (p =? 0) eqn:Hz; [reflexivity|]. cbn [bind].
  rewrite (div_self p Hfin Hz).
  change (1 + (1 - 1)) with 1. rewrite Hpow. reflexivity.
- intros [[e H0]|[e H1]].
  + rewrite H0. reflexivity.
  + destruct (py_strptime strptime d0) as [t0|e0]; [|reflexivity]. cbn [bind].
    rewrite H1. reflexivity.
Qed.

(** C10 (amended): a series none of whose date values [strptime] accepts
(a datetime object never is; a string is whenever it matches the format,
with or without leading zeros in month and day) makes [calculate_xirr]
return [0.0] whatever the closing prices; [calculate_volatility] and
[calculate_sharpe_ratio] only compare the date values, and on a series
of two or more points with keys of one kind and non-zero closes they
return the specification's formulas on the closes in sorted order. *)
Theorem dates_parsed_only_by_xirr prices rf :
(Forall (fun r => raises (py_strptime strptime (date r))) prices ->
 calculate_xirr strptime py_pow newton prices = Ok 0)
/\ (Forall is_obj prices -> calculate_xirr strptime py_pow newton prices = Ok 0)
/\ (homogeneous prices -> (2 <= List.length prices)%nat ->
    Forall (fun r => (close r =? 0) = false) prices ->
    sorted prices = Ok (sort_pure prices)
    /\ calculate_volatility prices
       = Ok (spec_volatility (map close (sort_pure prices)))
    /\ calculate_sharpe_ratio prices rf
       = Ok (spec_sharpe (map close (sort_pure prices)) rf)).
Proof.
assert (A : Forall (fun r => raises (py_strptime strptime (date r))) prices ->
            calculate_xirr strptime py_pow newton prices = Ok 0).
{ intros Hall. destruct (Nat.ltb (List.length prices) 2) eqn:El.
  - unfold calculate_xirr. rewrite El. reflexivity.
  - apply Nat.ltb_ge in El.
    destruct (sorted prices) as [s|e] eqn:Es; [|eapply xirr_sort_raises; eassumption].
    rewrite (xirr_of_sorted prices s El Es).
    pose proof (sorted_Forall _ _ _ Hall Es) as Hs.
    pose proof (sorted_length _ _ Es) as Ls.
    destruct s as [|x s]; [reflexivity|].
    inversion Hs as [|? ? [e Hx] _]; subst. cbn [first_item bind].
    rewrite Hx. reflexivity. }
split; [exact A|]. split.
- intros Hobj. apply A. eapply Forall_impl; [|exact Hobj].
  intros r [n Hr]. rewrite Hr. exists TypeError. reflexivity.
- intros Hh Hlen Hnz. pose proof (sorted_homogeneous _ Hh) as Hs.
  split; [exact Hs|]. now apply volatility_and_sharpe_spec.
Qed.

End Xirr.

(** ** The error-absorbing wrappers *)

Lemma try_except_returns (body : PyResult float) :
  exists v, try_except body (Ok 0) = Ok v.
Proof. destruct body as [v|e]; simpl; eauto. Qed.

Lemma try_except_raises (body : PyResult float) :
  raises body -> try_except body (Ok 0) = Ok 0.
Proof. intros [e ->]. reflexivity. Qed.

Section Metrics.

Variable strptime : string -> PyResult Z.
Variable py_pow : float -> float -> PyResult float.
Variable newton : (float -> PyResult float) -> float -> nat -> PyResult float.
Variable to_datetime : list date_value -> PyResult (list (option Z)).
Variable np_cov : list float -> list float -> float.

Lemma xirr_solver_failure prices s first final d0 d1 :
(2 <= List.length prices)%nat ->
sorted prices = Ok s ->
first_item s = Ok first -> last_item s = Ok final ->
py_strptime strptime (date first) = Ok d0 ->
py_strptime strptime (date final) = Ok d1 ->
raises (newton (xirr_equation py_pow [(- close first, d0); (close final, d1)]) 0.1 100) ->
calculate_xirr strptime py_pow newton prices
= try_except (xirr_fallback py_pow (close first) d0 (close final) d1) (Ok 0).
Proof.
intros Hlen Hs Hf Hl H0 H1 [e He].
unfold calculate_xirr, xirr_body.
replace (Nat.ltb (List.length prices) 2) with false
  by (symmetry; apply Nat.ltb_ge; lia).
rewrite Hs. simpl. rewrite Hf. simpl. rewrite H0. simpl.
rewrite Hl. simpl. rewrite H1. simpl. rewrite He. reflexivity.
Qed.

(** C1 (amended): each of the four metrics returns a value on every input
    and never raises; an exception raised inside [calculate_sharpe_ratio],
    [calculate_volatility] or [calculate_beta], and any exception raised in
    [calculate_xirr] other than that of the root-finder, gives [0.0]; a
    failure of the root-finder gives the value of the closed-form fallback,
    or [0.0] when the fallback raises in turn. *)
Theorem metrics_absorb_errors prices market rf :
((exists v, calculate_xirr strptime py_pow newton prices = Ok v)
 /\ (exists v, calculate_sharpe_ratio prices rf = Ok v)
 /\ (exists v, calculate_volatility prices = Ok v)
 /\ (exists v, calculate_beta to_datetime np_cov prices market = Ok v))
/\ ((raises (xirr_body strptime py_pow newton prices) -> calculate_xirr strptime py_pow newton prices = Ok 0)
    /\ (raises (sharpe_body prices rf) -> calculate_sharpe_ratio prices rf = Ok 0)
    /\ (raises (volatility_body prices) -> calculate_volatility prices = Ok 0)
    /\ (raises (beta_body to_datetime np_cov prices market) -> calculate_beta to_datetime np_cov prices market = Ok 0))
/\ (forall s first final d0 d1,
      (2 <= List.length prices)%nat ->
      sorted prices = Ok s ->
      first_item s = Ok first -> last_item s = Ok final ->
      py_strptime strptime (date first) = Ok d0 ->
      py_strptime strptime (date final) = Ok d1 ->
      raises (newton (xirr_equation py_pow [(- close first, d0); (close final, d1)])
                     0.1 100) ->
      calculate_xirr strptime py_pow newton prices
      = try_except (xirr_fallback py_pow (close first) d0 (close final) d1) (Ok 0)).
Proof.
unfold calculate_xirr, calculate_sharpe_ratio, calculate_volatility, calculate_beta.
repeat split.
- destruct (Nat.ltb (List.length prices) 2); [eauto|apply try_except_returns].
- destruct (Nat.ltb (List.length prices) 2); [eauto|apply try_except_returns].
- destruct (Nat.ltb (List.length prices) 2); [eauto|apply try_except_returns].
- destruct (Nat.ltb (List.length prices) 2 || Nat.ltb (List.length market) 2);
    [eauto|apply try_except_returns].
- intros H. destruct (Nat.ltb (List.length prices) 2);
    [reflexivity|now apply try_except_raises].
- intros H. destruct (Nat.ltb (List.length prices) 2);
    [reflexivity|now apply try_except_raises].
- intros H. destruct (Nat.ltb (List.length prices) 2);
    [reflexivity|now apply try_except_raises].
- intros H. destruct (Nat.ltb (List.length prices) 2 || Nat.ltb (List.length market) 2);
    [reflexivity|now apply try_except_raises].
- intros. eapply xirr_solver_failure; eassumption.
Qed.

(** C2: on a series of fewer than two points every metric is exactly
  [0.0]; for calculate_beta to_datetime np_cov it is enough that either of the two series is that
  short. *)
Theorem short_series_zero prices other rf :
(List.length prices < 2)%nat ->
calculate_xirr strptime py_pow newton prices = Ok 0
/\ calculate_sharpe_ratio prices rf = Ok 0
/\ calculate_volatility prices = Ok 0
/\ calculate_beta to_datetime np_cov prices other = Ok 0
/\ calculate_beta to_datetime np_cov other prices = Ok 0.
Proof.
intros H. apply Nat.ltb_lt in H.
unfold calculate_xirr, calculate_sharpe_ratio, calculate_volatility, calculate_beta.
rewrite H. rewrite orb_true_r. simpl. repeat split; reflexivity.
Qed.

End Metrics.

Lemma metrics_absorb_errors_witness :
  (2 <= List.length Sample.two_points)%nat
  /\ Sample.xirr Sample.two_points
     = try_except (xirr_fallback Sample.py_pow 100 739191 110 739192) (Ok 0).
Proof.
  split; [simpl; lia|].
  refine (proj2 (proj2 (metrics_absorb_errors Sample.strptime Sample.py_pow
                          Sample.secant Sample.to_datetime Sample.np_cov
                          Sample.two_points Sample.flat_market 0.02))
                _ (Sample.point "2024-01-01" 100) (Sample.point "2024-01-02" 110)
                739191%Z 739192%Z _ _ _ _ _ _ _);
    try reflexivity.
  exists RuntimeError. vm_compute. reflexivity.
Defined.

(** C1 (as stated) fails: on 100 then 110 one day later the root-finder
    does not converge (the secant iteration of scipy's [newton] stops with a
    [RuntimeError] after 30 steps) and the result is the fallback value,
    about 1.3e17 percent, not [0.0]. *)
Lemma solver_failure_not_mapped_to_zero :
  ~ (forall strptime py_pow newton prices s first final d0 d1,
        sorted prices = Ok s ->
        first_item s = Ok first -> last_item s = Ok final ->
        py_strptime strptime (date first) = Ok d0 ->
        py_strptime strptime (date final) = Ok d1 ->
        raises (newton (xirr_equation py_pow [(- close first, d0); (close final, d1)])
                       0.1 100%nat) ->
        calculate_xirr strptime py_pow newton prices = Ok 0).
Proof.
  intros H.
  specialize (H Sample.strptime Sample.py_pow Sample.secant Sample.two_points
                Sample.two_points
                (Sample.point "2024-01-01" 100) (Sample.point "2024-01-02" 110)
                739191%Z 739192%Z).
  assert (E : Sample.xirr Sample.two_points = Ok 1.3142508120774e+17)
    by (vm_compute; reflexivity).
  unfold Sample.xirr in E. rewrite H in E; try reflexivity.
  - apply (f_equal (fun r => match r with Ok v => v =? 0 | Raise _ => false end)) in E.
    vm_compute in E. discriminate E.
  - exists RuntimeError. vm_compute. reflexivity.
Qed.

Lemma short_series_zero_witness :
  Sample.xirr Sample.one_point = Ok 0
  /\ calculate_sharpe_ratio Sample.one_point 0.02 = Ok 0
  /\ calculate_volatility Sample.one_point = Ok 0
  /\ Sample.beta Sample.one_point Sample.flat_market = Ok 0
  /\ Sample.beta Sample.flat_market Sample.one_point = Ok 0.
Proof.
  apply (short_series_zero Sample.strptime Sample.py_pow Sample.secant
           Sample.to_datetime Sample.np_cov Sample.one_point Sample.flat_market 0.02).
  simpl. lia.
Defined.

(** C3 (the code departs from it): on the two-point series
    [(2024-01-01, 100), (2024-01-02, 110)], whose closes are positive and
    finite, [calculate_volatility] and [calculate_sharpe_ratio] return nan,
    which is not a finite number. *)
Theorem two_point_series_nan :
  Forall (fun r => positive_finite (close r) = true) Sample.two_points
  /\ calculate_volatility Sample.two_points = Ok nan
  /\ calculate_sharpe_ratio Sample.two_points default_risk_free_rate = Ok nan
  /\ is_finite nan = false.
Proof.
  split; [repeat constructor|]. repeat split; reflexivity.
Qed.

(** C4 (the code departs from it): on two points with the same closing
    price the single daily return is [0.0], yet [calculate_volatility] and
    [calculate_sharpe_ratio] return nan rather than [0.0]; the comparison of
    the annualized volatility with zero does not stop a nan. *)
Theorem flat_two_point_series_nan :
  daily_returns Sample.flat_two_points = Ok [0]
  /\ calculate_volatility Sample.flat_two_points = Ok nan
  /\ calculate_sharpe_ratio Sample.flat_two_points default_risk_free_rate = Ok nan
  /\ (nan =? 0) = false.
Proof.
  repeat split; reflexivity.
Qed.

(** ** Witnesses and counterexamples on concrete series *)

(** C7: on a series of two or more points (keys of one kind, non-zero
    closes) [calculate_volatility] is the sample standard deviation
    (ddof=1) of the daily returns of the date-sorted series, times
    [sqrt 252], times 100; for the closes 100, 102, 101, 105 the three
    daily returns, their mean and their sample standard deviation agree
    with the exact rational reference to within [1e-9]. *)
Theorem volatility_is_annualized_sample_std :
  (forall prices,
      homogeneous prices -> (2 <= List.length prices)%nat ->
      Forall (fun r => (close r =? 0) = false) prices ->
      let sorted_view := sort_pure prices in
      Permutation prices sorted_view
      /\ StronglySorted not_after sorted_view
      /\ List.length (spec_daily_returns (map close sorted_view))
         = (List.length prices - 1)%nat
      /\ calculate_volatility prices
         = Ok (sample_std (spec_daily_returns (map close sorted_view))
               * PrimFloat.sqrt 252 * 100))
  /\ (let rs := spec_daily_returns [100; 102; 101; 105] in
      let exact := [1 # 50; - (1 # 102); 4 # 101]%Q in
      let tol := (1 # 1000000000)%Q in
      calculate_volatility Sample.four_closes
      = Ok (sample_std rs * PrimFloat.sqrt 252 * 100)
      /\ List.length rs = 3%nat
      /\ within (nth 0 rs nan) (1 # 50) tol = true
      /\ within (nth 1 rs nan) (- (1 # 102)) tol = true
      /\ within (nth 2 rs nan) (4 # 101) tol = true
      /\ within (sample_mean rs) (exact_mean exact) tol = true
      /\ sqrt_within (sample_std rs) (exact_sample_variance exact) tol = true).
Proof.
  split.
  - intros prices Hh Hlen Hnz sorted_view.
    split; [apply sort_pure_perm|]. split; [apply sort_pure_ordered|].
    split.
    + rewrite spec_daily_returns_length, length_map. unfold sorted_view.
      now rewrite sort_pure_length.
    + pose proof (sorted_homogeneous _ Hh) as Hs.
      exact (proj1 (volatility_and_sharpe_spec prices _ 0 Hlen Hs Hnz)).
  - cbv zeta. repeat split; vm_compute; reflexivity.
Qed.

Lemma volatility_is_annualized_sample_std_witness :
  calculate_volatility Sample.four_closes
  = Ok (sample_std (spec_daily_returns (map close (sort_pure Sample.four_closes)))
        * PrimFloat.sqrt 252 * 100).
Proof.
  refine (proj2 (proj2 (proj2
            (proj1 volatility_is_annualized_sample_std Sample.four_closes _ _ _)))).
  - left. repeat constructor; eexists; reflexivity.
  - simpl. lia.
  - repeat constructor.
Defined.

Lemma xirr_fallback_on_solver_failure_witness :
  Sample.xirr Sample.two_points = Ok ((0x1.2ad377332d564p+50 - 1) * 100).
Proof.
  refine (proj2 (proj2 (proj2
    (xirr_fallback_on_solver_failure Sample.strptime Sample.py_pow Sample.secant
       Sample.two_points Sample.two_points
       (Sample.point "2024-01-01" 100) (Sample.point "2024-01-02" 110)
       739191%Z 739192%Z _ _ _ _ _ _ _))) _ _ 0x1.2ad377332d564p+50 _);
    try reflexivity.
  exists RuntimeError. vm_compute. reflexivity.
Defined.

(** C5 (as stated) fails: on a tenfold rise in one day the root-finder
    does not converge within its 100 iterations, and the power of the closed
    form is out of range, so no closed-form value is returned; the result
    is [0.0]. *)
Lemma fallback_out_of_range :
  ~ (forall strptime py_pow newton prices s first final d0 d1,
        (2 <= List.length prices)%nat ->
        sorted prices = Ok s ->
        first_item s = Ok first -> last_item s = Ok final ->
        py_strptime strptime (date first) = Ok d0 ->
        py_strptime strptime (date final) = Ok d1 ->
        raises (newton (xirr_equation py_pow [(- close first, d0); (close final, d1)])
                       0.1 100%nat) ->
        (0 < d1 - d0)%Z ->
        exists p,
          py_pow (close final / close first) (365.25 / float_of_Z (d1 - d0)) = Ok p
          /\ calculate_xirr strptime py_pow newton prices = Ok ((p - 1) * 100)).
Proof.
  intros H.
  destruct (H Sample.strptime Sample.py_pow Sample.secant
              Sample.tenfold_in_a_day Sample.tenfold_in_a_day
              (Sample.point "2024-01-01" 1) (Sample.point "2024-01-02" 10)
              739191%Z 739192%Z) as (p & Hp & _); try reflexivity.
  - exists RuntimeError. vm_compute. reflexivity.
  - vm_compute in Hp. discriminate Hp.
Qed.

Lemma xirr_permutation_invariant_witness :
  Sample.xirr Sample.four_closes = Sample.xirr (rev Sample.four_closes).
Proof.
  apply (xirr_permutation_invariant Sample.strptime Sample.py_pow Sample.secant).
  - repeat constructor; simpl; intuition discriminate.
  - apply Permutation_rev.
Defined.

(** C6 (as stated) fails: two records share the earliest date, the sort
    keeps them in input order, and swapping them changes the purchase price
    and with it the result: about 100 percent a year in one order, about
    2.3e-11 in the other. *)
Lemma tied_dates_depend_on_order :
  ~ (forall strptime py_pow newton prices prices',
        Permutation prices prices' ->
        calculate_xirr strptime py_pow newton prices
        = calculate_xirr strptime py_pow newton prices').
Proof.
  intros H.
  specialize (H Sample.strptime Sample.py_pow Sample.secant
                Sample.tied_dates Sample.tied_dates_swapped (perm_swap _ _ _)).
  apply (f_equal (fun r => match r with Ok v => v <? 1 | Raise _ => false end)) in H.
  vm_compute in H. discriminate H.
Qed.

Lemma xirr_flat_two_points_by_path_witness :
  Sample.xirr Sample.flat_two_points = Ok (-0x1.e4f649e54cf82p-49 * 100).
Proof.
  refine (proj1 (proj2
            (xirr_flat_two_points_by_path Sample.strptime Sample.py_pow Sample.secant
               (DateStr "2024-01-01") (DateStr "2024-01-02") 100
               Sample.flat_two_points _ _ _ _))
            739191%Z 739192%Z (-0x1.e4f649e54cf82p-49) _ _ _);
    try reflexivity.
  now left.
Defined.

(** C9 (as stated) fails: on 100 and 100 one day apart the secant method
    of scipy's [newton] stops within its tolerance at the rate
    [-3.3651003168640587e-15], and the result is that rate times 100, not
    [0.0]. *)
Lemma flat_two_points_solver_residue :
  ~ (forall strptime py_pow newton d0 d1 p,
        (forall y, py_pow 1 y = Ok 1) ->
        positive_finite p = true ->
        py_lt d0 d1 = Ok true ->
        calculate_xirr strptime py_pow newton [mkPrice d0 p; mkPrice d1 p] = Ok 0).
Proof.
  intros H.
  specialize (H Sample.strptime Sample.py_pow Sample.secant
                (DateStr "2024-01-01") (DateStr "2024-01-02") 100).
  assert (E : calculate_xirr Sample.strptime Sample.py_pow Sample.secant
                [mkPrice (DateStr "2024-01-01") 100; mkPrice (DateStr "2024-01-02") 100]
              = Ok (-3.365100316864059e-13)) by (vm_compute; reflexivity).
  rewrite H in E; try reflexivity.
  apply (f_equal (fun r => match r with Ok v => v =? 0 | Raise _ => false end)) in E.
  vm_compute in E. discriminate E.
Qed.

Lemma dates_parsed_only_by_xirr_witness :
  Sample.xirr Sample.datetime_points = Ok 0
  /\ calculate_volatility Sample.datetime_points
     = Ok (spec_volatility (map close (sort_pure Sample.datetime_points))).
Proof.
  pose proof (dates_parsed_only_by_xirr Sample.strptime Sample.py_pow
                Sample.secant Sample.datetime_points 0.02) as (_ & Hx & Hv).
  split.
  - apply Hx. repeat constructor; eexists; reflexivity.
  - refine (proj1 (proj2 (Hv _ _ _))).
    + right. repeat constructor; eexists; reflexivity.
    + simpl. lia.
    + repeat constructor.
Defined.

(** C10 (as stated) fails: ["2024-1-1"] and ["2024-1-2"] are not in the
    exact form ["YYYY-MM-DD"], yet [strptime] parses them and
    [calculate_xirr] returns the annualized return of 100 then 110 one day
    later, not [0.0]. *)
Lemma unpadded_dates_are_parsed :
  ~ (forall py_pow newton prices,
        Forall (fun r => not_exact_iso (date r)) prices ->
        calculate_xirr Sample.strptime py_pow newton prices = Ok 0).
Proof.
  intros H.
  specialize (H Sample.py_pow Sample.secant Sample.unpadded_points).
  assert (E : Sample.xirr Sample.unpadded_points = Ok 1.3142508120774e+17)
    by (vm_compute; reflexivity).
  unfold Sample.xirr in E. rewrite H in E.
  - apply (f_equal (fun r => match r with Ok v => v =? 0 | Raise _ => false end)) in E.
    vm_compute in E. discriminate E.
  - repeat constructor.
Qed.

Lemma beta_zero_cases_witness :
  Sample.beta Sample.four_closes Sample.flat_market = Ok 0
  /\ Sample.beta Sample.four_closes Sample.later_market = Ok 0.
Proof.
  pose proof (beta_zero_cases Sample.to_datetime Sample.np_cov) as H.
  split.
  - apply (proj1 (H Sample.four_closes Sample.flat_market) 10).
    + repeat constructor.
    + vm_compute. reflexivity.
  - eapply (proj2 (H Sample.four_closes Sample.later_market)).
    + reflexivity.
    + reflexivity.
    + intros a b Ha Hb. simpl in Ha, Hb.
      repeat (destruct Ha as [<-|Ha]; [repeat (destruct Hb as [<-|Hb]; [reflexivity|]); contradiction|]).
      contradiction.
Defined.

(** * Further properties of the metrics *)

Lemma sorted_raise_metrics prices e rf :
  sorted prices = Raise e ->
  calculate_volatility prices = Ok 0 /\ calculate_sharpe_ratio prices rf = Ok 0.
Proof.
  intros Hs. unfold calculate_volatility, calculate_sharpe_ratio, volatility_body, sharpe_body.
  destruct (Nat.ltb (List.length prices) 2); [split; reflexivity|].
  rewrite Hs. split; reflexivity.
Qed.

Lemma metrics_of_permutation strptime py_pow newton prices prices' rf :
  NoDup (map date prices) -> Permutation prices prices' ->
  calculate_xirr strptime py_pow newton prices
  = calculate_xirr strptime py_pow newton prices'
  /\ calculate_volatility prices = calculate_volatility prices'
  /\ calculate_sharpe_ratio prices rf = calculate_sharpe_ratio prices' rf.
Proof.
  intros Hnd P. pose proof (Permutation_length P) as Hlen.
  destruct (sorted prices) as [s|e] eqn:Es.
  - pose proof (sorted_ok_homogeneous _ _ Es) as Hh.
    pose proof (homogeneous_perm _ _ P Hh) as Hh'.
    unfold calculate_xirr, xirr_body, calculate_volatility, calculate_sharpe_ratio,
      volatility_body, sharpe_body.
    rewrite <- Hlen.
    rewrite (sorted_homogeneous _ Hh), (sorted_homogeneous _ Hh').
    rewrite (sort_pure_permutation_invariant _ _ Hnd P). repeat split; reflexivity.
  - destruct (sorted_perm_raises _ _ _ P Es) as [e' Es'].
    destruct (sorted_raise_metrics prices e rf Es) as [-> ->].
    destruct (sorted_raise_metrics prices' e' rf Es') as [-> ->].
    rewrite (xirr_sort_raises strptime py_pow newton _ _ Es).
    rewrite (xirr_sort_raises strptime py_pow newton _ _ Es').
    repeat split; reflexivity.
Qed.

(** X1: on a series whose dates are pairwise distinct, [calculate_volatility]
    and [calculate_sharpe_ratio] give the same result on every permutation
    of the records. *)
Theorem volatility_sharpe_permutation_invariant prices prices' rf :
  NoDup (map date prices) -> Permutation prices prices' ->
  calculate_volatility prices = calculate_volatility prices'
  /\ calculate_sharpe_ratio prices rf = calculate_sharpe_ratio prices' rf.
Proof.
  intros Hnd P.
  exact (proj2 (metrics_of_permutation (fun _ => Ok 0%Z) (fun _ _ => Ok 0)
                  (fun _ _ _ => Ok 0) prices prices' rf Hnd P)).
Qed.

Lemma metrics_return_values strptime py_pow newton prices rf :
  exists x s v,
    calculate_xirr strptime py_pow newton prices = Ok x
    /\ calculate_sharpe_ratio prices rf = Ok s
    /\ calculate_volatility prices = Ok v.
Proof.
  unfold calculate_xirr, calculate_sharpe_ratio, calculate_volatility.
  destruct (Nat.ltb (List.length prices) 2); [exists 0, 0, 0; auto|].
  destruct (try_except_returns (xirr_body strptime py_pow newton prices)) as [x ->].
  destruct (try_except_returns (sharpe_body prices rf)) as [s ->].
  destruct (try_except_returns (volatility_body prices)) as [v ->].
  exists x, s, v. auto.
Qed.

Lemma mixed_not_homogeneous prices a b :
  In a prices -> In b prices -> is_str a -> is_obj b -> ~ homogeneous prices.
Proof.
  intros Ia Ib [s Hs] [n Hn] [H|H]; rewrite Forall_forall in H.
  - destruct (H b Ib) as [t Ht]. congruence.
  - destruct (H a Ia) as [t Ht]. congruence.
Qed.

Section MetricsMore.

Variable strptime : string -> PyResult Z.
Variable py_pow : float -> float -> PyResult float.
Variable newton : (float -> PyResult float) -> float -> nat -> PyResult float.
Variable to_datetime : list date_value -> PyResult (list (option Z)).
Variable np_cov : list float -> list float -> float.

(** X2: a series that holds both a string date and a datetime date makes
    [calculate_xirr], [calculate_sharpe_ratio] and [calculate_volatility]
    return [0.0]: the sort compares the two kinds and its [TypeError] is
    absorbed. *)
Theorem mixed_date_kinds_give_zero prices a b rf :
  In a prices -> In b prices -> is_str a -> is_obj b ->
  calculate_xirr strptime py_pow newton prices = Ok 0
  /\ calculate_sharpe_ratio prices rf = Ok 0
  /\ calculate_volatility prices = Ok 0.
Proof.
  intros Ia Ib Ha Hb.
  destruct (sorted prices) as [s|e] eqn:Es.
  - exfalso. apply (mixed_not_homogeneous prices a b Ia Ib Ha Hb).
    eapply sorted_ok_homogeneous; eassumption.
  - destruct (sorted_raise_metrics prices e rf Es) as [Hv Hs].
    split; [eapply xirr_sort_raises; eassumption|]. split; assumption.
Qed.

Lemma last_item_app x mid y : last_item (x :: mid ++ [y]) = Ok y.
Proof.
  revert x. induction mid as [|m mid IH]; intros x; [reflexivity|].
  simpl app. change (last_item (x :: m :: mid ++ [y])) with (last_item (m :: mid ++ [y])).
  apply IH.
Qed.

Lemma sorted_ends_in_order prices x mid y :
  sorted prices = Ok (x :: mid ++ [y]) -> sorted [x; y] = Ok [x; y].
Proof.
  intros Hs. pose proof (sorted_ok_homogeneous _ _ Hs) as Hh.
  pose proof (sorted_homogeneous _ Hh) as Hp. rewrite Hs in Hp.
  apply (f_equal (fun r => match r with Ok l => l | Raise _ => [] end)) in Hp.
  simpl in Hp.
  pose proof (sort_pure_ordered prices) as Ho. rewrite <- Hp in Ho.
  apply StronglySorted_inv in Ho. destruct Ho as [_ Ho].
  assert (Hxy : not_after x y).
  { rewrite Forall_forall in Ho. apply Ho. apply in_or_app. right. now left. }
  assert (Hk : py_lt (date y) (date x) = Ok (key_ltb (date y) (date x))).
  { assert (Ix : In x (sort_pure prices)) by (rewrite <- Hp; now left).
    assert (Iy : In y (sort_pure prices))
      by (rewrite <- Hp; right; apply in_or_app; right; now left).
    destruct Hh as [H|H]; apply sort_pure_Forall in H; rewrite Forall_forall in H.
    - apply py_lt_str; auto.
    - apply py_lt_obj; auto. }
  simpl. rewrite Hk. unfold not_after in Hxy. rewrite Hxy. reflexivity.
Qed.

(** X3: [calculate_xirr] looks only at the earliest and the latest record:
    when the sorted series is [x], some interior records, then [y], the
    result is the one of the two-point series [x], [y]. *)
Theorem xirr_ignores_interior_points prices x mid y :
  sorted prices = Ok (x :: mid ++ [y]) ->
  calculate_xirr strptime py_pow newton prices
  = calculate_xirr strptime py_pow newton [x; y].
Proof.
  intros Hs. pose proof (sorted_length _ _ Hs) as Hl.
  assert (Hlen : (2 <= List.length prices)%nat).
  { rewrite <- Hl. simpl. rewrite length_app. simpl. lia. }
  rewrite (xirr_of_sorted strptime py_pow newton prices _ Hlen Hs).
  rewrite (xirr_of_sorted strptime py_pow newton [x; y] [x; y]);
    [|simpl; lia|eapply sorted_ends_in_order; eassumption].
  cbn [first_item]. rewrite last_item_app. reflexivity.
Qed.

End MetricsMore.

(** ** The sign of the volatility *)

Lemma binary_round_aux_sign mx ex lx :
  match binary_round_aux prec emax false mx ex lx with
  | S754_finite true _ _ | S754_infinity true | S754_zero true => False
  | _ => True
  end.
Proof.
  unfold binary_round_aux.
  destruct (shr_fexp prec emax mx ex lx) as [mrs' e'].
  destruct (shr_fexp prec emax _ e' loc_Exact) as [mrs'' e''].
  destruct (shr_m mrs''); [exact I| |exact I].
  destruct (e'' <=? emax - prec)%Z; exact I.
Qed.

Lemma sqrt_not_negative x : not_negative (PrimFloat.sqrt x).
Proof.
  unfold not_negative. rewrite sqrt_spec. unfold SF64sqrt, SFsqrt.
  destruct (Prim2SF x) as [s|s| |s m e]; try destruct s; try exact I.
  destruct (SFsqrt_core_binary prec emax (Z.pos m) e) as [[mz ez] lz].
  pose proof (binary_round_aux_sign mz ez lz) as H.
  destruct (binary_round_aux prec emax false mz ez lz) as [s|s| |s m' e'];
    try destruct s; try exact I; contradiction.
Qed.

Lemma mul_positive_not_negative x c :
  not_negative x -> positive_finite c = true -> not_negative (x * c).
Proof.
  intros Hx Hc. destruct (positive_finite_spec c Hc) as (_ & _ & Hp).
  unfold positive_finite in Hc. apply andb_true_iff in Hc. destruct Hc as [_ Hi].
  rewrite ltb_spec in Hp, Hi.
  change (Prim2SF 0) with (S754_zero false) in Hp.
  change (Prim2SF infinity) with (S754_infinity false) in Hi.
  unfold not_negative in *. rewrite mul_spec. unfold SF64mul, SFmul.
  destruct (Prim2SF c) as [t|t| |t m' e']; try destruct t; try discriminate.
  destruct (Prim2SF x) as [s|s| |s m e]; try destruct s; try exact I; try contradiction.
  simpl xorb.
  pose proof (binary_round_aux_sign (Z.pos (m * m')) (e + e') loc_Exact) as H.
  destruct (binary_round_aux prec emax false (Z.pos (m * m')) (e + e') loc_Exact)
    as [s|s| |s m'' e'']; try destruct s; try exact I; contradiction.
Qed.

Lemma not_negative_ltb x : not_negative x -> (x <? 0) = false.
Proof.
  unfold not_negative. rewrite ltb_spec. change (Prim2SF 0) with (S754_zero false).
  destruct (Prim2SF x) as [s|s| |s m e]; try destruct s; intros H;
    try contradiction; reflexivity.
Qed.

(** X4: on every input [calculate_volatility] returns a value that is not
    below zero (it may be nan). *)
Theorem volatility_never_negative prices :
  exists v, calculate_volatility prices = Ok v /\ (v <? 0) = false.
Proof.
  unfold calculate_volatility.
  destruct (Nat.ltb (List.length prices) 2); [exists 0; split; reflexivity|].
  unfold volatility_body.
  destruct (sorted prices) as [s|e]; [|exists 0; split; reflexivity]. cbn [bind].
  destruct (daily_returns s) as [rs|e]; [|exists 0; split; reflexivity]. cbn [bind].
  destruct (Nat.eqb (List.length rs) 0); [exists 0; split; reflexivity|].
  eexists. split; [reflexivity|].
  apply not_negative_ltb.
  apply mul_positive_not_negative; [|reflexivity].
  apply mul_positive_not_negative; [|reflexivity].
  unfold np_std. apply sqrt_not_negative.
Qed.

(** X5: on a series of three or more points that all carry one positive
    finite closing price, [calculate_volatility] and
    [calculate_sharpe_ratio] return [0.0], whatever the dates and the
    risk-free rate. *)
Theorem flat_series_gives_zero prices p rf :
  (3 <= List.length prices)%nat -> (Z.of_nat (List.length prices) < 2 ^ 53)%Z ->
  positive_finite p = true -> Forall (fun r => close r = p) prices ->
  calculate_volatility prices = Ok 0 /\ calculate_sharpe_ratio prices rf = Ok 0.
Proof. apply constant_series_zero. Qed.

(** X6: on a series of exactly two points with dates of one kind and
    closes that are not zero, [calculate_volatility] returns a value that is
    not a finite number. *)
Theorem two_point_volatility_is_not_finite prices :
  List.length prices = 2%nat -> homogeneous prices ->
  Forall (fun r => (close r =? 0) = false) prices ->
  exists v, calculate_volatility prices = Ok v /\ is_finite v = false.
Proof.
  intros Hlen Hh Hnz.
  pose proof (sorted_homogeneous _ Hh) as Hs.
  pose proof (sorted_Forall _ _ _ Hnz Hs) as Hnz'.
  assert (Hb : exists v, volatility_body prices = Ok v).
  { unfold volatility_body. rewrite Hs. cbn [bind].
    rewrite (daily_returns_spec _ Hnz'). cbn [bind].
    rewrite spec_daily_returns_length, length_map, sort_pure_length, Hlen.
    cbn [Nat.sub Nat.eqb]. eauto. }
  destruct Hb as [v Hb]. exists v. split.
  - unfold calculate_volatility. rewrite Hlen, Hb. reflexivity.
  - exact (two_point_volatility_not_finite prices v Hlen Hb).
Qed.

Lemma daily_returns_from_zero_close prev pre x y post :
  (close x =? 0) = true ->
  exists e, daily_returns_from prev (pre ++ x :: y :: post) = Raise e.
Proof.
  intros Hz. revert prev. induction pre as [|c pre IH]; intros prev.
  - simpl. destruct (daily_return (close prev) (close x)) as [r|e]; simpl.
    + unfold daily_return, py_div. rewrite Hz. simpl. eauto.
    + eauto.
  - simpl. destruct (daily_return (close prev) (close c)) as [r|e]; simpl; [|eauto].
    destruct (IH c) as [e He]. rewrite He. simpl. eauto.
Qed.

(** X7: a closing price equal to zero anywhere but at the latest point of
    the sorted series makes [calculate_volatility] and
    [calculate_sharpe_ratio] return [0.0]: the division by that price raises
    and the error is absorbed. *)
Theorem zero_close_gives_zero prices pre x y post rf :
  sorted prices = Ok (pre ++ x :: y :: post) ->
  (close x =? 0) = true ->
  calculate_volatility prices = Ok 0 /\ calculate_sharpe_ratio prices rf = Ok 0.
Proof.
  intros Hs Hz.
  assert (Hr : exists e, daily_returns (pre ++ x :: y :: post) = Raise e).
  { destruct pre as [|p pre]; simpl.
    - unfold daily_return, py_div. rewrite Hz. simpl. eauto.
    - exact (daily_returns_from_zero_close p pre x y post Hz). }
  destruct Hr as [e He].
  unfold calculate_volatility, calculate_sharpe_ratio, volatility_body, sharpe_body.
  destruct (Nat.ltb (List.length prices) 2); [split; reflexivity|].
  rewrite Hs. cbn [bind]. rewrite He. split; reflexivity.
Qed.

(** ** Aligned rows of [calculate_beta] *)

Lemma first_row_dropped d cs cm :
  row_has_na (mkRow d cs cm nan nan) = true.
Proof.
  unfold row_has_na. simpl. destruct d; [|reflexivity].
  rewrite !orb_true_r. reflexivity.
Qed.

Lemma dropna_pct_change_length l :
  (List.length (dropna (pct_change l)) <= List.length l - 1)%nat.
Proof.
  destruct l as [|r rest]; [simpl; lia|].
  unfold pct_change, dropna. cbn [filter].
  rewrite first_row_dropped. cbn [negb].
  pose proof (filter_length_le (fun r0 => negb (row_has_na r0)) (pct_change_from r rest)).
  rewrite pct_change_from_length in H. simpl. lia.
Qed.

(** X8: [calculate_beta] needs three aligned dates: when the inner join of
    the two frames has at most two rows the result is [0.0], because the
    first row of the returns is always dropped. *)
Theorem beta_needs_three_aligned_dates
        (to_datetime : list date_value -> PyResult (list (option Z)))
        (np_cov : list float -> list float -> float)
        stock_prices market_prices stock_df market_df :
  to_frame to_datetime stock_prices = Ok stock_df ->
  to_frame to_datetime market_prices = Ok market_df ->
  (List.length (merge stock_df market_df) <= 2)%nat ->
  calculate_beta to_datetime np_cov stock_prices market_prices = Ok 0.
Proof.
  intros Es Em Hl. unfold calculate_beta.
  destruct (Nat.ltb (List.length stock_prices) 2 || Nat.ltb (List.length market_prices) 2);
    [reflexivity|].
  unfold beta_body. rewrite Es, Em. cbn [bind].
  destruct (Nat.ltb (List.length (merge stock_df market_df)) 2); [reflexivity|].
  pose proof (dropna_pct_change_length (sort_values (merge stock_df market_df))) as H.
  rewrite sort_values_length in H.
  replace (Nat.ltb (List.length (dropna (pct_change (sort_values (merge stock_df market_df))))) 2)
    with true by (symmetry; apply Nat.ltb_lt; lia).
  reflexivity.
Qed.

(** * Properties of the web endpoint *)

Module ApiFacts.
Import Api.

Lemma contains_not_http key data e : contains key data = Fail e -> ~ is_http e.
Proof.
  destruct data; simpl; intros H; try discriminate; injection H as <-; exact (fun x => x).
Qed.

Lemma getitem_not_http data key e : getitem data key = Fail e -> ~ is_http e.
Proof.
  destruct data; simpl; intros H; try (injection H as <-; exact (fun x => x)).
  destruct (lookup key members); [discriminate|]. injection H as <-. exact (fun x => x).
Qed.

Lemma items_not_http data e : items data = Fail e -> ~ is_http e.
Proof.
  destruct data; simpl; intros H; try discriminate; injection H as <-; exact (fun x => x).
Qed.

Lemma insert_desc_perm x l : Permutation (x :: l) (insert_desc x l).
Proof.
  induction l as [|y l IH]; simpl; [reflexivity|].
  destruct (key_ltb (date x) (date y)); [|reflexivity].
  rewrite perm_swap. now constructor.
Qed.

Lemma sort_desc_perm l : Permutation l (sort_desc l).
Proof.
  induction l as [|x l IH]; simpl; [constructor|].
  rewrite <- insert_desc_perm. now constructor.
Qed.

Section EndpointFacts.

Variable strptime : string -> PyResult Z.
Variable py_pow : float -> float -> PyResult float.
Variable newton : (float -> PyResult float) -> float -> nat -> PyResult float.
Variable upper : string -> string.
Variable fetch : string -> option json.
Variable parse_float : string -> option float.
Variable round3 : float -> float.
Variable complex_xirr : list price_record -> bool.

Lemma py_float_not_http v e : py_float parse_float v = Fail e -> ~ is_http e.
Proof.
  destruct v; simpl; intros H; try discriminate;
    try (injection H as <-; exact (fun x => x)).
  destruct (parse_float s); [discriminate|]. injection H as <-. exact (fun x => x).
Qed.

Lemma build_prices_not_http entries e :
  build_prices parse_float entries = Fail e -> ~ is_http e.
Proof.
  induction entries as [|[d values] entries IH]; simpl; [discriminate|].
  destruct (getitem values "4. close") as [raw|e1] eqn:E1; simpl.
  - destruct (py_float parse_float raw) as [c|e2] eqn:E2; simpl.
    + destruct (build_prices parse_float entries) as [rest|e3]; simpl; [discriminate|].
      intros H. injection H as <-. now apply IH.
    + intros H. injection H as <-. eapply py_float_not_http; eassumption.
  - intros H. injection H as <-. eapply getitem_not_http; eassumption.
Qed.

Lemma build_prices_dates entries prices :
  build_prices parse_float entries = Done prices ->
  map date prices = map (fun entry => DateStr (fst entry)) entries.
Proof.
  revert prices. induction entries as [|[d values] entries IH]; simpl; intros prices H.
  - injection H as <-. reflexivity.
  - destruct (getitem values "4. close") as [raw|e1]; simpl in H; [|discriminate].
    destruct (py_float parse_float raw) as [c|e2]; simpl in H; [|discriminate].
    destruct (build_prices parse_float entries) as [rest|e3]; simpl in H; [|discriminate].
    injection H as <-. simpl. f_equal. now apply IH.
Qed.

Lemma build_prices_well_formed entries prices :
  build_prices parse_float entries = Done prices ->
  Forall (well_formed_entry parse_float) entries.
Proof.
  revert prices. induction entries as [|[d values] entries IH]; simpl; intros prices H.
  - constructor.
  - destruct (getitem values "4. close") as [raw|e1] eqn:E1; simpl in H; [|discriminate].
    destruct (py_float parse_float raw) as [c|e2] eqn:E2; simpl in H; [|discriminate].
    destruct (build_prices parse_float entries) as [rest|e3]; simpl in H; [|discriminate].
    constructor; [|eapply IH; reflexivity].
    exists raw, c. simpl. split; assumption.
Qed.

Lemma lift_metric_done (m : PyResult float) v : m = Ok v -> lift_metric m = Done v.
Proof. intros ->. reflexivity. Qed.

(** The body fails with an HTTP error only with one of its own three. *)
Lemma analysis_body_http symbol status detail :
  analysis_body strptime py_pow newton upper fetch parse_float round3
    complex_xirr symbol
  = Fail (HTTPException status detail) ->
  (status, detail) = (429%Z, "API rate limit exceeded. Try again later."%string)
  \/ (status, detail) = (400%Z, "Invalid stock symbol"%string)
  \/ (status, detail) = (404%Z, "Stock data not found"%string).
Proof.
  unfold analysis_body.
  destruct (fetch (upper symbol)) as [data|]; [|discriminate].
  destruct (contains "Note" data) as [b1|e1] eqn:E1; simpl;
    [|intros H; injection H as ->; exfalso; exact (contains_not_http _ _ _ E1 I)].
  destruct b1; [intros H; injection H as <- <-; auto|].
  destruct (contains "Error Message" data) as [b2|e2] eqn:E2; simpl;
    [|intros H; injection H as ->; exfalso; exact (contains_not_http _ _ _ E2 I)].
  destruct b2; [intros H; injection H as <- <-; auto|].
  destruct (contains "Time Series (Daily)" data) as [b3|e3] eqn:E3; simpl;
    [|intros H; injection H as ->; exfalso; exact (contains_not_http _ _ _ E3 I)].
  destruct b3; simpl; [|intros H; injection H as <- <-; auto].
  destruct (getitem data "Time Series (Daily)") as [sd|e4] eqn:E4; simpl;
    [|intros H; injection H as ->; exfalso; exact (getitem_not_http _ _ _ E4 I)].
  destruct (items sd) as [entries|e5] eqn:E5; simpl;
    [|intros H; injection H as ->; exfalso; exact (items_not_http _ _ E5 I)].
  destruct (build_prices parse_float entries) as [prices|e6] eqn:E6; simpl;
    [|intros H; injection H as ->; exfalso; exact (build_prices_not_http _ _ E6 I)].
  destruct (calculate_xirr strptime py_pow newton (sort_desc prices)) as [x|e];
    simpl; [|discriminate].
  destruct (calculate_sharpe_ratio (sort_desc prices) default_risk_free_rate) as [s|e];
    simpl; [|discriminate].
  destruct (calculate_volatility (sort_desc prices)) as [v|e]; simpl; [|discriminate].
  unfold round_xirr.
  destruct (Nat.leb 2 (List.length (sort_desc prices)) && complex_xirr (sort_desc prices));
    simpl; discriminate.
Qed.

Lemma endpoint_failure_cases symbol status detail :
  get_stock_analysis strptime py_pow newton upper fetch parse_float round3
    complex_xirr symbol
  = HttpError status detail ->
  (status, detail) = (429%Z, "API rate limit exceeded. Try again later."%string)
  \/ (status, detail) = (400%Z, "Invalid stock symbol"%string)
  \/ (status, detail) = (404%Z, "Stock data not found"%string)
  \/ (status, detail) = (500%Z, "Error fetching stock data"%string).
Proof.
  unfold get_stock_analysis.
  destruct (analysis_body strptime py_pow newton upper fetch parse_float round3
    complex_xirr symbol)
    as [a|e] eqn:E; [discriminate|].
  destruct e; intros H; injection H as <- <-; auto.
  destruct (analysis_body_http _ _ _ E) as [H|[H|H]]; auto.
Qed.

(** X9: whatever the provider answers, [get_stock_analysis] either returns
    an analysis or ends with one of four HTTP errors: 429, 400 and 404 with
    their own messages, or 500 with "Error fetching stock data". *)
Theorem endpoint_failures_are_four symbol status detail :
  get_stock_analysis strptime py_pow newton upper fetch parse_float round3
    complex_xirr symbol
  = HttpError status detail ->
  (status, detail) = (429%Z, "API rate limit exceeded. Try again later."%string)
  \/ (status, detail) = (400%Z, "Invalid stock symbol"%string)
  \/ (status, detail) = (404%Z, "Stock data not found"%string)
  \/ (status, detail) = (500%Z, "Error fetching stock data"%string).
Proof. apply endpoint_failure_cases. Qed.

(** X10: on a JSON object the provider's own error notices come first: a
    "Note" member gives 429 whatever else the object holds, otherwise an
    "Error Message" member gives 400, otherwise a missing
    "Time Series (Daily)" member gives 404. *)
Theorem endpoint_error_precedence symbol members :
  fetch (upper symbol) = Some (JObj members) ->
  let result :=
    get_stock_analysis strptime py_pow newton upper fetch parse_float round3
    complex_xirr symbol in
  (lookup "Note" members <> None ->
   result = HttpError 429 "API rate limit exceeded. Try again later.")
  /\ (lookup "Note" members = None -> lookup "Error Message" members <> None ->
      result = HttpError 400 "Invalid stock symbol")
  /\ (lookup "Note" members = None -> lookup "Error Message" members = None ->
      lookup "Time Series (Daily)" members = None ->
      result = HttpError 404 "Stock data not found").
Proof.
  intros Hf result. unfold result, get_stock_analysis, analysis_body. rewrite Hf.
  cbn [contains and_then]. repeat split.
  - intros H. destruct (lookup "Note" members); [reflexivity|congruence].
  - intros -> H. destruct (lookup "Error Message" members); [reflexivity|congruence].
  - intros -> -> ->. reflexivity.
Qed.

(** X11: a response that cannot be read ends with 500: the request or the
    decoding raised, or the document is an object without provider notices
    whose time series is not an object, or one of whose daily entries lacks
    a "4. close" that [float] accepts. *)
Theorem endpoint_unreadable_is_500 symbol :
  let result :=
    get_stock_analysis strptime py_pow newton upper fetch parse_float round3
    complex_xirr symbol in
  (fetch (upper symbol) = None -> result = HttpError 500 "Error fetching stock data")
  /\ (forall members series,
         fetch (upper symbol) = Some (JObj members) ->
         lookup "Note" members = None -> lookup "Error Message" members = None ->
         lookup "Time Series (Daily)" members = Some series ->
         (forall entries, series = JObj entries ->
                          ~ Forall (well_formed_entry parse_float) entries) ->
         result = HttpError 500 "Error fetching stock data").
Proof.
  intros result. unfold result, get_stock_analysis, analysis_body. split.
  - intros ->. reflexivity.
  - intros members series Hf Hn He Hs Hbad. rewrite Hf.
    cbn [contains and_then]. rewrite Hn, He, Hs. cbn [negb getitem and_then].
    rewrite Hs. cbn [and_then].
    destruct (items series) as [entries|e5] eqn:E5; cbn [and_then].
    + destruct series; try discriminate. simpl in E5. injection E5 as ->.
      destruct (build_prices parse_float entries) as [prices|e6] eqn:E6; cbn [and_then].
      * exfalso. apply (Hbad entries eq_refl).
        eapply build_prices_well_formed; eassumption.
      * pose proof (build_prices_not_http _ _ E6) as Hh.
        destruct e6; try reflexivity. exfalso. exact (Hh I).
    + pose proof (items_not_http _ _ E5) as Hh.
      destruct e5; try reflexivity. exfalso. exact (Hh I).
Qed.

Lemma build_prices_length entries prices :
  build_prices parse_float entries = Done prices ->
  List.length prices = List.length entries.
Proof.
  intros H. apply build_prices_dates in H.
  apply (f_equal (@List.length date_value)) in H. now rewrite !length_map in H.
Qed.

(** X12: on a well-formed response for which [calculate_xirr] yields no
    complex number, the endpoint returns the upper-cased symbol and the
    three metrics, each rounded, of the series in the provider's order: as
    the dates are the distinct keys of an object, the endpoint's own
    newest-first sort does not change any metric.  When [calculate_xirr]
    yields a complex number on two or more points, rounding it fails and
    the endpoint ends with 500. *)
Theorem endpoint_success symbol members entries prices :
  fetch (upper symbol) = Some (JObj members) ->
  lookup "Note" members = None -> lookup "Error Message" members = None ->
  lookup "Time Series (Daily)" members = Some (JObj entries) ->
  NoDup (map fst entries) ->
  build_prices parse_float entries = Done prices ->
  (complex_xirr (sort_desc prices) = false ->
   exists x s v,
     calculate_xirr strptime py_pow newton prices = Ok x
     /\ calculate_sharpe_ratio prices default_risk_free_rate = Ok s
     /\ calculate_volatility prices = Ok v
     /\ get_stock_analysis strptime py_pow newton upper fetch parse_float round3
          complex_xirr symbol
        = Analysis (mkAnalysis (upper symbol) (round3 x) (round3 s) (round3 v)))
  /\ (complex_xirr (sort_desc prices) = true -> (2 <= List.length entries)%nat ->
      get_stock_analysis strptime py_pow newton upper fetch parse_float round3
        complex_xirr symbol
      = HttpError 500 "Error fetching stock data").
Proof.
  intros Hf Hn He Hs Hnd Hb.
  assert (Hd : NoDup (map date prices)).
  { rewrite (build_prices_dates _ _ Hb), <- (map_map fst DateStr).
    apply Injective_map_NoDup; [|exact Hnd].
    intros a b H. now injection H. }
  pose proof (sort_desc_perm prices) as P.
  destruct (metrics_return_values strptime py_pow newton prices default_risk_free_rate)
    as (x & s & v & Hx & Hsh & Hv).
  destruct (metrics_of_permutation strptime py_pow newton prices _
              default_risk_free_rate Hd P) as (Ex & Esh & Ev).
  assert (Hbody : analysis_body strptime py_pow newton upper fetch parse_float round3
                    complex_xirr symbol
                  = (rounded_xirr <~ round_xirr round3 complex_xirr (sort_desc prices) x ;;
                     Done (mkAnalysis (upper symbol) rounded_xirr (round3 s) (round3 v)))).
  { unfold analysis_body. rewrite Hf.
    cbn [contains and_then]. rewrite Hn, He, Hs. cbn [negb getitem and_then].
    rewrite Hs. cbn [items and_then]. rewrite Hb. cbn [and_then].
    rewrite <- Ex, <- Esh, <- Ev, Hx, Hsh, Hv. reflexivity. }
  split.
  - intros Hc. exists x, s, v. repeat split; try assumption.
    unfold get_stock_analysis. rewrite Hbody. unfold round_xirr.
    rewrite Hc, andb_false_r. reflexivity.
  - intros Hc Hl. unfold get_stock_analysis. rewrite Hbody. unfold round_xirr.
    rewrite Hc, andb_true_r.
    replace (Nat.leb 2 (List.length (sort_desc prices))) with true; [reflexivity|].
    symmetry. apply Nat.leb_le.
    rewrite <- (Permutation_length P), (build_prices_length _ _ Hb). exact Hl.
Qed.

(** X13: a well-formed time series of fewer than two days is no error: the
    endpoint returns an analysis whose three metrics are the rounding of
    [0.0]. *)
Theorem endpoint_short_series symbol members entries prices :
  fetch (upper symbol) = Some (JObj members) ->
  lookup "Note" members = None -> lookup "Error Message" members = None ->
  lookup "Time Series (Daily)" members = Some (JObj entries) ->
  build_prices parse_float entries = Done prices ->
  (List.length entries < 2)%nat ->
  get_stock_analysis strptime py_pow newton upper fetch parse_float round3
    complex_xirr symbol
  = Analysis (mkAnalysis (upper symbol) (round3 0) (round3 0) (round3 0)).
Proof.
  intros Hf Hn He Hs Hb Hl.
  unfold get_stock_analysis, analysis_body. rewrite Hf.
  cbn [contains and_then]. rewrite Hn, He, Hs. cbn [negb getitem and_then].
  rewrite Hs. cbn [items and_then]. rewrite Hb. cbn [and_then].
  assert (Hlen : Nat.ltb (List.length (sort_desc prices)) 2 = true).
  { apply Nat.ltb_lt. rewrite <- (Permutation_length (sort_desc_perm prices)).
    now rewrite (build_prices_length _ _ Hb). }
  unfold calculate_xirr, calculate_sharpe_ratio, calculate_volatility, round_xirr.
  rewrite Hlen. cbn [lift_metric and_then].
  replace (Nat.leb 2 (List.length (sort_desc prices))) with false; [reflexivity|].
  symmetry. apply Nat.leb_gt. now apply Nat.ltb_lt.
Qed.

End EndpointFacts.
End ApiFacts.

(** * Properties of the dashboard *)

Module DashboardFacts.
Import Dashboard.

(** X14: an error of the endpoint reaches the user of the dashboard with
    the endpoint's own message when it is a 429, a 400 or a 404, and as
    "Error: 500" when it is a 500. *)
Theorem dashboard_shows_endpoint_error
        strptime py_pow newton upper fetch parse_float round3 complex_xirr
        decode_message decode_is_request_exception body_of symbol status detail :
  Api.get_stock_analysis strptime py_pow newton upper fetch parse_float round3
    complex_xirr symbol
  = Api.HttpError status detail ->
  fetch_stock_data decode_message decode_is_request_exception
    (rendered (Api.HttpError status detail) body_of)
  = (None, Some (if (status =? 500)%Z then "Error: 500"%string else detail)).
Proof.
  intros H. apply ApiFacts.endpoint_failure_cases in H.
  destruct H as [H|[H|[H|H]]]; injection H as -> ->; reflexivity.
Qed.

(** X15: [fetch_stock_data] returns no error exactly for a response with
    status 200 whose body decodes, and then its first component is the
    decoded body: the document, or [None] when the body is JSON's [null], in
    which case it returns neither data nor an error.  With an error it
    returns no data. *)
Theorem fetch_returns_data_or_error decode_message decode_is_request_exception outcome :
  let r := fetch_stock_data decode_message decode_is_request_exception outcome in
  (snd r = None <-> exists data, outcome = Responded 200 (Ok data))
  /\ (forall data, outcome = Responded 200 (Ok data) -> r = (py_value data, None))
  /\ (snd r <> None -> fst r = None)
  /\ (r = (None, None) <-> outcome = Responded 200 (Ok Api.JNull)).
Proof.
  cbv zeta.
  destruct outcome as [status body|m|m]; cbn [fetch_stock_data].
  2,3: (simpl;
        split; [split; [intros H; discriminate H|intros (d & H); discriminate H]|];
        split; [intros d H; discriminate H|];
        split; [reflexivity|split; intros H; discriminate H]).
  destruct (status =? 200)%Z eqn:E200.
  - apply Z.eqb_eq in E200. subst status. destruct body as [data|e].
    + simpl. split; [split; [eauto|reflexivity]|].
      split; [intros d H; injection H as <-; reflexivity|].
      split; [intros H; exfalso; apply H; reflexivity|].
      split.
      * intros H. destruct data; try discriminate H. reflexivity.
      * intros H. injection H as ->. reflexivity.
    + destruct (decode_is_request_exception e);
        (simpl;
         split; [split; [intros H; discriminate H|intros (d & H); discriminate H]|];
         split; [intros d H; discriminate H|];
         split; [reflexivity|split; intros H; discriminate H]).
  - apply Z.eqb_neq in E200.
    destruct (status =? 429)%Z; [|destruct (status =? 400)%Z; [|destruct (status =? 404)%Z]];
      (simpl;
       split; [split; [intros H; discriminate H
                      |intros (d & H); injection H as H _; contradiction]|];
       split; [intros d H; injection H as H _; contradiction|];
       split; [reflexivity
              |split; [intros H; discriminate H
                      |intros H; injection H as H _; contradiction]]).
Qed.

(** X16: the branch that asks for a symbol is never taken: a click with an
    empty symbol does nothing, and a click with any other symbol fetches
    it. *)
Theorem empty_symbol_is_never_reported analyze_button symbol :
  on_click analyze_button symbol <> AskForSymbol
  /\ (on_click true symbol = Nothing <-> symbol = EmptyString)
  /\ (symbol <> EmptyString -> on_click true symbol = Fetch symbol).
Proof.
  unfold on_click. destruct symbol as [|c s]; simpl.
  - rewrite andb_false_r. repeat split; try discriminate; congruence.
  - destruct analyze_button; simpl; repeat split; try discriminate; congruence.
Qed.

End DashboardFacts.

(** * Properties of the launcher *)

Module LauncherFacts.
Import Launcher.

Ltac split_files path_exists :=
  destruct (path_exists "main.py"%string) eqn:?;
  destruct (path_exists "finance_utils.py"%string) eqn:?;
  destruct (path_exists "streamlit_app.py"%string) eqn:?;
  destruct (path_exists "requirements.txt"%string) eqn:?.

Ltac use_forall :=
  repeat match goal with
         | H : Forall _ (_ :: _) |- _ => inversion H; clear H; subst
         end.

(** X17: [check_prerequisites] returns normally exactly when the four
    required files exist and either the environment file exists or the
    answer to the prompt, lower-cased and stripped, is "y"; the exception
    of [input] goes through exactly when the files exist, the environment
    file does not and the prompt is not answered; in every other case, a
    required file missing or another answer given, it exits with code 1. *)
Theorem prerequisites_pass_iff path_exists answer lower_strip :
  let files_present := Forall (fun file => path_exists file = true) required_files in
  let r := result (check_prerequisites path_exists answer lower_strip) in
  (r = Returned
   <-> files_present
       /\ (path_exists ".env"%string = true
           \/ exists line, answer = Some line /\ lower_strip line = "y"%string))
  /\ (r = Uncaught
      <-> files_present /\ path_exists ".env"%string = false /\ answer = None)
  /\ (r = Exited 1
      <-> ~ files_present
          \/ (path_exists ".env"%string = false
              /\ exists line, answer = Some line /\ lower_strip line <> "y"%string))
  /\ (r = Returned \/ r = Uncaught \/ r = Exited 1).
Proof.
  cbv zeta. unfold check_prerequisites, required_files. cbn [filter].
  split_files path_exists; cbn [negb result].
  all: try (split; [split; [intros H; discriminate H|intros [H _]; use_forall; congruence]|];
       split; [split; [intros H; discriminate H|intros [H _]; use_forall; congruence]|];
       split; [split; [intros _; left; intros H; use_forall; congruence|reflexivity]|];
       right; right; reflexivity).
  assert (Hall : Forall (fun file => path_exists file = true)
                        ["main.py"; "finance_utils.py"; "streamlit_app.py";
                         "requirements.txt"]%string)
    by (repeat constructor; assumption).
  destruct (path_exists ".env"%string) eqn:Eenv; cbn [negb result].
  - split; [split; [auto|reflexivity]|].
    split; [split; [intros H; discriminate H|intros (_ & H & _); discriminate H]|].
    split; [|left; reflexivity].
    split; [intros H; discriminate H|].
    intros [H|[H _]]; [contradiction|discriminate H].
  - destruct answer as [line|]; cbn [result].
    + destruct (String.eqb (lower_strip line) "y"%string) eqn:Ey; cbn [result].
      * apply String.eqb_eq in Ey.
        split; [split; [intros _; split; [assumption|right; eauto]|reflexivity]|].
        split; [split; [intros H; discriminate H|intros (_ & _ & H); discriminate H]|].
        split; [|left; reflexivity].
        split; [intros H; discriminate H|].
        intros [H|[_ (l & Hl & Hy)]]; [contradiction|].
        injection Hl as <-. contradiction.
      * apply String.eqb_neq in Ey.
        split; [split; [intros H; discriminate H|]|].
        { intros [_ [H|(l & Hl & Hy)]]; [discriminate H|].
          injection Hl as <-. contradiction. }
        split; [split; [intros H; discriminate H|intros (_ & _ & H); discriminate H]|].
        split; [|right; right; reflexivity].
        split; [|reflexivity].
        intros _. right. split; [reflexivity|]. eauto.
    + split; [split; [intros H; discriminate H|]|].
      { intros [_ [H|(l & Hl & _)]]; discriminate. }
      split; [split; [auto|reflexivity]|].
      split; [|right; left; reflexivity].
      split; [intros H; discriminate H|].
      intros [H|[_ (l & Hl & _)]]; [contradiction|discriminate Hl].
Qed.

Ltac listing :=
  repeat match goal with
         | H : _ \/ _ |- _ => destruct H as [H|H]
         | H : False |- _ => contradiction
         | H : (_ ++ _)%string = _ |- _ => simpl in H
         | H : String _ _ = String _ _ |- _ =>
             first [discriminate H | injection H as H; subst]
         | H : _ = (_ ++ _)%string |- _ => simpl in H
         end.

(** X18: when a required file is missing [check_prerequisites] exits with
    code 1 without prompting, and the lines of the form ["   - file"] it
    prints are exactly those of the required files that are missing. *)
Theorem missing_files_are_listed path_exists answer lower_strip :
  (exists file, In file required_files /\ path_exists file = false) ->
  let r := check_prerequisites path_exists answer lower_strip in
  result r = Exited 1
  /\ prompted r = false
  /\ forall file,
       In ("   - " ++ file)%string (printed r)
       <-> (In file required_files /\ path_exists file = false).
Proof.
  intros (f & Hin & Hf). unfold check_prerequisites, required_files in *.
  cbn [filter].
  split_files path_exists; cbn [negb];
    try (exfalso; simpl in Hin; destruct Hin as [<-|[<-|[<-|[<-|[]]]]]; congruence);
    (split; [reflexivity|]; split; [reflexivity|]);
    intros file; cbn [printed map app]; split.
  all: try (intros H; simpl in H; listing; split; simpl; auto 6).
  all: try (intros [H1 H2]; simpl in H1; destruct H1 as [<-|[<-|[<-|[<-|[]]]]];
            try congruence; simpl; auto 8).
Qed.

End LauncherFacts.

(** * The further properties on concrete inputs *)

Lemma volatility_sharpe_permutation_invariant_witness :
  calculate_volatility Sample.four_closes = calculate_volatility (rev Sample.four_closes)
  /\ calculate_sharpe_ratio Sample.four_closes 0.02
     = calculate_sharpe_ratio (rev Sample.four_closes) 0.02.
Proof.
  apply volatility_sharpe_permutation_invariant.
  - repeat constructor; simpl; intuition discriminate.
  - apply Permutation_rev.
Defined.

Lemma mixed_date_kinds_give_zero_witness :
  Sample.xirr Demo.mixed_points = Ok 0
  /\ calculate_sharpe_ratio Demo.mixed_points 0.02 = Ok 0
  /\ calculate_volatility Demo.mixed_points = Ok 0.
Proof.
  apply (mixed_date_kinds_give_zero Sample.strptime Sample.py_pow Sample.secant
           Demo.mixed_points (Sample.point "2024-01-01" 100) (mkPrice (DateObj 739192) 110)).
  - simpl; auto.
  - simpl; auto.
  - eexists; reflexivity.
  - eexists; reflexivity.
Defined.

Lemma xirr_ignores_interior_points_witness :
  Sample.xirr Sample.four_closes
  = Sample.xirr [Sample.point "2024-01-01" 100; Sample.point "2024-01-04" 105].
Proof.
  apply (xirr_ignores_interior_points Sample.strptime Sample.py_pow Sample.secant
           Sample.four_closes (Sample.point "2024-01-01" 100)
           [Sample.point "2024-01-02" 102; Sample.point "2024-01-03" 101]
           (Sample.point "2024-01-04" 105)).
  reflexivity.
Defined.

Lemma flat_series_gives_zero_witness :
  calculate_volatility Sample.flat_three_points = Ok 0
  /\ calculate_sharpe_ratio Sample.flat_three_points 0.02 = Ok 0.
Proof.
  apply (flat_series_gives_zero Sample.flat_three_points 100 0.02).
  - simpl. lia.
  - vm_compute. reflexivity.
  - reflexivity.
  - repeat constructor.
Defined.

Lemma two_point_volatility_is_not_finite_witness :
  exists v, calculate_volatility Sample.two_points = Ok v /\ is_finite v = false.
Proof.
  apply two_point_volatility_is_not_finite.
  - reflexivity.
  - left. repeat constructor; eexists; reflexivity.
  - repeat constructor.
Defined.

Lemma zero_close_gives_zero_witness :
  calculate_volatility Demo.zero_close_points = Ok 0
  /\ calculate_sharpe_ratio Demo.zero_close_points 0.02 = Ok 0.
Proof.
  apply (zero_close_gives_zero Demo.zero_close_points
           [Sample.point "2024-01-01" 100] (Sample.point "2024-01-02" 0)
           (Sample.point "2024-01-03" 105) [] 0.02); reflexivity.
Defined.

Lemma beta_needs_three_aligned_dates_witness :
  Sample.beta Sample.four_closes Sample.two_points = Ok 0.
Proof.
  eapply (beta_needs_three_aligned_dates Sample.to_datetime Sample.np_cov
            Sample.four_closes Sample.two_points).
  - reflexivity.
  - reflexivity.
  - vm_compute. lia.
Defined.

Lemma endpoint_failures_are_four_witness :
  (429%Z, "API rate limit exceeded. Try again later."%string)
  = (429%Z, "API rate limit exceeded. Try again later."%string)
  \/ (429%Z, "API rate limit exceeded. Try again later."%string)
     = (400%Z, "Invalid stock symbol"%string)
  \/ (429%Z, "API rate limit exceeded. Try again later."%string)
     = (404%Z, "Stock data not found"%string)
  \/ (429%Z, "API rate limit exceeded. Try again later."%string)
     = (500%Z, "Error fetching stock data"%string).
Proof.
  apply (ApiFacts.endpoint_failures_are_four Sample.strptime Sample.py_pow
           Sample.secant Demo.upper Demo.fetch Demo.parse_float Demo.round3 Demo.complex_xirr
           "busy"%string).
  reflexivity.
Defined.

Lemma endpoint_error_precedence_witness :
  Demo.get_stock_analysis "busy"
  = Api.HttpError 429 "API rate limit exceeded. Try again later.".
Proof.
  refine (proj1 (ApiFacts.endpoint_error_precedence Sample.strptime Sample.py_pow
                   Sample.secant Demo.upper Demo.fetch Demo.parse_float
                   Demo.round3 Demo.complex_xirr "busy"%string _ _) _).
  - reflexivity.
  - discriminate.
Defined.

Lemma endpoint_unreadable_is_500_witness :
  Demo.get_stock_analysis "unknown" = Api.HttpError 500 "Error fetching stock data"
  /\ Demo.get_stock_analysis "broken" = Api.HttpError 500 "Error fetching stock data".
Proof.
  split.
  - apply (proj1 (ApiFacts.endpoint_unreadable_is_500 Sample.strptime Sample.py_pow
                    Sample.secant Demo.upper Demo.fetch Demo.parse_float
                    Demo.round3 Demo.complex_xirr "unknown"%string)).
    reflexivity.
  - eapply (proj2 (ApiFacts.endpoint_unreadable_is_500 Sample.strptime Sample.py_pow
                     Sample.secant Demo.upper Demo.fetch Demo.parse_float
                     Demo.round3 Demo.complex_xirr "broken"%string)); try reflexivity.
    intros entries H. injection H as <-. intros F.
    inversion F as [|? ? _ F']; subst. inversion F' as [|? ? (raw & c & Hg & _) _]; subst.
    discriminate Hg.
Defined.

Lemma endpoint_success_witness :
  exists x s v,
    Sample.xirr (map (fun p => Sample.point (fst p) (snd p))
                     [("2024-01-04", 105); ("2024-01-03", 101);
                      ("2024-01-02", 102); ("2024-01-01", 100)]%string) = Ok x
    /\ calculate_sharpe_ratio
         (map (fun p => Sample.point (fst p) (snd p))
              [("2024-01-04", 105); ("2024-01-03", 101);
               ("2024-01-02", 102); ("2024-01-01", 100)]%string)
         default_risk_free_rate = Ok s
    /\ calculate_volatility
         (map (fun p => Sample.point (fst p) (snd p))
              [("2024-01-04", 105); ("2024-01-03", 101);
               ("2024-01-02", 102); ("2024-01-01", 100)]%string) = Ok v
    /\ Demo.get_stock_analysis "aapl"
       = Api.Analysis (Api.mkAnalysis "AAPL" (Demo.round3 x) (Demo.round3 s) (Demo.round3 v)).
Proof.
  pose proof (fun members entries prices H1 H2 H3 H4 H5 H6 =>
                proj1 (ApiFacts.endpoint_success Sample.strptime Sample.py_pow
                         Sample.secant Demo.upper Demo.fetch Demo.parse_float
                         Demo.round3 Demo.complex_xirr "aapl"%string
                         members entries prices H1 H2 H3 H4 H5 H6)) as H.
  eapply H; try reflexivity.
  repeat constructor; simpl; intuition discriminate.
Defined.

Lemma endpoint_short_series_witness :
  Demo.get_stock_analysis "new"
  = Api.Analysis (Api.mkAnalysis "NEW" (Demo.round3 0) (Demo.round3 0) (Demo.round3 0)).
Proof.
  eapply (ApiFacts.endpoint_short_series Sample.strptime Sample.py_pow
            Sample.secant Demo.upper Demo.fetch Demo.parse_float Demo.round3 Demo.complex_xirr
            "new"%string); try reflexivity.
  simpl. lia.
Defined.

Lemma dashboard_shows_endpoint_error_witness :
  Dashboard.fetch_stock_data Demo.decode_message Demo.decode_is_request_exception
    (Dashboard.rendered (Demo.get_stock_analysis "broken") Demo.body_of)
  = (None, Some "Error: 500"%string).
Proof.
  exact (DashboardFacts.dashboard_shows_endpoint_error Sample.strptime Sample.py_pow
           Sample.secant Demo.upper Demo.fetch Demo.parse_float Demo.round3 Demo.complex_xirr
           Demo.decode_message Demo.decode_is_request_exception Demo.body_of
           "broken"%string 500%Z "Error fetching stock data"%string eq_refl).
Defined.

Lemma fetch_returns_data_or_error_witness :
  Dashboard.fetch_stock_data Demo.decode_message Demo.decode_is_request_exception
    (Dashboard.Responded 200 (Ok Api.JNull))
  = (None, None)
  /\ Dashboard.fetch_stock_data Demo.decode_message Demo.decode_is_request_exception
       (Dashboard.Responded 200 (Ok Demo.good_document))
     = (Some Demo.good_document, None).
Proof.
  split.
  - apply (proj2 (proj2 (proj2 (proj2
             (DashboardFacts.fetch_returns_data_or_error Demo.decode_message
                Demo.decode_is_request_exception
                (Dashboard.Responded 200 (Ok Api.JNull))))))).
    reflexivity.
  - exact (proj1 (proj2
             (DashboardFacts.fetch_returns_data_or_error Demo.decode_message
                Demo.decode_is_request_exception
                (Dashboard.Responded 200 (Ok Demo.good_document))))
             Demo.good_document eq_refl).
Defined.

Lemma empty_symbol_is_never_reported_witness :
  Dashboard.on_click true "AAPL" = Dashboard.Fetch "AAPL".
Proof.
  apply (proj2 (proj2 (DashboardFacts.empty_symbol_is_never_reported true "AAPL"%string))).
  discriminate.
Defined.

Lemma prerequisites_pass_iff_witness :
  Launcher.result
    (Launcher.check_prerequisites Demo.path_exists_no_env (Some " Y "%string)
       Demo.lower_strip)
  = Launcher.Returned
  /\ Launcher.result
       (Launcher.check_prerequisites Demo.path_exists_no_env (Some "no"%string)
          Demo.lower_strip)
     = Launcher.Exited 1.
Proof.
  split.
  - apply (proj2 (proj1 (LauncherFacts.prerequisites_pass_iff Demo.path_exists_no_env
                           (Some " Y "%string) Demo.lower_strip))).
    split; [repeat constructor|]. right. exists " Y "%string. split; reflexivity.
  - apply (proj2 (proj1 (proj2 (proj2
             (LauncherFacts.prerequisites_pass_iff Demo.path_exists_no_env
                (Some "no"%string) Demo.lower_strip))))).
    right. split; [reflexivity|]. exists "no"%string. split; [reflexivity|].
    intros H. vm_compute in H. discriminate H.
Defined.

Lemma missing_files_are_listed_witness :
  Launcher.result (Launcher.check_prerequisites Demo.path_exists None (fun s => s))
  = Launcher.Exited 1
  /\ Launcher.prompted (Launcher.check_prerequisites Demo.path_exists None (fun s => s))
     = false.
Proof.
  destruct (LauncherFacts.missing_files_are_listed Demo.path_exists None (fun s => s))
    as (H1 & H2 & _).
  - exists "requirements.txt"%string. split; [simpl; auto|reflexivity].
  - split; assumption.
Defined.
